(** * File organizer: classification, learning store, cleanup and organization

    A shallow embedding of the [file_organizer] package
    (core/models.py, core/learning.py, engines/metadata_processor.py,
    engines/cleanup_engine.py, engines/organization_engine.py, main.py)
    together with the properties of its specification.

    Conventions of the embedding:
    - Python [str] is [string]; case mapping and white space are the ASCII
      ones, every other character is left alone.
    - a [pathlib.Path] is its [parts] tuple, an anchored path starting with
      the part ["/"].
    - a Python [dict] is an association list in insertion order with at most
      one binding per key; assignment to a present key keeps its position.
    - [float] scores are rationals ([Q]); [min] and [max] are the two-argument
      built-ins.
    - exceptions are values of [exn]; code that may raise returns a [result].
    - the file system is a finite map from paths to node kinds, plus the set
      of paths on which the operating system refuses access. *)

From Stdlib Require Import Ascii String QArith Qminmax Lqa.
From stdpp Require Import gmap strings list fin_maps sorting.

Local Open Scope string_scope.
Local Open Scope list_scope.

(** ** Python built-ins *)

Module Py.

(** *** Characters and strings *)

Definition is_upper (c : ascii) : bool :=
  let n := nat_of_ascii c in (65 <=? n)%nat && (n <=? 90)%nat.

Definition is_lower (c : ascii) : bool :=
  let n := nat_of_ascii c in (97 <=? n)%nat && (n <=? 122)%nat.

Definition is_cased (c : ascii) : bool := is_upper c || is_lower c.

(** [str.isspace] on ASCII: tab, line feed, vertical tab, form feed,
    carriage return, the four separators 28..31 and the blank. *)
Definition is_space (c : ascii) : bool :=
  let n := nat_of_ascii c in
  ((9 <=? n)%nat && (n <=? 13)%nat) || ((28 <=? n)%nat && (n <=? 32)%nat).

Definition lower_char (c : ascii) : ascii :=
  if is_upper c then ascii_of_nat (nat_of_ascii c + 32) else c.

Definition upper_char (c : ascii) : ascii :=
  if is_lower c then ascii_of_nat (nat_of_ascii c - 32) else c.

(** [s.lower()] *)
Fixpoint lower (s : string) : string :=
  match s with
  | EmptyString => EmptyString
  | String c s' => String (lower_char c) (lower s')
  end.

(** [s.title()]: a cased character is upper-cased when the previous
    character is not cased and lower-cased otherwise. *)
Fixpoint title_from (previous_is_cased : bool) (s : string) : string :=
  match s with
  | EmptyString => EmptyString
  | String c s' =>
      String (if previous_is_cased then lower_char c else upper_char c)
             (title_from (is_cased c) s')
  end.

Definition title (s : string) : string := title_from false s.

(** [s.startswith(p)] *)
Definition startswith (s p : string) : bool := String.prefix p s.

(** [len(s)] *)
Definition len (s : string) : nat := String.length s.

(** [s[:n]] *)
Definition slice_to (n : nat) (s : string) : string := substring 0 n s.

(** [l[:stop]] on a list: the first [stop] items, and all but the last
    [-stop] when [stop] is negative. *)
Definition list_slice_to {A : Type} (l : list A) (stop : Z) : list A :=
  if (0 <=? stop)%Z then firstn (Z.to_nat stop) l
  else firstn (length l - Z.to_nat (- stop)) l.

(** [s[n:]] *)
Fixpoint slice_from (n : nat) (s : string) : string :=
  match n, s with
  | O, _ => s
  | S n', String _ s' => slice_from n' s'
  | S _, EmptyString => EmptyString
  end.

(** [s.rfind(c)] for a one-character needle, counting from [i]. *)
Fixpoint rfind_from (c : ascii) (s : string) (i : nat) : option nat :=
  match s with
  | EmptyString => None
  | String a s' =>
      match rfind_from c s' (S i) with
      | Some j => Some j
      | None => if Ascii.eqb a c then Some i else None
      end
  end.

Definition rfind (c : ascii) (s : string) : option nat := rfind_from c s 0.

(** Splitting at the characters satisfying [sep]; [cur] is the piece being
    read, in reverse. Empty pieces are kept. *)
Fixpoint split_on (sep : ascii -> bool) (s : string) (cur : string) : list string :=
  match s with
  | EmptyString => [String.rev cur]
  | String c s' =>
      if sep c then String.rev cur :: split_on sep s' EmptyString
      else split_on sep s' (String c cur)
  end.

(** Truth value of a string and of a list. *)
Definition nonempty (s : string) : bool :=
  match s with EmptyString => false | _ => true end.

Definition nonempty_list {A : Type} (l : list A) : bool :=
  match l with [] => false | _ => true end.

(** [s.split()]: maximal runs of characters that are not white space. *)
Definition split (s : string) : list string :=
  List.filter nonempty (split_on is_space s EmptyString).

(** [sep.join(l)] *)
Definition join (sep : string) (l : list string) : string := String.concat sep l.

Definition mem_char (chars : string) (c : ascii) : bool :=
  existsb (Ascii.eqb c) (list_ascii_of_string chars).

Fixpoint lstrip_if (drop : ascii -> bool) (s : string) : string :=
  match s with
  | EmptyString => EmptyString
  | String c s' => if drop c then lstrip_if drop s' else s
  end.

Definition strip_if (drop : ascii -> bool) (s : string) : string :=
  String.rev (lstrip_if drop (String.rev (lstrip_if drop s))).

(** [s.strip(chars)] *)
Definition strip (chars : string) (s : string) : string :=
  strip_if (mem_char chars) s.

(** [s.strip()] *)
Definition strip_space (s : string) : string := strip_if is_space s.

(** *** Dictionaries *)

Definition dict (K V : Type) : Type := list (K * V).

Section Dict.
Context {K V : Type} `{EqDecision K}.

Fixpoint lookup (d : dict K V) (k : K) : option V :=
  match d with
  | [] => None
  | (k', v) :: d' => if decide (k' = k) then Some v else lookup d' k
  end.

(** [d.get(k, default)] *)
Definition get (d : dict K V) (k : K) (default : V) : V :=
  match lookup d k with Some v => v | None => default end.

(** [d[k] = v] *)
Fixpoint set (d : dict K V) (k : K) (v : V) : dict K V :=
  match d with
  | [] => [(k, v)]
  | (k', v') :: d' =>
      if decide (k' = k) then (k', v) :: d' else (k', v') :: set d' k v
  end.

(** [d.setdefault(k, v)], the dictionary afterwards *)
Definition setdefault (d : dict K V) (k : K) (v : V) : dict K V :=
  match lookup d k with Some _ => d | None => set d k v end.

(** [list(d)] *)
Definition keys (d : dict K V) : list K := List.map fst d.
End Dict.

(** *** Sorting *)

(** [sorted(l, key=key, reverse=True)]: descending and stable, elements
    with equal keys stay in their original order. *)
Section Sorted.
Context {A : Type} (key : A -> Z).

Fixpoint insert_desc (x : A) (l : list A) : list A :=
  match l with
  | [] => [x]
  | y :: l' =>
      if (key x <? key y)%Z then y :: insert_desc x l' else x :: y :: l'
  end.

Fixpoint sorted_desc (l : list A) : list A :=
  match l with
  | [] => []
  | x :: l' => insert_desc x (sorted_desc l')
  end.

(** The order of the result: the keys never increase. *)
Definition desc : relation A := fun a b => (key b <= key a)%Z.
End Sorted.

(** [a < b] on floats *)
Definition lt (a b : Q) : bool := negb (Qle_bool b a).

(** [min(a, b)] and [max(a, b)] on floats: the first argument unless the
    second is strictly smaller (larger). *)
Definition min (a b : Q) : Q := Qmin a b.
Definition max (a b : Q) : Q := Qmax a b.

End Py.

(** ** pathlib *)

Abbreviation Path := (list string) (only parsing).

Module PathLib.

Definition anchor : string := "/".

Definition is_absolute (p : Path) : bool :=
  match p with
  | a :: _ => String.eqb a anchor
  | [] => false
  end.

(** [Path(s)]: the pieces between slashes, without the empty ones and
    the single dots, after the anchor when [s] starts with a slash. *)
Definition parse (s : string) : Path :=
  let pieces :=
    List.filter (fun x => Py.nonempty x && negb (String.eqb x "."))
                (Py.split_on (Ascii.eqb "/"%char) s EmptyString) in
  if Py.startswith s "/" then anchor :: pieces else pieces.

(** [p / q] *)
Definition joinpath (p q : Path) : Path :=
  if is_absolute q then q else p ++ q.

(** [p.name] *)
Definition name (p : Path) : string :=
  match List.last (List.map Some p) None with
  | Some s => if String.eqb s anchor then "" else s
  | None => ""
  end.

(** [p.parent] *)
Definition parent (p : Path) : Path :=
  match p with
  | [a] => if String.eqb a anchor then p else []
  | _ => List.removelast p
  end.

(** [p.suffix]: from the last dot of the name, when that dot is neither
    the first nor the last character. *)
Definition suffix (p : Path) : string :=
  let n := name p in
  match Py.rfind "."%char n with
  | Some i =>
      if (0 <? i)%nat && (i <? Py.len n - 1)%nat then Py.slice_from i n else ""
  | None => ""
  end.

(** [p.stem] *)
Definition stem (p : Path) : string :=
  let n := name p in
  match Py.rfind "."%char n with
  | Some i =>
      if (0 <? i)%nat && (i <? Py.len n - 1)%nat then Py.slice_to i n else n
  | None => n
  end.

(** [len(p.parts)] *)
Definition depth (p : Path) : Z := Z.of_nat (List.length p).

(** Going through the parts of a path from the directory [reached]: a
    part [".."] leaves the directory reached so far (the anchor is its own
    parent), any other part enters it. *)
Fixpoint collapse (reached : Path) (parts : list string) : Path :=
  match parts with
  | [] => reached
  | x :: parts' =>
      if String.eqb x ".." then collapse (parent reached) parts'
      else collapse (reached ++ [x]) parts'
  end.

(** [p.resolve()] in a process whose working directory is [cwd], in a tree
    without symbolic links: the path is made absolute, then its [".."]
    parts are followed. *)
Definition resolve (cwd p : Path) : Path :=
  collapse [] (if is_absolute p then p else cwd ++ p).

End PathLib.

Declare Scope path_scope.
Delimit Scope path_scope with path.
Infix "//" := PathLib.joinpath (at level 40, left associativity) : path_scope.
Local Open Scope path_scope.

(** ** Exceptions *)

(** The exception classes the code distinguishes. [PermissionError],
    [FileNotFoundError] and [FileExistsError] are subclasses of [OSError];
    every class here is a subclass of [Exception]. The string is [str(exc)]. *)
Inductive exn : Type :=
| PermissionError (msg : string)
| FileNotFoundError (msg : string)
| FileExistsError (msg : string)
| OSError (msg : string)
| JSONDecodeError (msg : string)
| AttributeError (msg : string)
| ValueError (msg : string)
| OverflowError (msg : string)
| OtherException (msg : string).

Definition str_exc (e : exn) : string :=
  match e with
  | PermissionError m | FileNotFoundError m | FileExistsError m | OSError m
  | JSONDecodeError m | AttributeError m | ValueError m | OverflowError m
  | OtherException m => m
  end.

Definition is_PermissionError (e : exn) : bool :=
  match e with PermissionError _ => true | _ => false end.

Definition is_OSError (e : exn) : bool :=
  match e with
  | PermissionError _ | FileNotFoundError _ | FileExistsError _ | OSError _ => true
  | _ => false
  end.

Inductive result (A : Type) : Type :=
| Return (a : A)
| Raise (e : exn).
Arguments Return {A} a.
Arguments Raise {A} e.

Definition returns {A : Type} (r : result A) : Prop := exists a, r = Return a.
Definition raises {A : Type} (r : result A) : Prop := exists e, r = Raise e.

(** [float(n)] of an [int]. Floats are read as rationals, without
    rounding and without infinities; the conversion raises [OverflowError]
    from the first integer that rounds to 2^1024, which no double holds. *)
Definition float_limit : Z := (2 ^ 1024 - 2 ^ 970)%Z.

Definition float (n : Z) : result Q :=
  if (Z.abs n <? float_limit)%Z then Return (inject_Z n)
  else Raise (OverflowError "int too large to convert to float").

(** ** core/models.py *)

Record FileObject : Type := mkFileObject {
  path : Path;
  mime_type : string;
  metadata : Py.dict string string;
  labels : list string;
  confidence_score : Q;
  is_consistent : bool;
  target_path : option Path;
  errors : list string
}.

(** [FileObject(path=p, mime_type=m)] with the dataclass defaults. *)
Definition new_FileObject (p : Path) (m : string) : FileObject :=
  {| path := p; mime_type := m; metadata := []; labels := [];
     confidence_score := 0; is_consistent := true; target_path := None;
     errors := [] |}.

(** ** core/learning.py *)

(** What [json.loads] builds. *)
#[warnings="-register-all"]
Inductive json : Type :=
| JNull
| JBool (b : bool)
| JInt (n : Z)
| JFloat (x : Q)
| JStr (s : string)
| JList (l : list json)
| JDict (d : list (string * json)).

(** The state of the learning-state path as [load] observes it. *)
Inductive state_file : Type :=
| Absent                      (* [path.exists()] is false *)
| Unreadable (e : exn)        (* [path.read_text] raises [e] *)
| Undecodable (text : string) (* the text is not JSON: [json.loads] raises *)
| Decoded (data : json).      (* [json.loads] returns [data] *)

Module LearningStore.

Abbreviation table := (Py.dict string (Py.dict string Z)) (only parsing).

Record t : Type := mk {
  extension_labels : table;
  mime_labels : table
}.

(** [LearningStore()] *)
Definition empty : t := {| extension_labels := []; mime_labels := [] |}.

(** The fields as [load] leaves them: whatever [json.loads] produced is
    stored without any check. *)
Record loaded : Type := mkLoaded {
  loaded_extension_labels : json;
  loaded_mime_labels : json
}.

Definition load (file : state_file) : result loaded :=
  match file with
  | Absent => Return (mkLoaded (JDict []) (JDict []))
  | Unreadable e => Raise e
  | Undecodable text => Raise (JSONDecodeError text)
  | Decoded (JDict data) =>
      Return (mkLoaded (Py.get data "extension_labels" (JDict []))
                       (Py.get data "mime_labels" (JDict [])))
  | Decoded _ => Raise (AttributeError "object has no attribute 'get'")
  end.

(** Reading a loaded field as a table of counts, when it has the shape the
    annotation [Dict[str, Dict[str, int]]] promises. *)
Definition as_count (j : json) : option Z :=
  match j with JInt n => Some n | _ => None end.

Fixpoint as_dict {V : Type} (f : json -> option V) (d : list (string * json))
  : option (Py.dict string V) :=
  match d with
  | [] => Some []
  | (k, j) :: d' =>
      match f j, as_dict f d' with
      | Some v, Some r => Some ((k, v) :: r)
      | _, _ => None
      end
  end.

Definition as_counts (j : json) : option (Py.dict string Z) :=
  match j with JDict d => as_dict as_count d | _ => None end.

Definition as_table (j : json) : option table :=
  match j with JDict d => as_dict as_counts d | _ => None end.

Definition typed (l : loaded) : option t :=
  match as_table (loaded_extension_labels l), as_table (loaded_mime_labels l) with
  | Some e, Some m => Some (mk e m)
  | _, _ => None
  end.

(** The two loops of [suggest_labels]:
    [candidates[label] = candidates.get(label, 0) + count]. *)
Definition merge_counts (candidates items : Py.dict string Z) : Py.dict string Z :=
  fold_left
    (fun c item => Py.set c (fst item) (Py.get c (fst item) 0 + snd item)%Z)
    items candidates.

Definition candidates_of (s : t) (extension mime : string) : Py.dict string Z :=
  merge_counts
    (merge_counts [] (Py.get (extension_labels s) extension []))
    (Py.get (mime_labels s) mime []).

Definition suggest_labels (s : t) (file_object : FileObject) (limit : Z)
  : result (list string * Q) :=
  let extension := Py.lower (PathLib.suffix (path file_object)) in
  let candidates := candidates_of s extension (mime_type file_object) in
  match candidates with
  | [] => Return ([], 0%Q)
  | _ =>
      let sorted_labels :=
        Py.sorted_desc (fun l => Py.get candidates l 0%Z) (Py.keys candidates) in
      match float (Py.get candidates (List.hd "" sorted_labels) 0%Z) with
      | Raise exc => Raise exc
      | Return count =>
          let confidence_boost := Py.min 20 (count * 2)%Q in
          Return (Py.list_slice_to sorted_labels limit, confidence_boost)
      end
  end.

(** [d.setdefault(key, {})] then [d[key][label] = d[key].get(label, 0) + 1] *)
Definition bump (d : table) (key label : string) : table :=
  let d1 := Py.setdefault d key [] in
  let inner := Py.get d1 key [] in
  Py.set d1 key (Py.set inner label (Py.get inner label 0 + 1)%Z).

Definition update (s : t) (file_object : FileObject) : t :=
  match labels file_object with
  | [] => s
  | first :: _ =>
      let extension := Py.lower (PathLib.suffix (path file_object)) in
      let primary_label := Py.lower first in
      {| extension_labels := bump (extension_labels s) extension primary_label;
         mime_labels := bump (mime_labels s) (mime_type file_object) primary_label |}
  end.

End LearningStore.

(** ** Logging *)

(** One constructor per logging call of the package, with the arguments of
    its format string. *)
Inductive log_record : Type :=
| INFO_removed_empty_dir (directory : Path)
| WARNING_permission_error_removing (directory : Path) (exc : exn)
| INFO_filename_mismatch (file_path : Path) (title : option string)
| INFO_learning_suggestion (file_path : Path) (suggested : list string) (boost : Q)
| WARNING_permission_error_reading (file_path : Path) (exc : exn)
| ERROR_metadata_error (file_path : Path) (exc : exn)
| INFO_staging (reason : string) (file_path : Path)
| INFO_skip_move (destination : Path)
| INFO_moved (file_path destination : Path)
| WARNING_permission_error_moving (file_path : Path) (exc : exn)
| ERROR_move_error (file_path : Path) (exc : exn).

Abbreviation Logger := (list log_record) (only parsing).

(** ** State and exceptions *)

(** Computations over a mutable state that may raise; the state reached
    when an exception is raised is kept, as a Python handler sees it. *)
Module Exc.

Definition M (S A : Type) : Type := S -> S * result A.

Definition ret {S A : Type} (a : A) : M S A := fun s => (s, Return a).

Definition bind {S A B : Type} (m : M S A) (k : A -> M S B) : M S B :=
  fun s =>
    match m s with
    | (s', Return a) => k a s'
    | (s', Raise e) => (s', Raise e)
    end.

Definition lift {S A : Type} (r : result A) : M S A := fun s => (s, r).

Definition gets {S A : Type} (f : S -> A) : M S A := fun s => (s, Return (f s)).

Definition modify {S : Type} (f : S -> S) : M S unit := fun s => (f s, Return tt).

Definition when {S : Type} (b : bool) (m : M S unit) : M S unit :=
  if b then m else ret tt.

End Exc.

#[global] Instance exc_ret {S : Type} : MRet (Exc.M S) := @Exc.ret S.
#[global] Instance exc_bind {S : Type} : MBind (Exc.M S) :=
  fun A B k m => Exc.bind m k.

(** ** engines/metadata_processor.py *)

(** The optional third-party modules and the file reads the processor
    calls. A module that failed to import is [None]. *)
Record ParsedDocument : Type := mkParsed {
  parsed_metadata : option (Py.dict string string);  (* [parsed.get("metadata")] *)
  parsed_content : option string                     (* [parsed.get("content")] *)
}.

Record Backends : Type := mkBackends {
  (* [magic.Magic(mime=True).from_file] *)
  magic : option (Path -> result string);
  (* [mimetypes.guess_type(name)[0]] *)
  guess_type : string -> option string;
  (* [tika.parser.from_file] *)
  parser : option (Path -> result ParsedDocument);
  (* [path.read_text(encoding="utf-8", errors="ignore")] *)
  read_text : Path -> result string;
  (* [TfidfVectorizer(stop_words="english", max_features=5)] fitted on one
     text: the feature names and the mean of the weights *)
  TfidfVectorizer : option (string -> result (list string * Q))
}.

Definition ESSENTIAL_METADATA_KEYS : list string := ["title"; "author"; "created"].

Record MetadataResult : Type := mkMetadataResult {
  result_metadata : Py.dict string string;
  result_content : string
}.

Module MetadataProcessor.

(** [DefaultStrategy.extract] *)
Definition extract (env : Backends) (file_path : Path) : result MetadataResult :=
  match parser env with
  | Some from_file =>
      match from_file file_path with
      | Raise e => Raise e
      | Return parsed =>
          let items := default [] (parsed_metadata parsed) in
          let metadata :=
            fold_left
              (fun d item =>
                 if Py.nonempty (snd item) then Py.set d (Py.lower (fst item)) (snd item)
                 else d)
              items [] in
          Return (mkMetadataResult metadata (default "" (parsed_content parsed)))
      end
  | None =>
      match read_text env file_path with
      | Return content => Return (mkMetadataResult [] content)
      | Raise e => if is_OSError e then Return (mkMetadataResult [] "") else Raise e
      end
  end.

Definition detect_mime_type (env : Backends) (file_path : Path) : result string :=
  match magic env with
  | Some from_file => from_file file_path
  | None =>
      match guess_type env (PathLib.name file_path) with
      | Some mime_type =>
          Return (if Py.nonempty mime_type then mime_type
                  else "application/octet-stream")
      | None => Return "application/octet-stream"
      end
  end.

Definition extract_metadata (env : Backends) (file_path : Path) : result MetadataResult :=
  extract env file_path.

Definition validate_filename (file_path : Path) (metadata : Py.dict string string) : bool :=
  match Py.lookup metadata "title" with
  | None => true
  | Some title =>
      if Py.nonempty title then
        let expected := Py.strip_space (Py.lower (PathLib.stem file_path)) in
        let actual := Py.strip_space (Py.lower title) in
        bool_decide (expected = actual)
      else true
  end.

(** The word-frequency branch of [generate_labels]. *)
Definition frequency_labels (sample_text : string) : list string * Q :=
  let words := List.map (fun word => Py.lower (Py.strip ".,!?:;()[]{}" word))
                        (Py.split sample_text) in
  let words := List.filter (fun word => (3 <? Py.len word)%nat) words in
  let frequency :=
    fold_left (fun f word => Py.set f word (Py.get f word 0 + 1)%Z) words [] in
  let labels :=
    firstn 5 (Py.sorted_desc (fun w => Py.get frequency w 0%Z) (Py.keys frequency)) in
  match labels with
  | [] => (labels, 0%Q)
  | _ => (labels, Py.min 100 (50 + inject_Z (Z.of_nat (List.length labels)) * 10)%Q)
  end.

Definition generate_labels (env : Backends) (content : string)
           (metadata : Py.dict string string) : result (list string * Q) :=
  let metadata_labels :=
    List.map (fun item => Py.lower (snd item))
      (List.filter
         (fun item => bool_decide (fst item ∈ ESSENTIAL_METADATA_KEYS)
                      && Py.nonempty (snd item))
         metadata) in
  match metadata_labels with
  | _ :: _ => Return (firstn 5 metadata_labels, 90%Q)
  | [] =>
      let sample_text := Py.slice_to 2000 (Py.join " " (Py.split content)) in
      if negb (Py.nonempty sample_text) then Return ([], 0%Q)
      else
        match TfidfVectorizer env with
        | Some fit_transform =>
            match fit_transform sample_text with
            | Raise e => Raise e
            | Return (names, mean) => Return (names, Py.min 100 (mean * 1000)%Q)
            end
        | None => Return (frequency_labels sample_text)
        end
  end.

Definition image_extensions : list string :=
  [".jpg"; ".jpeg"; ".png"; ".gif"; ".bmp"; ".webp"].

Definition is_image (mime : string) (file_path : Path) : bool :=
  Py.startswith mime "image/"
  || bool_decide (Py.lower (PathLib.suffix file_path) ∈ image_extensions).

(** The three media tests of [process_file], on the local variables
    [labels] and [confidence]. *)
Definition media_override (mime : string) (file_path : Path)
           (lc : list string * Q) : list string * Q :=
  let '(labels, confidence) := lc in
  let '(labels, confidence) :=
    if is_image mime file_path then
      ((match labels with [] => ["photo"] | _ => labels end), Py.max confidence 85)
    else (labels, confidence) in
  let '(labels, confidence) :=
    if negb (Py.nonempty_list labels) && Py.startswith mime "video/"
    then (["video"], 85%Q) else (labels, confidence) in
  let '(labels, confidence) :=
    if negb (Py.nonempty_list labels) && Py.startswith mime "audio/"
    then (["audio"], 85%Q) else (labels, confidence) in
  (labels, confidence).

Definition overridable (labels : list string) : bool :=
  negb (Py.nonempty_list labels)
  || bool_decide (labels ∈ [["photo"]; ["video"]; ["audio"]]).

(** The [if self.learning_store is not None] block of [process_file]:
    the new [labels] and [confidence] and the record it logs. *)
Definition learning_augment (learning_store : option LearningStore.t)
           (file_object : FileObject) (lc : list string * Q)
  : result (list string * Q * list log_record) :=
  let '(labels, confidence) := lc in
  match learning_store with
  | None => Return (labels, confidence, [])
  | Some store =>
      match LearningStore.suggest_labels store file_object 3 with
      | Raise exc => Raise exc
      | Return (suggested, boost) =>
          if Py.nonempty_list suggested then
            let labels := if overridable labels then suggested else labels in
            let confidence := Py.min 100 (confidence + boost)%Q in
            Return (labels, confidence,
                    [INFO_learning_suggestion (path file_object) suggested boost])
          else Return (labels, confidence, [])
      end
  end.

Definition State : Type := FileObject * Logger.

Definition set_extracted (metadata : Py.dict string string) (consistent : bool)
           (st : State) : State :=
  let f := fst st in
  ({| path := path f; mime_type := mime_type f; metadata := metadata;
      labels := labels f; confidence_score := confidence_score f;
      is_consistent := consistent; target_path := target_path f;
      errors := errors f |}, snd st).

Definition set_labels (lc : list string * Q) (st : State) : State :=
  let f := fst st in
  ({| path := path f; mime_type := mime_type f; metadata := metadata f;
      labels := fst lc; confidence_score := snd lc;
      is_consistent := is_consistent f; target_path := target_path f;
      errors := errors f |}, snd st).

Definition append_error (msg : string) (f : FileObject) : FileObject :=
  {| path := path f; mime_type := mime_type f; metadata := metadata f;
     labels := labels f; confidence_score := confidence_score f;
     is_consistent := is_consistent f; target_path := target_path f;
     errors := errors f ++ [msg] |}.

Definition log (records : list log_record) (st : State) : State :=
  (fst st, snd st ++ records).

(** The body of the [try] statement of [process_file]. *)
Definition process_body (env : Backends) (learning_store : option LearningStore.t)
           (file_path : Path) : Exc.M State unit :=
  result ← Exc.lift (extract_metadata env file_path);
  let consistent := validate_filename file_path (result_metadata result) in
  Exc.modify (set_extracted (result_metadata result) consistent);;
  Exc.when (negb consistent)
    (Exc.modify
       (log [INFO_filename_mismatch file_path
               (Py.lookup (result_metadata result) "title")]));;
  lc ← Exc.lift (generate_labels env (Py.slice_to 500 (result_content result))
                                 (result_metadata result));
  file_object ← Exc.gets fst;
  let lc := media_override (mime_type file_object) file_path lc in
  augmented ← Exc.lift (learning_augment learning_store file_object lc);
  Exc.modify (log (snd augmented));;
  Exc.modify (set_labels (fst augmented)).

Definition process_file (env : Backends) (learning_store : option LearningStore.t)
           (logger : Logger) (file_path : Path) : result (FileObject * Logger) :=
  match detect_mime_type env file_path with
  | Raise exc => Raise exc
  | Return mime_type =>
      let file_object := new_FileObject file_path mime_type in
      match process_body env learning_store file_path (file_object, logger) with
      | (st, Return _) => Return st
      | (st, Raise exc) =>
          Return (append_error (str_exc exc) (fst st),
                  snd st ++ [if is_PermissionError exc
                             then WARNING_permission_error_reading file_path exc
                             else ERROR_metadata_error file_path exc])
      end
  end.

End MetadataProcessor.

(** ** The file system *)

Inductive node : Type := File | Dir.

#[global] Instance node_eq_dec : EqDecision node.
Proof. solve_decision. Defined.

(** What the process sees of the operating system. A tree holds regular
    files and directories; symbolic links and special files are outside the
    model. [denied] holds the paths on which the operating system refuses
    the process, with a permission error, in the calls of this program:
    such a directory is not listed, no entry is made in it, and it is not
    removed; such a file is neither renamed nor unlinked, as a file of
    another user in a directory with the sticky bit. Its content can still
    be read: [shutil.move] copies such a file and then fails to remove it.
    Whether an entry can be taken away is recorded with the entry, not
    with its directory. Reading and writing the content of a file is the
    matter of the back ends. *)
Record FileSystem : Type := mkFileSystem {
  nodes : gmap Path node;   (* what exists, and whether it is a directory *)
  denied : gset Path;       (* where the operating system refuses the process *)
  cwd : Path                (* [os.getcwd()] *)
}.

Module FS.

Definition exists_ (fs : FileSystem) (p : Path) : bool :=
  bool_decide (is_Some (nodes fs !! p)).

Definition is_dir (fs : FileSystem) (p : Path) : bool :=
  bool_decide (nodes fs !! p = Some Dir).

Definition is_file (fs : FileSystem) (p : Path) : bool :=
  bool_decide (nodes fs !! p = Some File).

Definition with_nodes (fs : FileSystem) (m : gmap Path node) : FileSystem :=
  {| nodes := m; denied := denied fs; cwd := cwd fs |}.

(** [p] lies strictly below [root]. *)
Definition below (root p : Path) : bool :=
  bool_decide (root `prefix_of` p) && bool_decide (p ≠ root).

(** [p] is an entry of the directory [d]. *)
Definition child (d p : Path) : bool :=
  match p with
  | [] => false
  | _ => bool_decide (removelast p = d)
  end.

Definition listing (fs : FileSystem) : list Path :=
  List.map fst (map_to_list (nodes fs)).

(** The directories the walk goes through to reach [p] from [root]:
    [root] itself and every path between the two. *)
Definition ancestors_from (root p : Path) : list Path :=
  List.map (fun n => take n p) (seq (length root) (length p - length root)).

(** A directory the process may list. *)
Definition readable_dir (fs : FileSystem) (d : Path) : bool :=
  is_dir fs d && negb (bool_decide (d ∈ denied fs)).

(** [root.rglob("*")]: the paths below [root] that the recursive walk
    reaches, in the order of the file system. The walk descends into
    directories only and silently skips a directory it may not list. *)
Definition rglob (fs : FileSystem) (root : Path) : list Path :=
  List.filter
    (fun p => below root p && forallb (readable_dir fs) (ancestors_from root p))
    (listing fs).

(** [d.iterdir()] *)
Definition iterdir (fs : FileSystem) (d : Path) : result (list Path) :=
  if bool_decide (d ∈ denied fs) then Raise (PermissionError "Permission denied")
  else if negb (is_dir fs d) then Raise (FileNotFoundError "No such directory")
  else Return (List.filter (child d) (listing fs)).

(** [d.rmdir()] *)
Definition rmdir (fs : FileSystem) (d : Path) : result FileSystem :=
  if bool_decide (d ∈ denied fs) then Raise (PermissionError "Permission denied")
  else if negb (is_dir fs d) then Raise (FileNotFoundError "No such directory")
  else if Py.nonempty_list (List.filter (child d) (listing fs))
       then Raise (OSError "Directory not empty")
  else Return (with_nodes fs (delete d (nodes fs))).

(** [d.mkdir(parents=True, exist_ok=True)]: the missing directories along
    [d] are created from the top; [done] is the part already visited. *)
Fixpoint mkdir_from (fs : FileSystem) (done : Path) (rest : list string)
  : result FileSystem :=
  match rest with
  | [] => Return fs
  | x :: rest' =>
      let p := done ++ [x] in
      match nodes fs !! p with
      | Some Dir => mkdir_from fs p rest'
      | Some File =>
          Raise (match rest' with
                 | [] => FileExistsError "File exists"
                 | _ => OSError "Not a directory"
                 end)
      | None =>
          if bool_decide (done ∈ denied fs)
          then Raise (PermissionError "Permission denied")
          else mkdir_from (with_nodes fs (<[p := Dir]> (nodes fs))) p rest'
      end
  end.

Definition mkdir (fs : FileSystem) (d : Path) : result FileSystem :=
  mkdir_from fs [] d.

(** Moving the node [src] and everything below it to [dst]. *)
Definition reroot (src dst p : Path) : Path :=
  if bool_decide (src `prefix_of` p) then dst ++ drop (length src) p else p.

Definition rename (m : gmap Path node) (src dst : Path) : gmap Path node :=
  list_to_map
    (List.map (fun e => (reroot src dst (fst e), snd e))
              (List.filter (fun e => negb (bool_decide (fst e = dst)))
                           (map_to_list m))).

(** [shutil.move(str(src), str(dst))]: the file system it leaves, and
    whether it returned. The source goes into [dst] when [dst] is a
    directory, onto [dst] otherwise. [os.rename] is tried first. When the
    operating system refuses it, a regular file is copied to the destination
    and the source is then unlinked: a move refused on its source leaves the
    copy behind and raises; a move refused in the directory of the
    destination copies nothing. A directory that cannot be read is not
    copied. ([shutil.Error] is an [OSError].) *)
Definition shutil_move (fs : FileSystem) (src dst : Path) : FileSystem * result unit :=
  if is_dir fs dst && bool_decide (src = dst) then (fs, Return tt)
  else
    let real_dst := if is_dir fs dst then dst ++ [PathLib.name src] else dst in
    if is_dir fs dst && exists_ fs real_dst
    then (fs, Raise (OSError "Destination path already exists"))
    else
      match nodes fs !! src with
      | None => (fs, Raise (FileNotFoundError "No such file or directory"))
      | Some File =>
          if bool_decide (PathLib.parent real_dst ∈ denied fs)
          then (fs, Raise (PermissionError "Permission denied"))
          else if bool_decide (src ∈ denied fs)
          then (with_nodes fs (<[real_dst := File]> (nodes fs)),
                Raise (PermissionError "Permission denied"))
          else (with_nodes fs (<[real_dst := File]> (delete src (nodes fs))),
                Return tt)
      | Some Dir =>
          if bool_decide (src `prefix_of` dst)
          then (fs, Raise (OSError "Cannot move a directory into itself"))
          else if bool_decide (src ∈ denied fs)
                  || bool_decide (PathLib.parent real_dst ∈ denied fs)
          then (fs, Raise (PermissionError "Permission denied"))
          else if exists_ fs real_dst then (fs, Raise (FileExistsError "File exists"))
          else (with_nodes fs (rename (nodes fs) src real_dst), Return tt)
      end.

(** No entry of the file system lies in the directory [d]. *)
Definition empty_dir (fs : FileSystem) (d : Path) : Prop :=
  forall p, is_Some (nodes fs !! p) -> child d p = false.


(** [fs'] is [fs] with some nodes removed. *)
Definition shrinks (fs fs' : FileSystem) : Prop :=
  denied fs' = denied fs
  /\ forall p, nodes fs' !! p = None \/ nodes fs' !! p = nodes fs !! p.

End FS.

(** ** engines/cleanup_engine.py *)

Module CleanupEngine.

Definition State : Type := FileSystem * Z * Logger.

(** One iteration of the loop of [remove_empty_directories]. *)
Definition visit (st : State) (directory : Path) : result State :=
  let '(fs, removed_count, logger) := st in
  let attempt :=
    match FS.iterdir fs directory with
    | Raise exc => Raise exc
    | Return entries =>
        if negb (Py.nonempty_list entries) then
          match FS.rmdir fs directory with
          | Raise exc => Raise exc
          | Return fs' =>
              Return (fs', (removed_count + 1)%Z,
                      logger ++ [INFO_removed_empty_dir directory])
          end
        else Return st
    end in
  match attempt with
  | Raise exc =>
      if is_PermissionError exc
      then Return (fs, removed_count,
                   logger ++ [WARNING_permission_error_removing directory exc])
      else Raise exc
  | Return st' => Return st'
  end.

Fixpoint sweep (st : State) (directories : list Path) : result State :=
  match directories with
  | [] => Return st
  | directory :: rest =>
      match visit st directory with
      | Raise exc => Raise exc
      | Return st' => sweep st' rest
      end
  end.

Definition directories_of (fs : FileSystem) (root : Path) : list Path :=
  Py.sorted_desc PathLib.depth (List.filter (FS.is_dir fs) (FS.rglob fs root)).

(** The removed count, with the file system and the log afterwards. *)
Definition remove_empty_directories (fs : FileSystem) (logger : Logger) (root : Path)
  : result (Z * FileSystem * Logger) :=
  match sweep (fs, 0%Z, logger) (directories_of fs root) with
  | Raise exc => Raise exc
  | Return (fs', removed_count, logger') => Return (removed_count, fs', logger')
  end.

End CleanupEngine.

(** ** engines/organization_engine.py *)

Record Summary : Type := mkSummary {
  moved : Z;
  staged : Z
}.

Record Engine : Type := mkEngine {
  confidence_threshold : Q;
  staging_dir_name : string
}.

Module OrganizationEngine.

Definition code_extensions : list string :=
  [".py"; ".js"; ".ts"; ".java"; ".go"; ".rb"].

Definition determine_category (file_object : FileObject) : Path :=
  let mime_type := mime_type file_object in
  let label :=
    match labels file_object with
    | first :: _ => first
    | [] => "uncategorized"
    end in
  let extension := Py.lower (PathLib.suffix (path file_object)) in
  if Py.startswith mime_type "image/" then PathLib.parse "Media" // PathLib.parse "Photos"
  else if Py.startswith mime_type "video/" then PathLib.parse "Media" // PathLib.parse "Videos"
  else if Py.startswith mime_type "audio/" then PathLib.parse "Media" // PathLib.parse "Audio"
  else if bool_decide (mime_type ∈ ["application/pdf"])
       then PathLib.parse "Documents" // PathLib.parse "PDFs"
  else if bool_decide (extension ∈ code_extensions)
       then PathLib.parse "Code" // PathLib.parse "Scripts"
  else if Py.startswith mime_type "text/"
       then PathLib.parse "Documents" // PathLib.parse "Text"
  else PathLib.parse "Documents" // PathLib.parse (Py.title label).

(** [file_object.errors or file_object.confidence_score < threshold] *)
Definition must_stage (self : Engine) (file_object : FileObject) : bool :=
  Py.nonempty_list (errors file_object)
  || Py.lt (confidence_score file_object) (confidence_threshold self).

Definition set_target_path (destination : Path) (f : FileObject) : FileObject :=
  {| path := path f; mime_type := mime_type f; metadata := metadata f;
     labels := labels f; confidence_score := confidence_score f;
     is_consistent := is_consistent f; target_path := Some destination;
     errors := errors f |}.

(** [f'] is [f] with at most [target_path] assigned. *)
Definition retargeted (f f' : FileObject) : Prop :=
  f' = f \/ exists destination, f' = set_target_path destination f.

Definition State : Type := FileSystem * Summary * Logger.

(** The [if]/[else] at the head of the loop body: the destination
    directory, with the summary and the log updated. *)
Definition route (self : Engine) (root staging_root : Path)
           (summary : Summary) (logger : Logger) (file_object : FileObject)
  : Path * Summary * Logger :=
  if must_stage self file_object then
    let reason :=
      if Py.nonempty_list (errors file_object) then "errors" else "low_confidence" in
    (staging_root,
     {| moved := moved summary; staged := (staged summary + 1)%Z |},
     logger ++ [INFO_staging reason (path file_object)])
  else
    (root // determine_category file_object,
     {| moved := (moved summary + 1)%Z; staged := staged summary |},
     logger).

(** One iteration of the loop of [organize_files]: the state afterwards
    and the record as the iteration leaves it. *)
Definition organize_one (self : Engine) (root staging_root : Path)
           (st : State) (file_object : FileObject) : result (State * FileObject) :=
  let '(fs, summary, logger) := st in
  let '(destination_dir, summary, logger) :=
    route self root staging_root summary logger file_object in
  match FS.mkdir fs destination_dir with
  | Raise exc => Raise exc
  | Return fs =>
      let destination :=
        destination_dir // PathLib.parse (PathLib.name (path file_object)) in
      if bool_decide (destination = path file_object) then
        Return (fs, summary, logger ++ [INFO_skip_move destination], file_object)
      else
        match FS.shutil_move fs (path file_object) destination with
        | (fs', Return _) =>
            Return (fs', summary,
                    logger ++ [INFO_moved (path file_object) destination],
                    set_target_path destination file_object)
        | (fs', Raise exc) =>
            Return (fs', summary,
                    logger ++ [if is_PermissionError exc
                               then WARNING_permission_error_moving (path file_object) exc
                               else ERROR_move_error (path file_object) exc],
                    file_object)
        end
  end.

(** The loop; [done] collects the records already visited, in order. *)
Fixpoint organize_loop (self : Engine) (root staging_root : Path)
         (st : State) (done files : list FileObject)
  : result (State * list FileObject) :=
  match files with
  | [] => Return (st, done)
  | file_object :: rest =>
      match organize_one self root staging_root st file_object with
      | Raise exc => Raise exc
      | Return (st', file_object') =>
          organize_loop self root staging_root st' (done ++ [file_object']) rest
      end
  end.

(** The summary, with the file system, the log and the records afterwards. *)
Definition organize_files (self : Engine) (fs : FileSystem) (logger : Logger)
           (root : Path) (files : list FileObject)
  : result (Summary * FileSystem * Logger * list FileObject) :=
  let summary := {| moved := 0; staged := 0 |} in
  let staging_root := root // PathLib.parse (staging_dir_name self) in
  match FS.mkdir fs staging_root with
  | Raise exc => Raise exc
  | Return fs =>
      match organize_loop self root staging_root (fs, summary, logger) [] files with
      | Raise exc => Raise exc
      | Return (fs', summary', logger', files') =>
          Return (summary', fs', logger', files')
      end
  end.

End OrganizationEngine.

(** ** main.py *)

Record CommandContext : Type := mkContext {
  ctx_root : Path;
  ctx_confidence_threshold : Q;
  ctx_staging_dir_name : string;
  ctx_learning_store : LearningStore.t;
  ctx_learning_state_path : Path
}.

Module OrganizeCommand.

(** [LearningStore.save]: the parent directory is created, the snapshot
    is written. The file system records the file, the snapshot is
    returned beside it. *)
Definition counts_json (d : Py.dict string Z) : json :=
  JDict (List.map (fun kv => (fst kv, JInt (snd kv))) d).

Definition table_json (d : Py.dict string (Py.dict string Z)) : json :=
  JDict (List.map (fun kv => (fst kv, counts_json (snd kv))) d).

Definition payload (store : LearningStore.t) : json :=
  JDict [("extension_labels", table_json (LearningStore.extension_labels store));
         ("mime_labels", table_json (LearningStore.mime_labels store))].

Definition save (store : LearningStore.t) (fs : FileSystem) (p : Path)
  : result (FileSystem * json) :=
  match FS.mkdir fs (PathLib.parent p) with
  | Raise exc => Raise exc
  | Return fs =>
      if FS.is_dir fs p then Raise (OSError "Is a directory")
      else if bool_decide (p ∈ denied fs) || bool_decide (PathLib.parent p ∈ denied fs)
           then Raise (PermissionError "Permission denied")
      else Return (FS.with_nodes fs (<[p := File]> (nodes fs)), payload store)
  end.

(** One iteration of the second loop of [execute]. *)
Definition learn (threshold : Q) (store : LearningStore.t) (file_object : FileObject)
  : LearningStore.t :=
  if Py.nonempty_list (errors file_object) then store
  else if Py.lt (confidence_score file_object) threshold then store
  else LearningStore.update store file_object.

Record Outcome : Type := mkOutcome {
  out_summary : Summary;
  out_files : list FileObject;
  out_learning_store : LearningStore.t;
  out_fs : FileSystem;
  out_logger : Logger;
  out_saved : json
}.

(** The store after the update loop, before it is saved. *)
Definition learned (context : CommandContext) (files : list FileObject)
  : LearningStore.t :=
  fold_left (learn (ctx_confidence_threshold context)) files
            (ctx_learning_store context).

Definition execute (context : CommandContext) (fs : FileSystem) (logger : Logger)
           (files : list FileObject) : result Outcome :=
  let engine := {| confidence_threshold := ctx_confidence_threshold context;
                   staging_dir_name := ctx_staging_dir_name context |} in
  match OrganizationEngine.organize_files engine fs logger (ctx_root context) files with
  | Raise exc => Raise exc
  | Return (summary, fs, logger, files) =>
      let store := learned context files in
      match save store fs (ctx_learning_state_path context) with
      | Raise exc => Raise exc
      | Return (fs, snapshot) =>
          Return (mkOutcome summary files store fs logger snapshot)
      end
  end.

End OrganizeCommand.

(** ** Stores with counts, and sample data *)

(** Occurrence counts are never negative: true of the empty store and kept
    by [update]. *)
Definition counts_nonneg (d : Py.dict string Z) : Prop :=
  Forall (fun kv => (0 <= snd kv)%Z) d.

Definition table_nonneg (t : Py.dict string (Py.dict string Z)) : Prop :=
  Forall (fun kv => counts_nonneg (snd kv)) t.

Definition store_nonneg (s : LearningStore.t) : Prop :=
  table_nonneg (LearningStore.extension_labels s)
  /\ table_nonneg (LearningStore.mime_labels s).

Module Samples.

(** A store that already knows three labels for [.txt]. *)
Definition crowded_store : LearningStore.t :=
  LearningStore.mk
    [(".txt", [("alpha", 5%Z); ("beta", 5%Z); ("gamma", 5%Z)])] [].

Definition draft_file : FileObject :=
  {| path := ["/"; "srv"; "draft.txt"]; mime_type := "text/plain";
     metadata := []; labels := ["Draft"]; confidence_score := 90;
     is_consistent := true; target_path := None; errors := [] |}.

Definition invoice_store : LearningStore.t :=
  LearningStore.mk [(".pdf", [("invoice", 3%Z)])] [].

Definition report_file : FileObject :=
  new_FileObject ["/"; "srv"; "report.pdf"] "application/pdf".

(** Backends without any optional module, typing files by extension and
    reading every file as empty. *)
Definition guess_by_extension (name : string) : option string :=
  let extension := Py.lower (PathLib.suffix [name]) in
  if String.eqb extension ".png" then Some "image/png"
  else if String.eqb extension ".txt" then Some "text/plain"
  else if String.eqb extension ".pdf" then Some "application/pdf"
  else None.

Definition plain_env : Backends :=
  {| magic := None; guess_type := guess_by_extension; parser := None;
     read_text := fun _ => Return ""; TfidfVectorizer := None |}.

(** python-magic is installed and the file cannot be opened. *)
Definition magic_denied_env : Backends :=
  {| magic := Some (fun _ => Raise (PermissionError "Permission denied"));
     guess_type := guess_by_extension; parser := None;
     read_text := fun _ => Return ""; TfidfVectorizer := None |}.

(** tika is installed and the file cannot be opened. *)
Definition tika_denied_env : Backends :=
  {| magic := None; guess_type := guess_by_extension;
     parser := Some (fun _ => Raise (PermissionError "Permission denied"));
     read_text := fun _ => Return ""; TfidfVectorizer := None |}.

(** tika is installed and reports a title. *)
Definition tika_title_env : Backends :=
  {| magic := None; guess_type := guess_by_extension;
     parser := Some (fun _ => Return (mkParsed (Some [("Title", "Scan")]) None));
     read_text := fun _ => Return ""; TfidfVectorizer := None |}.

Definition scan_png : Path := ["/"; "srv"; "scan.png"].

(** A small tree: [/srv/in/notes.txt] waits to be organized below the
    root [/srv]. *)
Definition srv : Path := ["/"; "srv"].

Definition notes_path : Path := ["/"; "srv"; "in"; "notes.txt"].

Definition inbox_nodes : gmap Path node :=
  list_to_map [(["/"], Dir); (srv, Dir); (["/"; "srv"; "in"], Dir); (notes_path, File)].

Definition inbox_fs : FileSystem :=
  {| nodes := inbox_nodes; denied := ∅; cwd := ["/"] |}.

(** The same tree, where the operating system refuses to rename or remove
    the file. *)
Definition locked_fs : FileSystem :=
  {| nodes := inbox_nodes; denied := {[notes_path]}; cwd := ["/"] |}.

Definition notes_record : FileObject :=
  {| path := notes_path; mime_type := "text/plain"; metadata := [];
     labels := ["project"; "notes"]; confidence_score := 100;
     is_consistent := true; target_path := None; errors := [] |}.

Definition engine : Engine :=
  {| confidence_threshold := 70; staging_dir_name := "_UNKNOWN_NEEDS_REVIEW" |}.

Definition context : CommandContext :=
  {| ctx_root := srv; ctx_confidence_threshold := 70;
     ctx_staging_dir_name := "_UNKNOWN_NEEDS_REVIEW";
     ctx_learning_store := LearningStore.empty;
     ctx_learning_state_path := ["/"; "srv"; ".file_organizer_learning.json"] |}.

(** The tree of the clean-up test: an empty directory, an empty
    directory inside a directory, and a directory holding a file. *)
Definition tmp : Path := ["/"; "tmp"].

Definition cleanup_nodes : gmap Path node :=
  list_to_map
    [(["/"], Dir); (tmp, Dir);
     (["/"; "tmp"; "empty"], Dir);
     (["/"; "tmp"; "nested"], Dir);
     (["/"; "tmp"; "nested"; "empty"], Dir);
     (["/"; "tmp"; "non_empty"], Dir);
     (["/"; "tmp"; "non_empty"; "file.txt"], File)].

Definition cleanup_fs : FileSystem :=
  {| nodes := cleanup_nodes; denied := ∅; cwd := ["/"] |}.

(** Every file reads as the text of the integration test. *)
Definition notes_env : Backends :=
  {| magic := None; guess_type := guess_by_extension; parser := None;
     read_text :=
       fun _ => Return "Project notes about quarterly planning and finance.";
     TfidfVectorizer := None |}.

Definition design_store : LearningStore.t :=
  LearningStore.mk [(".png", [("design", 3%Z)])] [].

(** A store as a state file can hold it: one count is 2^1024. *)
Definition huge_store : LearningStore.t :=
  LearningStore.mk [(".txt", [("alpha", (2 ^ 1024)%Z)])] [].

End Samples.

(** ** file_scanner.py *)

Module FileScanner.

(** [p.parents]: the logical ancestors of [p], nearest first, down to the
    anchor of an anchored path and to the empty path of a relative one. *)
Definition parents (p : Path) : list Path :=
  let lowest := if PathLib.is_absolute p then 1 else 0 in
  List.rev (List.map (fun n => take n p) (seq lowest (length p - lowest))).

(** [p.resolve()], in the working directory of the process. *)
Definition resolve (fs : FileSystem) (p : Path) : Path :=
  PathLib.resolve (cwd fs) p.

(** The pipeline's own files, which [scan] passes over. *)
Definition is_report (p : Path) : bool :=
  Py.startswith (PathLib.name p) "cleanup_report_"
  && String.eqb (PathLib.suffix p) ".log".

Definition is_learning_state (p : Path) : bool :=
  String.eqb (PathLib.name p) ".file_organizer_learning.json".

Definition scan (fs : FileSystem) (root : Path) (exclude_dirs : list Path)
  : list Path :=
  let excluded := List.map (resolve fs) exclude_dirs in
  List.filter
    (fun p =>
       negb (FS.is_dir fs p)
       && negb (existsb (fun parent => bool_decide (resolve fs parent ∈ excluded))
                        (parents p))
       && negb (is_report p)
       && negb (is_learning_state p))
    (FS.rglob fs root).

End FileScanner.

(** ** core/logger.py *)

Module LoggerSetup.

(** Opening a file for writing creates it; the directory it lies in must
    exist (the empty path is the current directory). *)
Definition open_for_writing (fs : FileSystem) (p : Path) : result FileSystem :=
  if FS.is_dir fs p then Raise (OSError "Is a directory")
  else if negb (bool_decide (PathLib.parent p = [])) && negb (FS.is_dir fs (PathLib.parent p))
       then Raise (FileNotFoundError "No such file or directory")
  else if bool_decide (p ∈ denied fs) || bool_decide (PathLib.parent p ∈ denied fs)
       then Raise (PermissionError "Permission denied")
  else Return (FS.with_nodes fs (<[p := File]> (nodes fs))).

(** [f"cleanup_report_{timestamp}.log"] *)
Definition report_name (timestamp : string) : string :=
  "cleanup_report_" +:+ timestamp +:+ ".log".

(** [setup_logger(log_dir)] at the time [timestamp]: the file system with
    the log file created, and the path of that file. *)
Definition setup_logger (fs : FileSystem) (log_dir : Path) (timestamp : string)
  : result (FileSystem * Path) :=
  match FS.mkdir fs log_dir with
  | Raise exc => Raise exc
  | Return fs =>
      let log_file := log_dir // PathLib.parse (report_name timestamp) in
      match open_for_writing fs log_file with
      | Raise exc => Raise exc
      | Return fs => Return (fs, log_file)
      end
  end.

End LoggerSetup.

(** ** main.py: the commands and the pipeline *)

(** The log of a run: the records of the engines and, around them, one
    constructor per logging call of [setup_logger] and of the commands. *)
Inductive command_record : Type :=
| INFO_logger_initialized (log_file : Path)
| ENGINE (record : log_record)
| INFO_cleanup_completed (removed : Z)
| INFO_scan_completed (found : nat)
| INFO_processing_completed (processed : nat)
| INFO_organization_summary (summary : Summary).

(** [argparse.Namespace] of [parse_args]; an option left out is [None]. *)
Record Args : Type := mkArgs {
  arg_root : Path;
  arg_confidence_threshold : Q;
  arg_staging_dir_name : string;
  arg_log_dir : option Path;
  arg_learning_state_path : option Path
}.

Module Pipeline.

Definition CONFIDENCE_THRESHOLD : Q := 70.
Definition STAGING_DIR_NAME : string := "_UNKNOWN_NEEDS_REVIEW".
Definition LEARNING_STATE_FILENAME : string := ".file_organizer_learning.json".

Definition engine_log (records : Logger) : list command_record :=
  List.map ENGINE records.

(** [CleanupCommand.execute] *)
Definition cleanup (context : CommandContext) (fs : FileSystem)
           (log : list command_record) : result (FileSystem * list command_record) :=
  match CleanupEngine.remove_empty_directories fs [] (ctx_root context) with
  | Raise exc => Raise exc
  | Return (removed, fs', records) =>
      Return (fs', log ++ engine_log records ++ [INFO_cleanup_completed removed])
  end.

(** [ScanCommand.execute] *)
Definition scan (context : CommandContext) (fs : FileSystem)
           (log : list command_record) : list Path * list command_record :=
  let staging_dir := ctx_root context // PathLib.parse (ctx_staging_dir_name context) in
  let files := FileScanner.scan fs (ctx_root context) [staging_dir] in
  (files, log ++ [INFO_scan_completed (length files)]).

(** The loop of [ProcessCommand.execute]; [file_objects] collects the
    records, in order. *)
Fixpoint process_loop (env : Backends) (learning_store : LearningStore.t)
         (logger : Logger) (file_objects : list FileObject) (files : list Path)
  : result (list FileObject * Logger) :=
  match files with
  | [] => Return (file_objects, logger)
  | file_path :: rest =>
      match MetadataProcessor.process_file env (Some learning_store) logger file_path with
      | Raise exc => Raise exc
      | Return (file_object, logger') =>
          process_loop env learning_store logger' (file_objects ++ [file_object]) rest
      end
  end.

(** [ProcessCommand.execute] *)
Definition process (env : Backends) (context : CommandContext)
           (log : list command_record) (files : list Path)
  : result (list FileObject * list command_record) :=
  match process_loop env (ctx_learning_store context) [] [] files with
  | Raise exc => Raise exc
  | Return (file_objects, records) =>
      Return (file_objects,
              log ++ engine_log records
                  ++ [INFO_processing_completed (length file_objects)])
  end.

(** [OrganizeCommand.execute], with the summary it logs at the end. *)
Definition organize (context : CommandContext) (fs : FileSystem)
           (log : list command_record) (file_objects : list FileObject)
  : result (OrganizeCommand.Outcome * list command_record) :=
  match OrganizeCommand.execute context fs [] file_objects with
  | Raise exc => Raise exc
  | Return out =>
      Return (out,
              log ++ engine_log (OrganizeCommand.out_logger out)
                  ++ [INFO_organization_summary (OrganizeCommand.out_summary out)])
  end.

Record Run : Type := mkRun {
  run_scanned : list Path;               (* what [ScanCommand] found *)
  run_outcome : OrganizeCommand.Outcome; (* what [OrganizeCommand] left *)
  run_log : list command_record
}.

(** [run_pipeline], started at the time [timestamp] on a learning-state
    path in the state [state]. A snapshot whose members are not tables of
    counts is outside this model: the result is then [Return None]. *)
Definition run_pipeline (env : Backends) (timestamp : string) (state : state_file)
           (fs : FileSystem) (root : Path) (confidence_threshold : Q)
           (staging_dir_name : string) (log_dir learning_state_path : Path)
  : result (option Run) :=
  match LoggerSetup.setup_logger fs log_dir timestamp with
  | Raise exc => Raise exc
  | Return (fs, log_file) =>
      let log := [INFO_logger_initialized log_file] in
      match LearningStore.load state with
      | Raise exc => Raise exc
      | Return loaded =>
          match LearningStore.typed loaded with
          | None => Return None
          | Some learning_store =>
              let context :=
                {| ctx_root := root;
                   ctx_confidence_threshold := confidence_threshold;
                   ctx_staging_dir_name := staging_dir_name;
                   ctx_learning_store := learning_store;
                   ctx_learning_state_path := learning_state_path |} in
              match cleanup context fs log with
              | Raise exc => Raise exc
              | Return (fs, log) =>
                  let '(files, log) := scan context fs log in
                  match process env context log files with
                  | Raise exc => Raise exc
                  | Return (file_objects, log) =>
                      match organize context fs log file_objects with
                      | Raise exc => Raise exc
                      | Return (out, log) => Return (Some (mkRun files out log))
                      end
                  end
              end
          end
      end
  end.

(** [main], on the parsed arguments. *)
Definition main (env : Backends) (timestamp : string) (state : state_file)
           (fs : FileSystem) (args : Args) : result (option Run) :=
  let root := PathLib.resolve (cwd fs) (arg_root args) in
  let log_dir := default root (arg_log_dir args) in
  let learning_state_path :=
    default (root // PathLib.parse LEARNING_STATE_FILENAME)
            (arg_learning_state_path args) in
  run_pipeline env timestamp state fs root (arg_confidence_threshold args)
               (arg_staging_dir_name args) log_dir learning_state_path.

End Pipeline.

(** ** Shapes of strings, stores and trees used in the statements *)

Module Shape.

(** Every character of the string passes the test. *)
Fixpoint all_chars (test : ascii -> bool) (s : string) : bool :=
  match s with
  | EmptyString => true
  | String c s' => test c && all_chars test s'
  end.

Definition no_slash (s : string) : bool :=
  all_chars (fun c => negb (Ascii.eqb "/"%char c)) s.

(** The keys of a dictionary are distinct, as in every Python [dict]. *)
Definition table_unique (t : Py.dict string (Py.dict string Z)) : Prop :=
  Forall (fun kv => NoDup (Py.keys (snd kv))) t.

Definition store_unique (s : LearningStore.t) : Prop :=
  table_unique (LearningStore.extension_labels s)
  /\ table_unique (LearningStore.mime_labels s).

(** Every regular file lies in directories: each path leading to it is a
    directory of the file system. *)
Definition anchored_files (fs : FileSystem) : Prop :=
  forall q, nodes fs !! q = Some File ->
            forall n, 0 < n < length q -> nodes fs !! take n q = Some Dir.


(** Nothing at or below [root] is protected. *)
Definition unprotected (fs : FileSystem) (root : Path) : Prop :=
  forall p, root `prefix_of` p -> p ∉ denied fs.

(** No regular file lies below the directory [d]. *)
Definition fileless (fs : FileSystem) (d : Path) : Prop :=
  forall p, d `prefix_of` p -> nodes fs !! p <> Some File.

End Shape.

(** ** The tree of the integration test *)

Module PipelineSamples.

Definition tmp_path : Path := ["/"; "t"].

Definition notes_txt : Path := ["/"; "t"; "docs"; "notes.txt"].

Definition tree : FileSystem :=
  {| nodes :=
       list_to_map
         [(["/"], Dir); (tmp_path, Dir);
          (["/"; "t"; "empty_dir"], Dir);
          (["/"; "t"; "docs"], Dir); (notes_txt, File);
          (["/"; "t"; "images"], Dir); (["/"; "t"; "images"; "photo.jpg"], File);
          (["/"; "t"; "mystery.bin"], File)];
     denied := ∅; cwd := ["/"] |}.

(** None of the optional libraries; [mimetypes] knows the two extensions;
    only the text file has content. *)
Definition env : Backends :=
  {| magic := None;
     guess_type :=
       fun name =>
         if String.eqb name "notes.txt" then Some "text/plain"
         else if String.eqb name "photo.jpg" then Some "image/jpeg"
         else None;
     parser := None;
     read_text :=
       fun p =>
         if bool_decide (p = notes_txt)
         then Return "Project notes about quarterly planning and finance."
         else Return "";
     TfidfVectorizer := None |}.

Definition context : CommandContext :=
  {| ctx_root := tmp_path; ctx_confidence_threshold := 70;
     ctx_staging_dir_name := "_UNKNOWN_NEEDS_REVIEW";
     ctx_learning_store := LearningStore.empty;
     ctx_learning_state_path := ["/"; "t"; ".file_organizer_learning.json"] |}.

(** [run_pipeline] as the test calls it, with the clock at [timestamp]. *)
Definition run (timestamp : string) : result (option Pipeline.Run) :=
  Pipeline.run_pipeline env timestamp Absent tree tmp_path 70 "_UNKNOWN_NEEDS_REVIEW"
                        tmp_path ["/"; "t"; ".file_organizer_learning.json"].

End PipelineSamples.

(** ** A tree that has been organized once *)

Module OrganizedSamples.

Definition placed_path : Path := ["/"; "srv"; "Documents"; "Text"; "notes.txt"].

(** [/srv/Documents/Text/notes.txt] is in place, and a second
    [notes.txt] waits in [/srv/in]. *)
Definition organized_fs : FileSystem :=
  {| nodes :=
       list_to_map
         [(["/"], Dir); (Samples.srv, Dir);
          (["/"; "srv"; "in"], Dir); (Samples.notes_path, File);
          (["/"; "srv"; "Documents"], Dir);
          (["/"; "srv"; "Documents"; "Text"], Dir);
          (placed_path, File)];
     denied := ∅; cwd := ["/"] |}.

Definition placed_record : FileObject :=
  {| path := placed_path; mime_type := "text/plain"; metadata := [];
     labels := ["project"; "notes"]; confidence_score := 100;
     is_consistent := true; target_path := None; errors := [] |}.

End OrganizedSamples.

(** * Properties *)

(** ** The built-ins and the scenarios of the test suite *)

Module Scenarios.

Example title_example : Py.title "quarterly planning" = "Quarterly Planning".
Proof. reflexivity. Qed.

Example split_example :
  Py.split "  Project notes   about  " = ["Project"; "notes"; "about"].
Proof. reflexivity. Qed.

Example strip_example : Py.strip ".,!?:;()[]{}" "(finance)." = "finance".
Proof. reflexivity. Qed.

Example suffix_example :
  PathLib.suffix ["/"; "tmp"; "Diagram.PNG"] = ".PNG"
  /\ PathLib.suffix ["/"; "tmp"; ".hidden"] = ""
  /\ PathLib.stem ["/"; "tmp"; "report.txt"] = "report".
Proof. repeat split; reflexivity. Qed.

Example parse_example :
  PathLib.parse "/srv//data/./in" = ["/"; "srv"; "data"; "in"]
  /\ ["/"; "srv"] // PathLib.parse "Media" // PathLib.parse "Photos"
     = ["/"; "srv"; "Media"; "Photos"].
Proof. split; reflexivity. Qed.

(** [Path.resolve()]: [".."] is taken out, a relative path starts at the
    working directory, and the parent of the root is the root. *)
Example resolve_example :
  PathLib.resolve ["/"] ["/"; "srv"; "a"; ".."; "staging"] = ["/"; "srv"; "staging"]
  /\ PathLib.resolve ["/"; "home"; "u"] ["in"; ".."; "out"] = ["/"; "home"; "u"; "out"]
  /\ PathLib.resolve ["/"; "home"] ["/"; ".."; ".."; "etc"] = ["/"; "etc"]
  /\ PathLib.resolve ["/"; "srv"] [] = ["/"; "srv"].
Proof. repeat split. Qed.

(** [shutil.move] of a regular file: onto a free path, into a directory,
    onto a file that is there, and of a file that is missing. *)
Example shutil_move_example :
  let fs := Samples.inbox_fs in
  nodes (fst (FS.shutil_move fs Samples.notes_path ["/"; "srv"; "notes.txt"]))
    !! ["/"; "srv"; "notes.txt"] = Some File
  /\ FS.shutil_move fs Samples.notes_path ["/"; "srv"]
     = (FS.with_nodes fs (<[["/"; "srv"; "notes.txt"] := File]>
                            (delete Samples.notes_path (nodes fs))), Return tt)
  /\ snd (FS.shutil_move fs ["/"; "srv"; "none"] ["/"; "srv"; "x"])
     = Raise (FileNotFoundError "No such file or directory")
  /\ snd (FS.shutil_move fs ["/"; "srv"] ["/"; "srv"; "in"; "deeper"])
     = Raise (OSError "Cannot move a directory into itself")
  /\ snd (FS.shutil_move fs ["/"; "srv"; "in"] Samples.notes_path)
     = Raise (OSError "Cannot move a directory into itself").
Proof. vm_compute. repeat split. Qed.

Example sorted_example :
  Py.sorted_desc (fun p : string * Z => snd p)
                 [("a", 1%Z); ("b", 3%Z); ("c", 1%Z); ("d", 3%Z)]
  = [("b", 3%Z); ("d", 3%Z); ("a", 1%Z); ("c", 1%Z)].
Proof. reflexivity. Qed.

Example suggest_example :
  LearningStore.suggest_labels Samples.design_store
    (new_FileObject ["/"; "tmp"; "diagram.png"] "image/png") 3
  = Return (["design"], 6%Q).
Proof. reflexivity. Qed.

(** [float(2 ** 1024)] raises, and [process_file] records the error. *)
Example suggest_overflow_example :
  LearningStore.suggest_labels Samples.huge_store Samples.draft_file 3
  = Raise (OverflowError "int too large to convert to float")
  /\ match MetadataProcessor.process_file Samples.plain_env
             (Some Samples.huge_store) [] Samples.notes_path with
     | Return (f, _) =>
         errors f = ["int too large to convert to float"]
         /\ labels f = [] /\ confidence_score f = 0%Q
     | Raise _ => False
     end.
Proof. vm_compute. repeat split. Qed.

(** [sorted_labels[:limit]] with a negative limit drops from the end. *)
Example suggest_negative_limit_example :
  LearningStore.suggest_labels Samples.crowded_store Samples.draft_file (-1)
  = Return (["alpha"; "beta"], 10%Q)
  /\ LearningStore.suggest_labels Samples.crowded_store Samples.draft_file (-3)
     = Return ([], 10%Q).
Proof. split; reflexivity. Qed.

(** [test_validate_filename_consistency] *)
Example validate_filename_example :
  MetadataProcessor.validate_filename ["/"; "tmp"; "report.txt"] [("title", "report")]
  = true.
Proof. reflexivity. Qed.

(** A text file without title metadata gets labels from its words and is
    filed under [Documents/Text]. *)
Example text_file_scenario :
  match MetadataProcessor.process_file Samples.notes_env None []
                                       Samples.notes_path with
  | Return (f, _) =>
      labels f = ["project"; "notes"; "about"; "quarterly"; "planning"]
      /\ confidence_score f = 100%Q
      /\ OrganizationEngine.must_stage Samples.engine f = false
      /\ OrganizationEngine.determine_category f = ["Documents"; "Text"]
  | Raise _ => False
  end.
Proof. vm_compute. repeat split. Qed.

(** An empty file with an unknown extension has no label, confidence 0,
    and is staged. *)
Example empty_file_scenario :
  match MetadataProcessor.process_file Samples.plain_env None []
                                       ["/"; "srv"; "mystery.bin"] with
  | Return (f, _) =>
      mime_type f = "application/octet-stream"
      /\ labels f = [] /\ confidence_score f = 0%Q
      /\ OrganizationEngine.must_stage Samples.engine f = true
  | Raise _ => False
  end.
Proof. vm_compute. repeat split. Qed.

(** A [.png] without content is a ["photo"] with confidence 85, filed
    under [Media/Photos]. *)
Example image_scenario :
  match MetadataProcessor.process_file Samples.plain_env None []
                                       Samples.scan_png with
  | Return (f, _) =>
      labels f = ["photo"] /\ confidence_score f = 85%Q
      /\ OrganizationEngine.determine_category f = ["Media"; "Photos"]
  | Raise _ => False
  end.
Proof. vm_compute. repeat split. Qed.

(** [test_learning_store_suggestions]: the learned label replaces the
    placeholder and the confidence is boosted. *)
Example learned_image_scenario :
  match MetadataProcessor.process_file Samples.plain_env
          (Some Samples.design_store) [] Samples.scan_png with
  | Return (f, _) => labels f = ["design"] /\ confidence_score f = 91%Q
  | Raise _ => False
  end.
Proof. vm_compute. repeat split. Qed.

(** A scanned image whose metadata carries a title keeps the label from
    the title; the learned label only adds its boost to the confidence. *)
Example titled_image_scenario :
  match MetadataProcessor.process_file Samples.tika_title_env
          (Some Samples.design_store) [] Samples.scan_png with
  | Return (f, _) => labels f = ["scan"] /\ confidence_score f = 96%Q
  | Raise _ => False
  end.
Proof. vm_compute. repeat split. Qed.

End Scenarios.

(** ** Dictionaries and sorting *)

Module PyFacts.

Lemma float_limit_pos : (10 < float_limit)%Z.
Proof. reflexivity. Qed.

Lemma float_returns n : (Z.abs n < float_limit)%Z -> float n = Return (inject_Z n).
Proof. intros H. unfold float. by apply Z.ltb_lt in H as ->. Qed.

Lemma float_raises n :
  (float_limit <= Z.abs n)%Z ->
  float n = Raise (OverflowError "int too large to convert to float").
Proof. intros H. unfold float. by apply Z.ltb_ge in H as ->. Qed.

Lemma float_Return n x :
  float n = Return x -> x = inject_Z n /\ (Z.abs n < float_limit)%Z.
Proof.
  unfold float. destruct (Z.abs n <? float_limit)%Z eqn:E; [|done].
  intros [= <-]. split; [done|]. by apply Z.ltb_lt.
Qed.

Lemma list_slice_to_nonneg {A : Type} (l : list A) (stop : Z) :
  (0 <= stop)%Z -> Py.list_slice_to l stop = take (Z.to_nat stop) l.
Proof. intros H. unfold Py.list_slice_to. by apply Z.leb_le in H as ->. Qed.

Lemma list_slice_to_prefix {A : Type} (l : list A) (stop : Z) :
  Py.list_slice_to l stop `prefix_of` l.
Proof. unfold Py.list_slice_to. destruct (0 <=? stop)%Z; apply prefix_take. Qed.

Lemma list_slice_to_length {A : Type} (l : list A) (stop : Z) :
  length (Py.list_slice_to l stop)
  = if (0 <=? stop)%Z then Nat.min (Z.to_nat stop) (length l)
    else length l - Z.to_nat (- stop).
Proof.
  unfold Py.list_slice_to. destruct (0 <=? stop)%Z; rewrite length_take; lia.
Qed.

Section Dict.
Context {K V : Type} `{EqDecision K}.
Implicit Types (d : Py.dict K V) (k : K) (v : V).

Lemma lookup_set_eq d k v : Py.lookup (Py.set d k v) k = Some v.
Proof.
  induction d as [|[k' v'] d IH]; simpl.
  - by rewrite decide_True.
  - destruct (decide (k' = k)) as [->|Hne]; simpl.
    + by rewrite decide_True.
    + by rewrite decide_False.
Qed.

Lemma lookup_set_ne d k k' v :
  k ≠ k' -> Py.lookup (Py.set d k v) k' = Py.lookup d k'.
Proof.
  intros Hne. induction d as [|[k0 v0] d IH]; simpl.
  - by rewrite decide_False.
  - destruct (decide (k0 = k)) as [->|Hk]; simpl.
    + by rewrite !decide_False.
    + destruct (decide (k0 = k')); [done | apply IH].
Qed.

Lemma get_set_eq d k v v0 : Py.get (Py.set d k v) k v0 = v.
Proof. unfold Py.get. by rewrite lookup_set_eq. Qed.

Lemma get_set_ne d k k' v v0 :
  k ≠ k' -> Py.get (Py.set d k v) k' v0 = Py.get d k' v0.
Proof. intros. unfold Py.get. by rewrite lookup_set_ne. Qed.

Lemma lookup_None_keys d k : Py.lookup d k = None <-> k ∉ Py.keys d.
Proof.
  unfold Py.keys. induction d as [|[k' v'] d IH]; simpl.
  - split; [intros _; apply not_elem_of_nil | done].
  - rewrite not_elem_of_cons. destruct (decide (k' = k)) as [->|Hne].
    + split; [done | intros [? _]; done].
    + rewrite IH. split; [intros ?; split; [congruence | done] | intros [_ ?]; done].
Qed.

Lemma lookup_Some_keys d k v : Py.lookup d k = Some v -> k ∈ Py.keys d.
Proof.
  intros Hl. destruct (decide (k ∈ Py.keys d)) as [|Hn]; [done|].
  apply lookup_None_keys in Hn. congruence.
Qed.

Lemma keys_lookup d k : k ∈ Py.keys d -> exists v, Py.lookup d k = Some v.
Proof.
  intros Hin. destruct (Py.lookup d k) as [v|] eqn:E; [eauto|].
  apply lookup_None_keys in E. done.
Qed.

Lemma lookup_Some_elem d k v : Py.lookup d k = Some v -> (k, v) ∈ d.
Proof.
  induction d as [|[k' v'] d IH]; simpl; [done|].
  destruct (decide (k' = k)) as [->|Hne].
  - intros [= ->]. apply list_elem_of_here.
  - intros Hl. apply list_elem_of_further. auto.
Qed.

Lemma keys_set_present d k v :
  k ∈ Py.keys d -> Py.keys (Py.set d k v) = Py.keys d.
Proof.
  unfold Py.keys. induction d as [|[k' v'] d IH]; simpl.
  - intros Hin. by apply elem_of_nil in Hin.
  - intros Hin. destruct (decide (k' = k)) as [->|Hne]; simpl; [done|].
    f_equal. apply IH. apply elem_of_cons in Hin as [?|?]; [congruence | done].
Qed.

Lemma keys_set_absent d k v :
  k ∉ Py.keys d -> Py.keys (Py.set d k v) = Py.keys d ++ [k].
Proof.
  unfold Py.keys. induction d as [|[k' v'] d IH]; simpl; [done|].
  intros Hin. apply not_elem_of_cons in Hin as [Hne Hin].
  rewrite decide_False by congruence. simpl. f_equal. by apply IH.
Qed.

Lemma elem_of_keys_set d k k' v :
  k' ∈ Py.keys (Py.set d k v) <-> k' = k \/ k' ∈ Py.keys d.
Proof.
  destruct (decide (k ∈ Py.keys d)) as [Hin|Hin].
  - rewrite keys_set_present by done. split; [auto | intros [->|?]; done].
  - rewrite keys_set_absent by done. rewrite elem_of_app, list_elem_of_singleton. tauto.
Qed.

Lemma NoDup_keys_set d k v : NoDup (Py.keys d) -> NoDup (Py.keys (Py.set d k v)).
Proof.
  intros Hnd. destruct (decide (k ∈ Py.keys d)) as [Hin|Hin].
  - by rewrite keys_set_present.
  - rewrite keys_set_absent by done. apply NoDup_app. split; [done|].
    split; [|apply NoDup_singleton].
    intros x Hx Hx'. apply list_elem_of_singleton in Hx'. by subst.
Qed.

Lemma Forall_values_set (P : V -> Prop) d k v :
  Forall (fun kv => P (snd kv)) d -> P v ->
  Forall (fun kv => P (snd kv)) (Py.set d k v).
Proof.
  intros Hd Hv. induction d as [|[k' v'] d IH]; simpl.
  - by constructor.
  - inversion Hd; subst. destruct (decide (k' = k)); constructor; auto.
Qed.

Lemma Forall_values_get (P : V -> Prop) d k v0 :
  Forall (fun kv => P (snd kv)) d -> P v0 -> P (Py.get d k v0).
Proof.
  intros Hd Hv. unfold Py.get. destruct (Py.lookup d k) as [v|] eqn:E; [|done].
  apply lookup_Some_elem in E. rewrite Forall_forall in Hd. by apply (Hd (k, v)).
Qed.

Lemma get_setdefault d k v v0 :
  Py.get (Py.setdefault d k v) k v0 = Py.get d k v.
Proof.
  unfold Py.setdefault, Py.get. destruct (Py.lookup d k) as [w|] eqn:E.
  - by rewrite E.
  - by rewrite lookup_set_eq.
Qed.

Lemma Forall_values_setdefault (P : V -> Prop) d k v :
  Forall (fun kv => P (snd kv)) d -> P v ->
  Forall (fun kv => P (snd kv)) (Py.setdefault d k v).
Proof.
  intros. unfold Py.setdefault. destruct (Py.lookup d k); [done|].
  by apply Forall_values_set.
Qed.
End Dict.

Section Sorted.
Context {A : Type} (key : A -> Z).

Lemma insert_desc_perm x l : Py.insert_desc key x l ≡ₚ x :: l.
Proof.
  induction l as [|y l IH]; simpl; [done|].
  destruct (key x <? key y)%Z; [|done].
  rewrite IH. apply Permutation_swap.
Qed.

Lemma sorted_desc_perm l : Py.sorted_desc key l ≡ₚ l.
Proof.
  induction l as [|x l IH]; simpl; [done|].
  by rewrite insert_desc_perm, IH.
Qed.

Lemma insert_desc_sorted x l :
  StronglySorted (Py.desc key) l -> StronglySorted (Py.desc key) (Py.insert_desc key x l).
Proof.
  induction 1 as [|y l Hs IH Hy]; simpl.
  - repeat constructor.
  - destruct (Z.ltb_spec (key x) (key y)) as [Hlt|Hge].
    + constructor; [done|].
      rewrite insert_desc_perm. constructor; [unfold Py.desc; lia | done].
    + constructor; [by constructor|].
      constructor; [done|].
      eapply Forall_impl; [exact Hy|]. unfold Py.desc. intros; simpl in *; lia.
Qed.

Lemma sorted_desc_sorted l : StronglySorted (Py.desc key) (Py.sorted_desc key l).
Proof.
  induction l as [|x l IH]; simpl; [constructor|].
  by apply insert_desc_sorted.
Qed.

Lemma elem_of_sorted_desc x l : x ∈ Py.sorted_desc key l <-> x ∈ l.
Proof. by rewrite sorted_desc_perm. Qed.

(** The head of the sorted list carries the greatest key. *)
Lemma sorted_desc_head h t l x :
  Py.sorted_desc key l = h :: t -> x ∈ l -> (key x <= key h)%Z.
Proof.
  intros E Hx. apply elem_of_sorted_desc in Hx. rewrite E in Hx.
  pose proof (sorted_desc_sorted l) as Hs. rewrite E in Hs.
  apply StronglySorted_inv in Hs as [_ Hall].
  apply elem_of_cons in Hx as [->|Hx]; [lia|].
  rewrite Forall_forall in Hall. by apply Hall.
Qed.

(** In a descending list an element with a strictly greater key comes
    first. *)
Lemma sorted_desc_order l a b :
  StronglySorted (Py.desc key) l -> a ∈ l -> b ∈ l -> (key b < key a)%Z ->
  exists l1 l2 l3, l = l1 ++ a :: l2 ++ b :: l3.
Proof.
  intros Hs Ha Hb Hlt.
  apply list_elem_of_split in Ha as (l1 & r & ->).
  apply elem_of_app in Hb as [Hb|Hb].
  - exfalso.
    assert (Py.desc key b a) as Hd.
    { eapply (StronglySorted_app_1_elem_of (Py.desc key) l1 (a :: r)); [done..|].
      apply list_elem_of_here. }
    unfold Py.desc in Hd. lia.
  - apply elem_of_cons in Hb as [->|Hb]; [lia|].
    apply list_elem_of_split in Hb as (l2 & l3 & ->). by exists l1, l2, l3.
Qed.
End Sorted.

End PyFacts.

(** ** The learning store *)

Module LearningFacts.
Import LearningStore.

Lemma get_nonneg c k : counts_nonneg c -> (0 <= Py.get c k 0)%Z.
Proof.
  intros Hc. by apply (PyFacts.Forall_values_get (fun n => 0 <= n)%Z).
Qed.

Lemma set_nonneg c k n :
  counts_nonneg c -> (0 <= n)%Z -> counts_nonneg (Py.set c k n).
Proof. apply (PyFacts.Forall_values_set (fun n => 0 <= n)%Z). Qed.

Lemma get_table_nonneg t k : table_nonneg t -> counts_nonneg (Py.get t k []).
Proof.
  intros Ht. apply (PyFacts.Forall_values_get counts_nonneg); [done | constructor].
Qed.

Lemma merge_counts_cons c item items :
  merge_counts c (item :: items)
  = merge_counts (Py.set c (fst item) (Py.get c (fst item) 0 + snd item)%Z) items.
Proof. reflexivity. Qed.

Lemma merge_counts_NoDup c items :
  NoDup (Py.keys c) -> NoDup (Py.keys (merge_counts c items)).
Proof.
  revert c. induction items as [|item items IH]; intros c Hc; [done|].
  rewrite merge_counts_cons. apply IH. by apply PyFacts.NoDup_keys_set.
Qed.

Lemma merge_counts_nonneg c items :
  counts_nonneg c -> counts_nonneg items -> counts_nonneg (merge_counts c items).
Proof.
  revert c. induction items as [|item items IH]; intros c Hc Hi; [done|].
  inversion Hi as [|? ? Hitem Hrest]; subst.
  rewrite merge_counts_cons. apply IH; [|done].
  apply set_nonneg; [done|].
  pose proof (get_nonneg c (fst item) Hc). lia.
Qed.

Lemma merge_counts_keys c items x :
  x ∈ Py.keys c -> x ∈ Py.keys (merge_counts c items).
Proof.
  revert c. induction items as [|item items IH]; intros c Hx; [done|].
  rewrite merge_counts_cons. apply IH. apply PyFacts.elem_of_keys_set. by right.
Qed.

Lemma merge_counts_mono c items x :
  counts_nonneg items ->
  (Py.get c x 0 <= Py.get (merge_counts c items) x 0)%Z.
Proof.
  revert c. induction items as [|[k n] items IH]; intros c Hi; [done|].
  inversion Hi as [|? ? Hitem Hrest]; subst. simpl in Hitem.
  rewrite merge_counts_cons. etrans; [|by apply IH]. simpl.
  destruct (decide (k = x)) as [->|Hne].
  - rewrite PyFacts.get_set_eq. lia.
  - by rewrite PyFacts.get_set_ne.
Qed.

(** A binding of the merged items is a candidate with at least its count. *)
Lemma merge_counts_elem c items x n :
  counts_nonneg c -> counts_nonneg items -> (x, n) ∈ items ->
  x ∈ Py.keys (merge_counts c items)
  /\ (n <= Py.get (merge_counts c items) x 0)%Z.
Proof.
  revert c. induction items as [|[k m] items IH]; intros c Hc Hi Hin.
  - by apply elem_of_nil in Hin.
  - inversion Hi as [|? ? Hitem Hrest]; subst. simpl in Hitem.
    rewrite merge_counts_cons. simpl.
    pose proof (get_nonneg c k Hc) as Hk.
    apply elem_of_cons in Hin as [[= <- <-]|Hin].
    + split.
      * apply merge_counts_keys, PyFacts.elem_of_keys_set. by left.
      * etrans; [|by apply merge_counts_mono]. rewrite PyFacts.get_set_eq. lia.
    + apply IH; [|done..]. apply set_nonneg; [done | lia].
Qed.

Lemma candidates_NoDup s extension mime :
  NoDup (Py.keys (candidates_of s extension mime)).
Proof. unfold candidates_of. do 2 apply merge_counts_NoDup. constructor. Qed.

Lemma candidates_nonneg s extension mime :
  store_nonneg s -> counts_nonneg (candidates_of s extension mime).
Proof.
  intros [He Hm]. unfold candidates_of.
  apply merge_counts_nonneg; [apply merge_counts_nonneg; [constructor|]|];
    by apply get_table_nonneg.
Qed.

(** What [bump] leaves under the key it touched. *)
Lemma get_bump d key label :
  Py.get (bump d key label) key []
  = Py.set (Py.get d key []) label (Py.get (Py.get d key []) label 0 + 1)%Z.
Proof. unfold bump. by rewrite PyFacts.get_set_eq, PyFacts.get_setdefault. Qed.

Lemma bump_nonneg d key label : table_nonneg d -> table_nonneg (bump d key label).
Proof.
  intros Hd. unfold bump.
  assert (table_nonneg (Py.setdefault d key [])) as Hd1.
  { apply (PyFacts.Forall_values_setdefault counts_nonneg); [done | constructor]. }
  apply (PyFacts.Forall_values_set counts_nonneg); [done|].
  pose proof (get_table_nonneg _ key Hd1) as Hin.
  apply set_nonneg; [done|].
  pose proof (get_nonneg _ label Hin). lia.
Qed.

Lemma empty_nonneg : store_nonneg empty.
Proof. split; constructor. Qed.

Lemma update_nonneg s f : store_nonneg s -> store_nonneg (update s f).
Proof.
  intros [He Hm]. unfold update. destruct (labels f); [done|].
  split; simpl; by apply bump_nonneg.
Qed.

(** After [update] the primary label is a candidate with a positive
    combined count. *)
Lemma update_candidate s f first rest :
  labels f = first :: rest -> store_nonneg s ->
  let c := candidates_of (update s f) (Py.lower (PathLib.suffix (path f))) (mime_type f) in
  Py.lower first ∈ Py.keys c /\ (1 <= Py.get c (Py.lower first) 0)%Z.
Proof.
  intros Hl [He Hm] c. subst c. unfold update. rewrite Hl.
  unfold candidates_of; simpl. rewrite !get_bump.
  set (inner := Py.get (extension_labels s) _ []).
  set (p := Py.lower first).
  pose proof (get_table_nonneg _ (Py.lower (PathLib.suffix (path f))) He) as Hinner.
  fold inner in Hinner.
  pose proof (get_nonneg inner p Hinner) as Hp.
  set (n := Py.get inner p 0%Z) in *.
  assert (counts_nonneg (Py.set inner p (n + 1)%Z)) as Hitems.
  { apply set_nonneg; [done | lia]. }
  destruct (merge_counts_elem [] (Py.set inner p (n + 1)%Z) p (n + 1)%Z) as [Hk Hv].
  { constructor. } { done. }
  { apply PyFacts.lookup_Some_elem, PyFacts.lookup_set_eq. }
  split; [by apply merge_counts_keys|].
  etrans; [|apply merge_counts_mono].
  - lia.
  - pose proof (get_table_nonneg _ (mime_type f) Hm) as Hminner.
    apply set_nonneg; [done|].
    pose proof (get_nonneg _ p Hminner). lia.
Qed.

End LearningFacts.

Module LearningClaims.
Import LearningStore.

Lemma suggest_labels_unfold s g limit :
  let c := candidates_of s (Py.lower (PathLib.suffix (path g))) (mime_type g) in
  let sorted_labels := Py.sorted_desc (fun l => Py.get c l 0%Z) (Py.keys c) in
  c <> [] ->
  suggest_labels s g limit
  = match float (Py.get c (List.hd "" sorted_labels) 0%Z) with
    | Raise exc => Raise exc
    | Return count =>
        Return (Py.list_slice_to sorted_labels limit, Py.min 20 (count * 2)%Q)
    end.
Proof.
  intros c sorted_labels Hc. unfold suggest_labels. fold c.
  destruct c eqn:E; [done|]. reflexivity.
Qed.

Lemma suggest_labels_none s g limit :
  candidates_of s (Py.lower (PathLib.suffix (path g))) (mime_type g) = [] ->
  suggest_labels s g limit = Return ([], 0%Q).
Proof. intros E. unfold suggest_labels. by rewrite E. Qed.

(** What [suggest_labels] returns, when it returns. *)
Lemma suggest_labels_Return s g limit suggested boost :
  suggest_labels s g limit = Return (suggested, boost) ->
  let c := candidates_of s (Py.lower (PathLib.suffix (path g))) (mime_type g) in
  let sorted_labels := Py.sorted_desc (fun l => Py.get c l 0%Z) (Py.keys c) in
  (c = [] /\ suggested = [] /\ boost = 0%Q)
  \/ (c <> []
      /\ suggested = Py.list_slice_to sorted_labels limit
      /\ boost = Py.min 20 (inject_Z (Py.get c (List.hd "" sorted_labels) 0%Z) * 2)%Q
      /\ (Z.abs (Py.get c (List.hd "" sorted_labels) 0) < float_limit)%Z).
Proof.
  intros H c sorted_labels.
  destruct (decide (c = [])) as [Hc|Hc].
  - left. rewrite suggest_labels_none in H by done. by injection H as <- <-.
  - right. rewrite suggest_labels_unfold in H by done. fold c sorted_labels in H.
    destruct (float _) as [count|exc] eqn:E; [|done].
    apply PyFacts.float_Return in E as [-> Hlt]. by injection H as <- <-.
Qed.

Lemma boost_positive (n : Z) : (1 <= n)%Z -> (0 < Py.min 20 (inject_Z n * 2))%Q.
Proof.
  intros Hn. rewrite Zle_Qle in Hn. unfold Py.min.
  apply Q.min_glb_lt; [reflexivity|].
  change (inject_Z 1) with 1%Q in Hn. lra.
Qed.

Lemma boost_nonneg (n : Z) : (0 <= n)%Z -> (0 <= Py.min 20 (inject_Z n * 2))%Q.
Proof.
  intros Hn. rewrite Zle_Qle in Hn. unfold Py.min.
  apply Q.min_glb; [discriminate|].
  change (inject_Z 0) with 0%Q in Hn. lra.
Qed.

(** C6 (as amended). After [update] has recorded a file with at least one
    label in a store whose counts are not negative, [suggest_labels] on
    a file with the same extension and MIME type returns exactly when
    every combined count is below the first integer that [float] refuses
    (2^1024 - 2^970); otherwise it raises. When it returns, the boost is
    strictly above 0, and the lower-cased first label is among the
    suggestions whenever fewer than [limit] other candidate labels have a
    combined count at least as large as its own. *)
Theorem update_then_suggest (s : LearningStore.t) (f g : FileObject)
        (limit : Z) (first : string) (rest : list string) :
  labels f = first :: rest ->
  store_nonneg s ->
  Py.lower (PathLib.suffix (path g)) = Py.lower (PathLib.suffix (path f)) ->
  mime_type g = mime_type f ->
  let s' := update s f in
  let c := candidates_of s' (Py.lower (PathLib.suffix (path f))) (mime_type f) in
  let rivals :=
    filter (fun l => l ≠ Py.lower first
                     /\ (Py.get c (Py.lower first) 0 <= Py.get c l 0)%Z)
           (Py.keys c) in
  (returns (suggest_labels s' g limit)
   <-> forall l, l ∈ Py.keys c -> (Py.get c l 0 < float_limit)%Z)
  /\ (~ returns (suggest_labels s' g limit)
      -> suggest_labels s' g limit
         = Raise (OverflowError "int too large to convert to float"))
  /\ forall suggested boost,
       suggest_labels s' g limit = Return (suggested, boost) ->
       (0 < boost)%Q
       /\ ((Z.of_nat (length rivals) < limit)%Z -> Py.lower first ∈ suggested).
Proof.
  intros Hl Hs Hext Hmime s' c rivals.
  destruct (LearningFacts.update_candidate s f first rest Hl Hs) as [Hkey Hcount].
  fold s' c in Hkey, Hcount.
  set (p := Py.lower first) in *.
  set (key := fun l => Py.get c l 0%Z).
  assert (c <> []) as Hne.
  { intros E. rewrite E in Hkey. by apply elem_of_nil in Hkey. }
  assert (p ∈ Py.sorted_desc key (Py.keys c)) as Hin
    by by apply PyFacts.elem_of_sorted_desc.
  destruct (Py.sorted_desc key (Py.keys c)) as [|h t] eqn:E.
  { by apply elem_of_nil in Hin. }
  assert (forall l, l ∈ Py.keys c -> (key l <= key h)%Z) as Hmax.
  { intros l Hlc. exact (PyFacts.sorted_desc_head key h t (Py.keys c) l E Hlc). }
  assert (h ∈ Py.keys c) as Hh.
  { apply (PyFacts.elem_of_sorted_desc key). rewrite E. left. }
  assert (1 <= key h)%Z as Hpos.
  { specialize (Hmax p Hkey). unfold key in *. lia. }
  assert (suggest_labels s' g limit
          = match float (key h) with
            | Raise exc => Raise exc
            | Return count =>
                Return (Py.list_slice_to (h :: t) limit, Py.min 20 (count * 2)%Q)
            end) as Hunfold.
  { rewrite (suggest_labels_unfold s' g limit); rewrite Hext, Hmime; fold c; [|done].
    fold key. by rewrite E. }
  rewrite Hunfold. split; [|split].
  - split.
    + intros [out Hout] l Hlc.
      destruct (float (key h)) as [count|exc] eqn:Ef; [|done].
      apply PyFacts.float_Return in Ef as [_ Hlt].
      specialize (Hmax l Hlc). unfold key in *. lia.
    + intros Hall. rewrite PyFacts.float_returns; [by eexists|].
      specialize (Hall h Hh). unfold key in *. lia.
  - intros Hnot. destruct (Z_lt_le_dec (Z.abs (key h)) float_limit) as [Hlt|Hge].
    + exfalso. apply Hnot. rewrite PyFacts.float_returns by done. by eexists.
    + by rewrite PyFacts.float_raises.
  - intros suggested boost Hret.
    destruct (float (key h)) as [count|exc] eqn:Ef; [|done].
    apply PyFacts.float_Return in Ef as [-> _]. injection Hret as <- <-.
    split; [by apply boost_positive|].
    intros Hlen.
    rewrite PyFacts.list_slice_to_nonneg by lia. rewrite <- E in *.
    pose proof (PyFacts.sorted_desc_sorted key (Py.keys c)) as Hsorted.
    assert (NoDup (Py.sorted_desc key (Py.keys c))) as Hnd.
    { rewrite PyFacts.sorted_desc_perm. apply LearningFacts.candidates_NoDup. }
    assert (forall x, x ∈ Py.sorted_desc key (Py.keys c) -> x ∈ Py.keys c) as Hsub.
    { intros x. by rewrite PyFacts.elem_of_sorted_desc. }
    apply list_elem_of_split in Hin as (l1 & l2 & E'). rewrite E' in *.
    assert (length l1 <= length rivals) as Hle.
    { apply submseteq_length, NoDup_submseteq.
      - by apply NoDup_app in Hnd as [? _].
      - intros x Hx. apply list_elem_of_filter. split; [split|].
        + intros ->. apply NoDup_app in Hnd as (_ & Hdis & _).
          apply (Hdis p Hx), list_elem_of_here.
        + apply (StronglySorted_app_1_elem_of (Py.desc key) l1 (p :: l2));
            [done | done | apply list_elem_of_here].
        + apply Hsub, elem_of_app. by left. }
    apply list_elem_of_lookup. exists (length l1).
    rewrite lookup_take_lt by lia.
    by rewrite list_lookup_middle.
Qed.

(** C6, witness: on the empty store [suggest_labels] returns, and the
    label just recorded is suggested. *)
Lemma update_then_suggest_witness :
  exists suggested boost,
    suggest_labels (update empty Samples.draft_file) Samples.draft_file 3
    = Return (suggested, boost)
    /\ (0 < boost)%Q /\ "draft" ∈ suggested.
Proof.
  destruct (update_then_suggest empty Samples.draft_file Samples.draft_file 3
              "Draft" [] eq_refl LearningFacts.empty_nonneg eq_refl eq_refl)
    as (Hret & _ & Hout).
  destruct Hret as [_ [[suggested boost] Hret]].
  { intros l Hlc. apply list_elem_of_singleton in Hlc as ->. reflexivity. }
  exists suggested, boost. split; [exact Hret|].
  destruct (Hout suggested boost Hret) as [Hboost Hin].
  split; [exact Hboost|]. apply Hin. vm_compute. reflexivity.
Defined.

(** C6, counterexample: in a store that already holds three labels with
    larger counts for the extension, the label just recorded is not among
    the three suggestions. *)
Lemma update_then_suggest_misses_label :
  labels Samples.draft_file = ["Draft"]
  /\ suggest_labels (update Samples.crowded_store Samples.draft_file)
                    Samples.draft_file 3
     = Return (["alpha"; "beta"; "gamma"], 10%Q)
  /\ Py.lower "Draft" ∉ ["alpha"; "beta"; "gamma"].
Proof.
  split; [reflexivity|]. split; [reflexivity|].
  intros Hin. repeat (apply elem_of_cons in Hin as [Hin|Hin]; [discriminate|]).
  by apply elem_of_nil in Hin.
Qed.

(** What [save] writes, [load] reads back as the same store. *)
Lemma as_counts_json d : as_counts (OrganizeCommand.counts_json d) = Some d.
Proof.
  unfold as_counts, OrganizeCommand.counts_json.
  induction d as [|[k n] d IH]; simpl; [done|]. by rewrite IH.
Qed.

Lemma as_table_json d : as_table (OrganizeCommand.table_json d) = Some d.
Proof.
  unfold as_table, OrganizeCommand.table_json.
  induction d as [|[k c] d IH]; cbn [List.map as_dict fst snd]; [done|].
  by rewrite as_counts_json, IH.
Qed.

Lemma load_saved (s : LearningStore.t) :
  exists l, load (Decoded (OrganizeCommand.payload s)) = Return l /\ typed l = Some s.
Proof.
  eexists. split; [reflexivity|]. unfold typed.
  cbn [loaded_extension_labels loaded_mime_labels].
  change (Py.get _ "extension_labels" _)
    with (OrganizeCommand.table_json (extension_labels s)).
  change (Py.get _ "mime_labels" _)
    with (OrganizeCommand.table_json (mime_labels s)).
  rewrite !as_table_json. by destruct s.
Qed.

(** C3 (as amended). [LearningStore.load] returns a store exactly when
    the state file is absent or holds a JSON object: an absent file gives
    the two empty mappings, an object gives its [extension_labels] and
    [mime_labels] members with an empty mapping for a missing one. On a
    file that cannot be read, on text that is not JSON and on JSON that is
    not an object it raises. *)
Theorem load_returns_iff (file : state_file) :
  (returns (load file) <-> file = Absent \/ exists data, file = Decoded (JDict data))
  /\ (file = Absent -> load file = Return (mkLoaded (JDict []) (JDict [])))
  /\ (forall data, file = Decoded (JDict data) ->
        load file
        = Return (mkLoaded (Py.get data "extension_labels" (JDict []))
                           (Py.get data "mime_labels" (JDict []))))
  /\ (forall e, file = Unreadable e -> load file = Raise e)
  /\ (forall text, file = Undecodable text -> load file = Raise (JSONDecodeError text)).
Proof.
  split; [|repeat split; intros; subst; reflexivity].
  split.
  - intros [l Hl]. destruct file as [| | |[]]; simpl in Hl; try discriminate; eauto.
  - intros [->|[data ->]]; eexists; reflexivity.
Qed.

(** C3, witness: a snapshot without [mime_labels] loads, the missing
    mapping being empty. *)
Lemma load_returns_iff_witness :
  load (Decoded (JDict [("extension_labels", JDict [])]))
  = Return (mkLoaded (JDict []) (JDict [])).
Proof.
  destruct (load_returns_iff (Decoded (JDict [("extension_labels", JDict [])])))
    as (_ & _ & Hobj & _).
  exact (Hobj _ eq_refl).
Defined.

(** C3, counterexample: on a state file whose text is not JSON, [load]
    raises instead of returning an empty store. *)
Lemma load_raises_on_malformed :
  load (Undecodable "{not json") = Raise (JSONDecodeError "{not json")
  /\ ~ returns (load (Undecodable "{not json")).
Proof.
  split; [reflexivity|]. intros [l Hl]. discriminate Hl.
Qed.

End LearningClaims.

(** ** The metadata processor *)

Module ProcessorClaims.
Import MetadataProcessor.

Lemma nonempty_list_false {A : Type} (l : list A) :
  Py.nonempty_list l = false <-> l = [].
Proof. destruct l; simpl; split; congruence. Qed.

Lemma nonempty_list_true {A : Type} (l : list A) :
  Py.nonempty_list l = true <-> l <> [].
Proof. destruct l; simpl; split; congruence. Qed.

Lemma overridable_iff (labels : list string) :
  overridable labels = true
  <-> labels = [] \/ labels ∈ [["photo"]; ["video"]; ["audio"]].
Proof.
  unfold overridable. rewrite orb_true_iff, negb_true_iff, nonempty_list_false.
  by rewrite bool_decide_eq_true.
Qed.

(** C5 (as amended). When the store has suggestions for the file, the
    confidence becomes [min(100, confidence + boost)] whatever the current
    labels are, with [boost = min(20, 2 * count)] for the combined count of
    the first suggestion; the labels are replaced by the suggestions when
    they are empty or one of [["photo"]], [["video"]], [["audio"]], and
    kept otherwise. Without suggestions nothing changes. *)
Theorem learning_augment_rule (store : LearningStore.t) (f : FileObject)
        (labels : list string) (confidence : Q)
        (suggested : list string) (boost : Q) :
  LearningStore.suggest_labels store f 3 = Return (suggested, boost) ->
  exists out,
    learning_augment (Some store) f (labels, confidence) = Return out
    /\ (suggested = [] -> out = (labels, confidence, []))
    /\ (suggested <> [] ->
        snd (fst out) = Py.min 100 (confidence + boost)
        /\ (labels = [] \/ labels ∈ [["photo"]; ["video"]; ["audio"]] ->
            fst (fst out) = suggested)
        /\ (~ (labels = [] \/ labels ∈ [["photo"]; ["video"]; ["audio"]]) ->
            fst (fst out) = labels)
        /\ exists top,
            head suggested = Some top
            /\ boost
               = Py.min 20
                   (inject_Z
                      (Py.get (LearningStore.candidates_of store
                                 (Py.lower (PathLib.suffix (path f))) (mime_type f))
                              top 0%Z) * 2)).
Proof.
  intros Hs. unfold learning_augment. rewrite Hs.
  destruct (Py.nonempty_list suggested) eqn:Hb.
  - eexists. split; [reflexivity|]. split.
    + intros ->. discriminate Hb.
    + intros Hne. simpl. split; [reflexivity|]. split; [|split].
      * intros H. apply overridable_iff in H. by rewrite H.
      * intros H. destruct (overridable labels) eqn:E; [|done].
        apply overridable_iff in E. done.
      * apply LearningClaims.suggest_labels_Return in Hs
          as [(_ & -> & _)|(Hc & -> & -> & _)]; [done|].
        set (c := LearningStore.candidates_of store _ _) in *.
        destruct (Py.sorted_desc _ (Py.keys c)) as [|h t] eqn:E.
        { by destruct (0 <=? 3)%Z. }
        exists h. split; reflexivity.
  - eexists. split; [reflexivity|]. split; [done|].
    intros Hne. apply nonempty_list_true in Hne. congruence.
Qed.

(** C5, witness: a [.pdf] without labels of its own takes the learned
    label and the boost of 6. *)
Lemma learning_augment_rule_witness :
  exists out,
    learning_augment (Some Samples.invoice_store) Samples.report_file ([], 0%Q)
    = Return out
    /\ fst out = (["invoice"], Py.min 100 (0 + Py.min 20 (inject_Z 3 * 2))).
Proof.
  destruct (learning_augment_rule Samples.invoice_store Samples.report_file
              [] 0%Q ["invoice"] (Py.min 20 (inject_Z 3 * 2)) eq_refl)
    as (out & Hout & _ & H).
  destruct (H ltac:(discriminate)) as (Hc & Hl & _ & _).
  exists out. split; [exact Hout|].
  rewrite (surjective_pairing (fst out)).
  rewrite Hc, (Hl (or_introl eq_refl)). reflexivity.
Defined.

(** C5, counterexample: with labels of its own, [["report"]], the file
    keeps them, but its confidence still rises from 90 to 96. *)
Lemma learning_augment_boosts_kept_labels :
  (exists records,
     learning_augment (Some Samples.invoice_store) Samples.report_file
                      (["report"], 90%Q)
     = Return (["report"], 96%Q, records))
  /\ ~ (96 == 90)%Q.
Proof. split; [eexists; reflexivity | discriminate]. Qed.

(** *** [process_file] *)

Ltac unfold_exc :=
  unfold mbind, exc_bind, Exc.bind, Exc.lift, Exc.modify, Exc.when, Exc.gets,
    Exc.ret in *.

(** What the [try] body leaves in the record: path, MIME type, errors and
    target are never touched; on normal completion the labels and the
    confidence are those of the learning step applied to the media step. *)
Lemma process_body_outcome env store p (st st' : State) (r : result unit) :
  process_body env store p st = (st', r) ->
  path (fst st') = path (fst st)
  /\ mime_type (fst st') = mime_type (fst st)
  /\ errors (fst st') = errors (fst st)
  /\ target_path (fst st') = target_path (fst st)
  /\ (forall u, r = Return u ->
      exists lc f1,
        path f1 = path (fst st) /\ mime_type f1 = mime_type (fst st)
        /\ exists out,
            learning_augment store f1 (media_override (mime_type (fst st)) p lc)
            = Return out
            /\ (labels (fst st'), confidence_score (fst st')) = fst out).
Proof.
  unfold process_body. unfold_exc.
  destruct (extract_metadata env p) as [res|e]; simpl.
  2:{ intros [= <- <-]. repeat split; try done. }
  destruct (negb (validate_filename p (result_metadata res))); simpl;
    (destruct (generate_labels env _ _) as [lc|e]; simpl;
     [ destruct (learning_augment store _ _)
         as [[[labels' confidence'] records]|exc] eqn:E;
       intros [= <- <-]; simpl; repeat split; try done;
       intros u _;
       exists lc,
         (fst (set_extracted (result_metadata res)
                 (validate_filename p (result_metadata res)) st));
       simpl; repeat split; try done; by eexists
     | intros [= <- <-]; simpl; repeat split; try done ]).
Qed.

(** [process_file] returns a record exactly when MIME detection returns:
    everything after it is inside the [try]. *)
Lemma process_file_returns_iff env store logger p :
  returns (process_file env store logger p) <-> returns (detect_mime_type env p).
Proof.
  unfold process_file. destruct (detect_mime_type env p) as [m|e].
  - split; [intros _; by eexists|]. intros _.
    destruct (process_body env store p _) as [st [u|exc]]; by eexists.
  - split; intros [x Hx]; discriminate.
Qed.

(** Without python-magic detection cannot fail, and a record is returned. *)
Lemma process_file_returns_without_magic env store logger p :
  magic env = None -> returns (process_file env store logger p).
Proof.
  intros Hm. apply process_file_returns_iff. unfold detect_mime_type. rewrite Hm.
  destruct (guess_type env _); by eexists.
Qed.

(** An exception inside the [try] ends up as the only entry of [errors]. *)
Lemma process_file_errors env store logger p f logger' :
  process_file env store logger p = Return (f, logger') ->
  path f = p
  /\ (errors f = []
      \/ exists exc, errors f = [str_exc exc] /\ confidence_score f = 0%Q
                     /\ labels f = []).
Proof.
  unfold process_file. destruct (detect_mime_type env p) as [m|e]; [|done].
  destruct (process_body env store p _) as [st [u|exc]] eqn:E.
  - intros [= ->].
    destruct (process_body_outcome _ _ _ _ _ _ E) as (Hp & _ & He & _).
    simpl in *. split; [done | by left].
  - intros [= <- <-]. simpl.
    destruct (process_body_outcome _ _ _ _ _ _ E) as (Hp & _ & He & _).
    split; [done|]. right. exists exc. rewrite He. simpl. split; [done|].
    revert E. unfold process_body. unfold_exc.
    destruct (extract_metadata env p) as [res|e]; simpl.
    2:{ by intros [= <- _]. }
    destruct (negb (validate_filename p (result_metadata res))); simpl;
      (destruct (generate_labels env _ _) as [lc|e]; simpl;
       [ destruct (learning_augment store _ _) as [[lc' records]|exc']; simpl;
         [done | by intros [= <- _]]
       | by intros [= <- _] ]).
Qed.

(** A record leaves [process_file] with [target_path] still [None]. *)
Lemma process_file_target_path env store logger p f logger' :
  process_file env store logger p = Return (f, logger') -> target_path f = None.
Proof.
  unfold process_file. destruct (detect_mime_type env p) as [m|e]; [|done].
  destruct (process_body env store p _) as [st [u|exc]] eqn:E;
    destruct (process_body_outcome _ _ _ _ _ _ E) as (_ & _ & _ & Ht & _).
  - by intros [= ->].
  - by intros [= <- _].
Qed.

(** C4 (evaluation at the failing input). With python-magic installed and
    a file it cannot open, [detect_mime_type] raises before the [try] of
    [process_file] is entered: the exception reaches the caller and no
    record is returned. *)
Theorem process_file_raises_when_detection_fails :
  process_file Samples.magic_denied_env None [] Samples.scan_png
  = Raise (PermissionError "Permission denied")
  /\ ~ returns (process_file Samples.magic_denied_env None [] Samples.scan_png).
Proof.
  split; [reflexivity|]. intros [x Hx]. discriminate Hx.
Qed.

(** *** The confidence floor of images *)

Lemma is_image_iff mime p :
  is_image mime p = true
  <-> Py.startswith mime "image/" = true
      \/ Py.lower (PathLib.suffix p) ∈ image_extensions.
Proof. unfold is_image. by rewrite orb_true_iff, bool_decide_eq_true. Qed.

Lemma media_override_floor mime p lc :
  is_image mime p = true -> (85 <= snd (media_override mime p lc))%Q.
Proof.
  intros Hi. destruct lc as [labels confidence]. unfold media_override. rewrite Hi.
  destruct labels; simpl; apply Q.le_max_r.
Qed.

Lemma suggest_boost_nonneg s f limit suggested boost :
  store_nonneg s ->
  LearningStore.suggest_labels s f limit = Return (suggested, boost) ->
  (0 <= boost)%Q.
Proof.
  intros Hs H.
  apply LearningClaims.suggest_labels_Return in H
    as [(_ & _ & ->)|(_ & _ & -> & _)]; [lra|].
  apply LearningClaims.boost_nonneg, LearningFacts.get_nonneg.
  by apply LearningFacts.candidates_nonneg.
Qed.

Lemma learning_augment_floor store f lc (floor : Q) out :
  from_option store_nonneg True store ->
  (floor <= 100)%Q -> (floor <= snd lc)%Q ->
  learning_augment store f lc = Return out ->
  (floor <= snd (fst out))%Q.
Proof.
  intros Hs H100 Hlc. destruct lc as [labels confidence]. simpl in Hlc.
  unfold learning_augment. destruct store as [s|]; [|by intros [= <-]].
  simpl in Hs.
  destruct (LearningStore.suggest_labels s f 3) as [[suggested boost]|exc] eqn:E;
    [|done].
  pose proof (suggest_boost_nonneg s f 3 _ _ Hs E) as Hb.
  destruct (Py.nonempty_list suggested); intros [= <-]; [|done]. simpl.
  unfold Py.min. apply Q.min_glb; lra.
Qed.

(** C9 (as amended). For a file whose MIME type starts with ["image/"] or
    whose lower-cased extension is one of the image extensions, the record
    [process_file] returns has a confidence of at least 85 whenever the
    processing recorded no error and the counts of the learning store are
    not negative; this holds whether or not labels had been produced
    before the media step. *)
Theorem image_confidence_floor (env : Backends) (store : option LearningStore.t)
        (logger : Logger) (p : Path) (f : FileObject) (logger' : Logger) :
  process_file env store logger p = Return (f, logger') ->
  errors f = [] ->
  from_option store_nonneg True store ->
  Py.startswith (mime_type f) "image/" = true
  \/ Py.lower (PathLib.suffix p) ∈ image_extensions ->
  (85 <= confidence_score f)%Q.
Proof.
  intros Hp He Hs Hi. apply is_image_iff in Hi.
  revert Hp. unfold process_file.
  destruct (detect_mime_type env p) as [m|e]; [|done].
  destruct (process_body env store p _) as [st [u|exc]] eqn:E.
  - intros [= ->].
    destruct (process_body_outcome _ _ _ _ _ _ E) as (_ & Hm & _ & _ & Hr).
    destruct (Hr u eq_refl) as (lc & f1 & _ & _ & out & Hout & Hlc). simpl in *.
    rewrite Hm in Hi.
    change (confidence_score f)
      with (snd (labels f, confidence_score f)).
    rewrite Hlc. apply (learning_augment_floor _ _ _ 85 _ Hs) in Hout; [done | lra |].
    by apply media_override_floor.
  - intros [= <- <-]. simpl in He.
    destruct (errors (fst st)); discriminate.
Qed.

(** C9, witness: a scanned image with a title in its metadata gets the
    label from the title and keeps a confidence of at least 85. *)
Lemma image_confidence_floor_witness :
  exists f logger',
    process_file Samples.tika_title_env (Some Samples.invoice_store) []
                 Samples.scan_png = Return (f, logger')
    /\ labels f = ["scan"] /\ (85 <= confidence_score f)%Q.
Proof.
  eexists _, _. split; [reflexivity|]. split; [reflexivity|].
  apply (image_confidence_floor Samples.tika_title_env (Some Samples.invoice_store)
           [] Samples.scan_png _ _ eq_refl eq_refl).
  - split; repeat constructor; simpl; lia.
  - left. reflexivity.
Defined.

(** C9, counterexample: when tika cannot open a [.png] the returned record
    carries the error and the default confidence 0, below 85. *)
Lemma image_confidence_zero_on_error :
  exists f logger',
    process_file Samples.tika_denied_env None [] Samples.scan_png
    = Return (f, logger')
    /\ Py.startswith (mime_type f) "image/" = true
    /\ errors f = ["Permission denied"]
    /\ confidence_score f = 0%Q
    /\ ~ (85 <= confidence_score f)%Q.
Proof.
  eexists _, _. split; [reflexivity|]. repeat split. simpl. intros H. by apply H.
Qed.

End ProcessorClaims.

(** ** The organization engine *)

Module OrganizationFacts.
Import OrganizationEngine.

Lemma lt_iff (a b : Q) : Py.lt a b = true <-> (a < b)%Q.
Proof.
  unfold Py.lt. rewrite negb_true_iff, <- not_true_iff_false, Qle_bool_iff.
  split; [apply Qnot_le_lt | apply Qlt_not_le].
Qed.

Lemma lt_false_iff (a b : Q) : Py.lt a b = false <-> (b <= a)%Q.
Proof. unfold Py.lt. by rewrite negb_false_iff, Qle_bool_iff. Qed.

Lemma must_stage_iff self f :
  must_stage self f = true
  <-> errors f <> [] \/ (confidence_score f < confidence_threshold self)%Q.
Proof.
  unfold must_stage.
  by rewrite orb_true_iff, ProcessorClaims.nonempty_list_true, lt_iff.
Qed.

Lemma must_stage_false_iff self f :
  must_stage self f = false
  <-> errors f = [] /\ (confidence_threshold self <= confidence_score f)%Q.
Proof.
  unfold must_stage.
  by rewrite orb_false_iff, ProcessorClaims.nonempty_list_false, lt_false_iff.
Qed.

(** The routing decision reads the record and the threshold only. *)
Lemma route_spec self root staging_root summary logger f :
  fst (fst (route self root staging_root summary logger f))
  = (if must_stage self f then staging_root else root // determine_category f)
  /\ snd (fst (route self root staging_root summary logger f))
     = (if must_stage self f
        then {| moved := moved summary; staged := (staged summary + 1)%Z |}
        else {| moved := (moved summary + 1)%Z; staged := staged summary |}).
Proof. unfold route. by destruct (must_stage self f). Qed.

(** The shape of one iteration that returns. *)
Lemma organize_one_inv self root staging_root fs summary logger f st' f' :
  organize_one self root staging_root (fs, summary, logger) f = Return (st', f') ->
  let destination_dir := fst (fst (route self root staging_root summary logger f)) in
  let destination := destination_dir // PathLib.parse (PathLib.name (path f)) in
  exists fs1,
    FS.mkdir fs destination_dir = Return fs1
    /\ snd (fst st') = snd (fst (route self root staging_root summary logger f))
    /\ ((destination = path f /\ f' = f /\ fst (fst st') = fs1)
        \/ (destination <> path f
            /\ FS.shutil_move fs1 (path f) destination = (fst (fst st'), Return tt)
            /\ f' = set_target_path destination f)
        \/ (destination <> path f
            /\ (exists exc,
                  FS.shutil_move fs1 (path f) destination = (fst (fst st'), Raise exc))
            /\ f' = f)).
Proof.
  unfold organize_one.
  destruct (route self root staging_root summary logger f) as [[dir summary1] logger1].
  simpl. destruct (FS.mkdir fs dir) as [fs1|e]; [|done].
  intros H. exists fs1. split; [done|]. revert H.
  case_bool_decide as Hd.
  - intros [= <- <-]. simpl. split; [done|]. by left.
  - destruct (FS.shutil_move fs1 (path f) _) as [fs2 [[]|e]] eqn:E.
    + intros [= <- <-]. simpl. split; [done|]. right; left. done.
    + intros [= <- <-]. simpl. split; [done|]. right; right.
      repeat split; try done. by exists e.
Qed.

(** An iteration returns as soon as the destination directory can be
    made: a failing move is logged, not raised. *)
Lemma organize_one_returns self root staging_root fs summary logger f :
  returns (FS.mkdir fs (fst (fst (route self root staging_root summary logger f)))) ->
  returns (organize_one self root staging_root (fs, summary, logger) f).
Proof.
  unfold organize_one.
  destruct (route self root staging_root summary logger f) as [[dir summary1] logger1].
  simpl. intros [fs1 ->]. case_bool_decide; [by eexists|].
  destruct (FS.shutil_move fs1 (path f) _) as [fs2 [[]|e]]; by eexists.
Qed.

Lemma organize_loop_inv self root staging_root files :
  forall fs summary logger done st' files',
    organize_loop self root staging_root (fs, summary, logger) done files
    = Return (st', files') ->
    staged (snd (fst st'))
    = (staged summary + Z.of_nat (length (List.filter (must_stage self) files)))%Z
    /\ moved (snd (fst st'))
       = (moved summary
          + Z.of_nat (length (List.filter (fun f => negb (must_stage self f)) files)))%Z
    /\ exists out, files' = done ++ out /\ Forall2 OrganizationEngine.retargeted files out.
Proof.
  induction files as [|f files IH]; intros fs summary logger done st' files'.
  - intros [= <- <-]. simpl. repeat split; [lia | lia |].
    exists []. split; [by rewrite app_nil_r | constructor].
  - cbn [organize_loop List.filter].
    destruct (organize_one self root staging_root (fs, summary, logger) f)
      as [[[[fs1 summary1] logger1] f1]|e] eqn:E; [|done].
    intros H. apply IH in H as (Hs & Hm & out & -> & Hout).
    apply organize_one_inv in E as (fs0 & _ & Hsum & Hcase). simpl in Hsum.
    destruct (route_spec self root staging_root summary logger f) as [_ Hr].
    rewrite Hr in Hsum. rewrite Hs, Hm.
    assert (OrganizationEngine.retargeted f f1) as Hf.
    { destruct Hcase as [(_ & -> & _)|[(_ & _ & ->)|(_ & _ & ->)]];
        [by left | right; by eexists | by left]. }
    split; [|split].
    + destruct (must_stage self f); subst summary1; simpl; lia.
    + destruct (must_stage self f); subst summary1; simpl; lia.
    + exists (f1 :: out). split; [by rewrite <- app_assoc | by constructor].
Qed.

(** [shutil.move] on a regular file. *)
Lemma shutil_move_regular fs src dst :
  nodes fs !! src = Some File ->
  FS.shutil_move fs src dst
  = let real_dst := if FS.is_dir fs dst then dst ++ [PathLib.name src] else dst in
    if FS.is_dir fs dst && FS.exists_ fs real_dst
    then (fs, Raise (OSError "Destination path already exists"))
    else if bool_decide (PathLib.parent real_dst ∈ denied fs)
    then (fs, Raise (PermissionError "Permission denied"))
    else if bool_decide (src ∈ denied fs)
    then (FS.with_nodes fs (<[real_dst := File]> (nodes fs)),
          Raise (PermissionError "Permission denied"))
    else (FS.with_nodes fs (<[real_dst := File]> (delete src (nodes fs))), Return tt).
Proof.
  intros Hsrc. unfold FS.shutil_move.
  assert (FS.is_dir fs dst && bool_decide (src = dst) = false) as ->.
  { apply andb_false_iff. destruct (decide (src = dst)) as [->|Hne].
    - left. unfold FS.is_dir. rewrite Hsrc. by apply bool_decide_eq_false.
    - right. by apply bool_decide_eq_false. }
  by rewrite Hsrc.
Qed.


(** [mkdir(parents=True, exist_ok=True)] only adds directories. *)
Lemma mkdir_from_frame rest :
  forall fs done fs',
    FS.mkdir_from fs done rest = Return fs' ->
    denied fs' = denied fs
    /\ (forall q k, nodes fs !! q = Some k -> nodes fs' !! q = Some k)
    /\ (forall q, nodes fs' !! q = Some File -> nodes fs !! q = Some File).
Proof.
  induction rest as [|x rest IH]; intros fs done fs'; simpl.
  - by intros [= <-].
  - destruct (nodes fs !! (done ++ [x])) as [[|]|] eqn:E.
    + done.
    + apply IH.
    + case_bool_decide; [done|]. intros Hrec.
      apply IH in Hrec as (Hd & Hkeep & Hfile). simpl in *.
      split; [done|]. split.
      * intros q k Hq. apply Hkeep. rewrite lookup_insert_ne; [done|]. congruence.
      * intros q Hq. apply Hfile in Hq.
        destruct (decide (done ++ [x] = q)) as [<-|Hne].
        -- rewrite lookup_insert_eq in Hq. discriminate.
        -- by rewrite lookup_insert_ne in Hq.
Qed.

(** [shutil.move] on a regular file changes the real destination and, when
    it returns, the source; when it raises, the source is kept, and the
    copy may have been made. *)
Lemma shutil_move_file_nodes fs src dst :
  nodes fs !! src = Some File ->
  let real_dst := if FS.is_dir fs dst then dst ++ [PathLib.name src] else dst in
  let out := FS.shutil_move fs src dst in
  denied (fst out) = denied fs
  /\ (snd out = Return tt ->
      nodes (fst out) = <[real_dst := File]> (delete src (nodes fs))
      /\ nodes fs !! real_dst <> Some Dir)
  /\ (raises (snd out) ->
      nodes (fst out) = nodes fs
      \/ (nodes (fst out) = <[real_dst := File]> (nodes fs)
          /\ nodes fs !! real_dst <> Some Dir)).
Proof.
  intros Hsrc real_dst. rewrite (shutil_move_regular _ _ _ Hsrc).
  fold real_dst. cbv zeta.
  assert (FS.is_dir fs dst && FS.exists_ fs real_dst = false ->
          nodes fs !! real_dst <> Some Dir) as Hnodir.
  { intros Hex. subst real_dst. destruct (FS.is_dir fs dst) eqn:Hd.
    - simpl in Hex. unfold FS.exists_ in Hex. apply bool_decide_eq_false in Hex.
      intros Hdir. apply Hex. by rewrite Hdir.
    - unfold FS.is_dir in Hd. by apply bool_decide_eq_false in Hd. }
  destruct (FS.is_dir fs dst && FS.exists_ fs real_dst) eqn:Hex.
  { simpl. split; [done|]. split; [done|]. intros _. by left. }
  case_bool_decide.
  { simpl. split; [done|]. split; [done|]. intros _. by left. }
  case_bool_decide; simpl.
  - split; [done|]. split; [done|]. intros _. right. split; [done | by apply Hnodir].
  - split; [done|]. split; [intros _; split; [done | by apply Hnodir]|].
    by intros [? ?].
Qed.


(** The loop on a list that is split in two. *)
Lemma organize_loop_app self root staging_root pre post :
  forall st visited,
    organize_loop self root staging_root st visited (pre ++ post)
    = match organize_loop self root staging_root st visited pre with
      | Raise exc => Raise exc
      | Return (st1, visited1) => organize_loop self root staging_root st1 visited1 post
      end.
Proof.
  induction pre as [|f pre IH]; intros st visited; simpl; [done|].
  destruct (organize_one self root staging_root st f) as [[st1 f1]|e]; [apply IH | done].
Qed.

(** The iteration of a record, between the batch that ends before the
    record and the batch that ends with it. *)
Lemma organize_files_step self fs logger root pre f post summary fs' logger' files' :
  organize_files self fs logger root (pre ++ f :: post)
  = Return (summary, fs', logger', files') ->
  exists before fs_b logger_b pre' after fs_a logger_a f',
    organize_files self fs logger root pre = Return (before, fs_b, logger_b, pre')
    /\ organize_files self fs logger root (pre ++ [f])
       = Return (after, fs_a, logger_a, pre' ++ [f'])
    /\ organize_one self root (root // PathLib.parse (staging_dir_name self))
         (fs_b, before, logger_b) f
       = Return (fs_a, after, logger_a, f')
    /\ files' !! length pre = Some f'.
Proof.
  unfold organize_files.
  destruct (FS.mkdir fs _) as [fs0|e]; [|done].
  rewrite !organize_loop_app.
  destruct (organize_loop self root _ _ [] pre)
    as [[[[fs_b before] logger_b] pre']|e] eqn:Epre; [|done].
  cbn [organize_loop].
  destruct (organize_one self root _ (fs_b, before, logger_b) f)
    as [[[[fs_a after] logger_a] f']|e] eqn:Eone; [|done].
  destruct (organize_loop self root _ _ (pre' ++ [f']) post)
    as [[[[fs2 summary2] logger2] files2]|e] eqn:Epost; [|done].
  intros [= <- <- <- <-].
  exists before, fs_b, logger_b, pre', after, fs_a, logger_a, f'.
  repeat split; try done.
  apply organize_loop_inv in Epre as (_ & _ & out & Hpre & Hlen).
  apply organize_loop_inv in Epost as (_ & _ & out' & -> & _).
  simpl in Hpre. subst pre'. apply Forall2_length in Hlen. rewrite Hlen.
  rewrite <- !app_assoc. simpl. by rewrite list_lookup_middle.
Qed.

(** The update loop of [execute] reads neither the file system nor
    [target_path]. *)
Lemma learn_retargeted threshold store f f' :
  retargeted f f' ->
  OrganizeCommand.learn threshold store f' = OrganizeCommand.learn threshold store f.
Proof. intros [->|[d ->]]; reflexivity. Qed.

Lemma must_stage_retargeted self f f' :
  retargeted f f' -> must_stage self f' = must_stage self f.
Proof. intros [->|[d ->]]; reflexivity. Qed.

Lemma learned_retargeted threshold files files' :
  Forall2 retargeted files files' ->
  forall store,
    fold_left (OrganizeCommand.learn threshold) files' store
    = fold_left (OrganizeCommand.learn threshold) files store.
Proof.
  induction 1 as [|f f' files files' Hf _ IH]; intros store; simpl; [done|].
  by rewrite (learn_retargeted _ _ _ _ Hf), IH.
Qed.

Lemma learn_spec threshold staging store f :
  OrganizeCommand.learn threshold store f
  = if must_stage (mkEngine threshold staging) f then store
    else LearningStore.update store f.
Proof.
  unfold OrganizeCommand.learn, must_stage. simpl.
  destruct (Py.nonempty_list (errors f)); [done|].
  by destruct (Py.lt _ _).
Qed.

Lemma learned_filter threshold staging files :
  forall store,
    fold_left (OrganizeCommand.learn threshold) files store
    = fold_left LearningStore.update
        (List.filter (fun f => negb (must_stage (mkEngine threshold staging) f)) files)
        store.
Proof.
  induction files as [|f files IH]; intros store; simpl; [done|].
  rewrite (learn_spec threshold staging).
  destruct (must_stage _ f); simpl; apply IH.
Qed.

End OrganizationFacts.

Module OrganizationClaims.
Import OrganizationEngine OrganizationFacts.

(** C1. Every record passed to [organize_files] has its own iteration,
    which takes the batch from its state after the records before it to
    its state after the record. In that iteration the destination
    directory is the staging directory and the staged count goes up by one
    when the record has errors or a confidence below the threshold,
    whatever the confidence is in the first case; otherwise it is
    [root / determine_category(record)] and the moved count goes up by
    one. That directory is created, and the file system afterwards is the
    one the creation left when the record is already in place, and the one
    [shutil.move] to that directory left otherwise. *)
Theorem organize_files_routing (self : Engine) (fs : FileSystem) (logger : Logger)
        (root : Path) (pre : list FileObject) (f : FileObject)
        (post : list FileObject) (summary : Summary) (fs' : FileSystem)
        (logger' : Logger) (files' : list FileObject) :
  organize_files self fs logger root (pre ++ f :: post)
  = Return (summary, fs', logger', files') ->
  let staging_root := root // PathLib.parse (staging_dir_name self) in
  exists before fs_b logger_b pre' after fs_a logger_a f' destination_dir fs1,
    organize_files self fs logger root pre = Return (before, fs_b, logger_b, pre')
    /\ organize_files self fs logger root (pre ++ [f])
       = Return (after, fs_a, logger_a, pre' ++ [f'])
    /\ files' !! length pre = Some f'
    /\ (errors f <> [] \/ (confidence_score f < confidence_threshold self)%Q ->
        destination_dir = staging_root
        /\ staged after = (staged before + 1)%Z
        /\ moved after = moved before)
    /\ (errors f = [] /\ (confidence_threshold self <= confidence_score f)%Q ->
        destination_dir = root // determine_category f
        /\ moved after = (moved before + 1)%Z
        /\ staged after = staged before)
    /\ FS.mkdir fs_b destination_dir = Return fs1
    /\ let destination := destination_dir // PathLib.parse (PathLib.name (path f)) in
       (destination = path f -> fs_a = fs1 /\ f' = f)
       /\ (destination <> path f ->
           fs_a = fst (FS.shutil_move fs1 (path f) destination)
           /\ (f' = f \/ f' = set_target_path destination f)).
Proof.
  intros H staging_root.
  apply organize_files_step in H
    as (before & fs_b & logger_b & pre' & after & fs_a & logger_a & f'
        & Hpre & Hf & Hone & Hout).
  fold staging_root in Hone.
  apply organize_one_inv in Hone as (fs1 & Hmk & Hsum & Hcase).
  destruct (route_spec self root staging_root before logger_b f) as [Hd Hs].
  set (destination_dir := fst (fst (route self root staging_root before logger_b f)))
    in Hmk, Hcase, Hd.
  simpl in Hsum. rewrite Hs in Hsum.
  exists before, fs_b, logger_b, pre', after, fs_a, logger_a, f', destination_dir, fs1.
  split; [done|]. split; [done|]. split; [done|]. split; [|split; [|split; [done|]]].
  - intros Hc. apply must_stage_iff in Hc. rewrite Hc in Hd, Hsum.
    rewrite Hsum. done.
  - intros Hc. apply must_stage_false_iff in Hc. rewrite Hc in Hd, Hsum.
    rewrite Hsum. done.
  - simpl in Hcase.
    destruct Hcase as [(Heq & -> & ->)|[(Hne & Hmv & ->)|(Hne & [exc Hmv] & ->)]].
    + split; [done|]. intros ?. done.
    + split; [done|]. intros _. rewrite Hmv. split; [done | by right].
    + split; [done|]. intros _. rewrite Hmv. split; [done | by left].
Qed.

Lemma sample_batch_returns :
  match organize_files Samples.engine Samples.inbox_fs [] Samples.srv
          [Samples.notes_record] with
  | Return _ => True
  | Raise _ => False
  end.
Proof. vm_compute. exact I. Qed.

(** C1, witness: a record without errors and with confidence 100 against
    the threshold 70 goes to [/srv/Documents/Text], and the moved count
    of the batch that ends with it is one more than that of the empty
    batch. *)
Lemma organize_files_routing_witness :
  exists summary fs' logger' files' before fs_b logger_b pre',
    organize_files Samples.engine Samples.inbox_fs [] Samples.srv
                   ([] ++ Samples.notes_record :: [])
    = Return (summary, fs', logger', files')
    /\ organize_files Samples.engine Samples.inbox_fs [] Samples.srv []
       = Return (before, fs_b, logger_b, pre')
    /\ returns (FS.mkdir fs_b ["/"; "srv"; "Documents"; "Text"])
    /\ moved summary = (moved before + 1)%Z /\ staged summary = staged before.
Proof.
  pose proof sample_batch_returns as Hok.
  destruct (organize_files Samples.engine Samples.inbox_fs [] Samples.srv
              [Samples.notes_record])
    as [[[[summary fs'] logger'] files']|e] eqn:E; [|destruct Hok].
  destruct (organize_files_routing Samples.engine Samples.inbox_fs [] Samples.srv
              [] Samples.notes_record [] summary fs' logger' files' E)
    as (before & fs_b & logger_b & pre' & after & fs_a & logger_a & f' & d & fs1
        & Hpre & Hf & _ & _ & Hmoved & Hmk & _).
  cbn [app] in Hf. rewrite E in Hf. injection Hf as <- _ _ _.
  destruct Hmoved as (Hd & Hm & Hs).
  { split; [reflexivity | discriminate]. }
  exists summary, fs', logger', files', before, fs_b, logger_b, pre'.
  split; [exact E|]. split; [exact Hpre|].
  split; [exists fs1; rewrite <- Hmk, Hd; reflexivity|].
  split; [exact Hm | exact Hs].
Defined.

(** C10. When [organize_files] returns, every input record has been
    counted exactly once: moved + staged is the number of records, staged
    is the number of records with errors or a confidence below the
    threshold and moved the number of the others. The counts are a
    function of the records and the threshold alone; the file system, and
    with it the fate of each move, has no part in them. *)
Theorem organize_files_counts (self : Engine) (fs : FileSystem) (logger : Logger)
        (root : Path) (files : list FileObject)
        (summary : Summary) (fs' : FileSystem) (logger' : Logger)
        (files' : list FileObject) :
  organize_files self fs logger root files = Return (summary, fs', logger', files') ->
  (moved summary + staged summary)%Z = Z.of_nat (length files)
  /\ staged summary = Z.of_nat (length (List.filter (must_stage self) files))
  /\ moved summary
     = Z.of_nat (length (List.filter (fun f => negb (must_stage self f)) files))
  /\ length files' = length files.
Proof.
  unfold organize_files.
  destruct (FS.mkdir fs _) as [fs1|e]; [|done].
  destruct (organize_loop self root _ _ [] files)
    as [[[[fs2 summary2] logger2] files2]|e] eqn:E; [|done].
  intros [= <- <- <- <-].
  apply organize_loop_inv in E as (Hs & Hm & out & -> & Hout). simpl in *.
  rewrite Hs, Hm. split; [|split; [lia | split; [lia|]]].
  - clear. induction files as [|f files IH]; simpl; [done|].
    destruct (must_stage self f); simpl; lia.
  - symmetry. by eapply Forall2_length.
Qed.

(** On the locked tree the one move fails with a permission error, which
    is logged, and the batch returns. *)
Lemma sample_batch_logs_failure :
  match organize_files Samples.engine Samples.locked_fs [] Samples.srv
          [Samples.notes_record] with
  | Return (_, _, logger', files') =>
      logger' = [WARNING_permission_error_moving Samples.notes_path
                   (PermissionError "Permission denied")]
      /\ List.map target_path files' = [None]
  | Raise _ => False
  end.
Proof. vm_compute. split; reflexivity. Qed.

(** C10, witness: the move of the one record fails with a permission
    error, and the record is counted as moved all the same. *)
Lemma organize_files_counts_witness :
  exists summary fs' logger' files',
    organize_files Samples.engine Samples.locked_fs [] Samples.srv
                   [Samples.notes_record]
    = Return (summary, fs', logger', files')
    /\ logger' = [WARNING_permission_error_moving Samples.notes_path
                    (PermissionError "Permission denied")]
    /\ moved summary = 1%Z /\ staged summary = 0%Z.
Proof.
  pose proof sample_batch_logs_failure as Hok.
  destruct (organize_files Samples.engine Samples.locked_fs [] Samples.srv
              [Samples.notes_record])
    as [[[[summary fs'] logger'] files']|e] eqn:E; [|destruct Hok].
  exists summary, fs', logger', files'. split; [reflexivity|].
  destruct (organize_files_counts _ _ _ _ _ _ _ _ _ E) as (_ & Hs & Hm & _).
  rewrite Hs, Hm. split; [apply Hok | split; reflexivity].
Defined.



(** C2 (as amended). When [execute] returns, the store is the old one
    after [update] on exactly the records without errors and with a
    confidence of at least the threshold, in order, whether or not their
    move was performed; a record with errors or a confidence below the
    threshold leaves the store as it is. *)
Theorem learning_store_after_execute (context : CommandContext) (fs : FileSystem)
        (logger : Logger) (files : list FileObject) (out : OrganizeCommand.Outcome) :
  OrganizeCommand.execute context fs logger files = Return out ->
  let engine := {| confidence_threshold := ctx_confidence_threshold context;
                   staging_dir_name := ctx_staging_dir_name context |} in
  OrganizeCommand.out_learning_store out
  = fold_left LearningStore.update
      (List.filter (fun f => negb (must_stage engine f)) files)
      (ctx_learning_store context)
  /\ (forall f store,
        errors f <> []
        \/ (confidence_score f < ctx_confidence_threshold context)%Q ->
        OrganizeCommand.learn (ctx_confidence_threshold context) store f = store).
Proof.
  intros H engine. split.
  - revert H. unfold OrganizeCommand.execute. fold engine.
    destruct (organize_files engine fs logger (ctx_root context) files)
      as [[[[summary fs1] logger1] files1]|e] eqn:E; [|done].
    destruct (OrganizeCommand.save _ fs1 _) as [[fs2 snapshot]|e]; [|done].
    intros [= <-]. simpl.
    revert E. unfold organize_files.
    destruct (FS.mkdir fs _) as [fs0|e]; [|done].
    destruct (organize_loop engine _ _ _ [] files)
      as [[[[fs3 summary3] logger3] files3]|e] eqn:E; [|done].
    intros [= <- <- <- <-].
    apply organize_loop_inv in E as (_ & _ & outl & -> & Hout). simpl.
    unfold OrganizeCommand.learned.
    rewrite (learned_retargeted _ _ _ Hout).
    apply learned_filter.
  - intros f store Hc.
    rewrite (learn_spec _ (ctx_staging_dir_name context)).
    apply (must_stage_iff engine) in Hc. unfold engine in Hc. by rewrite Hc.
Qed.

Lemma sample_execute_returns :
  match OrganizeCommand.execute Samples.context Samples.locked_fs []
          [Samples.notes_record] with
  | Return out =>
      List.map target_path (OrganizeCommand.out_files out) = [None]
      /\ OrganizeCommand.out_learning_store out
         = LearningStore.mk [(".txt", [("project", 1%Z)])]
                            [("text/plain", [("project", 1%Z)])]
  | Raise _ => False
  end.
Proof. vm_compute. split; reflexivity. Qed.

(** C2, witness: the store after the run on the locked tree is the
    [update] of the empty store with the one record. *)
Lemma learning_store_after_execute_witness :
  exists out,
    OrganizeCommand.execute Samples.context Samples.locked_fs []
                            [Samples.notes_record] = Return out
    /\ OrganizeCommand.out_learning_store out
       = LearningStore.update LearningStore.empty Samples.notes_record.
Proof.
  pose proof sample_execute_returns as Hok.
  destruct (OrganizeCommand.execute Samples.context Samples.locked_fs []
              [Samples.notes_record]) as [out|e] eqn:E; [|destruct Hok].
  exists out. split; [reflexivity|].
  destruct (learning_store_after_execute _ _ _ _ _ E) as [Hstore _].
  rewrite Hstore. reflexivity.
Defined.

(** C2, counterexample: on the locked tree the move of the record fails
    and its [target_path] stays [None], yet the learning store is updated
    with its label. *)
Lemma learning_store_updated_without_move :
  exists out,
    OrganizeCommand.execute Samples.context Samples.locked_fs []
                            [Samples.notes_record] = Return out
    /\ List.map target_path (OrganizeCommand.out_files out) = [None]
    /\ OrganizeCommand.out_learning_store out
       <> ctx_learning_store Samples.context.
Proof.
  pose proof sample_execute_returns as Hok.
  destruct (OrganizeCommand.execute Samples.context Samples.locked_fs []
              [Samples.notes_record]) as [out|e]; [|destruct Hok].
  exists out. split; [reflexivity|]. destruct Hok as [Ht Hs].
  split; [exact Ht|]. rewrite Hs. discriminate.
Qed.

End OrganizationClaims.

(** ** The clean-up engine *)

Module CleanupFacts.
Import CleanupEngine.

Lemma elem_of_List_filter {A : Type} (f : A -> bool) (l : list A) (x : A) :
  x ∈ List.filter f l <-> x ∈ l /\ f x = true.
Proof. rewrite !list_elem_of_In. apply filter_In. Qed.

Lemma List_filter_nil {A : Type} (f : A -> bool) (l : list A) :
  List.filter f l = [] <-> forall x, x ∈ l -> f x = false.
Proof.
  split.
  - intros E x Hx. destruct (f x) eqn:Hf; [|done].
    assert (x ∈ List.filter f l) as Hin by by apply elem_of_List_filter.
    rewrite E in Hin. by apply elem_of_nil in Hin.
  - intros H. apply elem_of_nil_inv. intros x Hx.
    apply elem_of_List_filter in Hx as [Hx Hf]. rewrite (H x Hx) in Hf. done.
Qed.

Lemma NoDup_List_filter {A : Type} (f : A -> bool) (l : list A) :
  NoDup l -> NoDup (List.filter f l).
Proof. rewrite !NoDup_ListNoDup. apply List.NoDup_filter. Qed.

Lemma elem_of_listing fs p : p ∈ FS.listing fs <-> is_Some (nodes fs !! p).
Proof.
  unfold FS.listing. change (List.map fst ?l) with (fst <$> l).
  rewrite list_elem_of_fmap. split.
  - intros [[q k] [-> Hin]]. apply elem_of_map_to_list in Hin. by exists k.
  - intros [k Hk]. exists (p, k). split; [done|]. by apply elem_of_map_to_list.
Qed.

Lemma NoDup_listing fs : NoDup (FS.listing fs).
Proof. apply NoDup_fst_map_to_list. Qed.

Lemma child_snoc d x : FS.child d (d ++ [x]) = true.
Proof.
  unfold FS.child. destruct (d ++ [x]) eqn:E; [by destruct d|].
  rewrite <- E, removelast_last. by apply bool_decide_eq_true.
Qed.

Lemma child_inv d p : FS.child d p = true -> exists x, p = d ++ [x].
Proof.
  unfold FS.child. destruct p as [|a p]; [done|].
  intros H. apply bool_decide_eq_true in H.
  destruct (exists_last (l:=a :: p)) as (l' & x & E); [done|].
  rewrite E in H |- *. rewrite removelast_last in H. subst. by exists x.
Qed.

Lemma below_iff root p :
  FS.below root p = true <-> root `prefix_of` p /\ p <> root.
Proof.
  unfold FS.below. by rewrite andb_true_iff, !bool_decide_eq_true.
Qed.

Lemma empty_dir_listing fs d :
  FS.empty_dir fs d <-> List.filter (FS.child d) (FS.listing fs) = [].
Proof.
  rewrite List_filter_nil. unfold FS.empty_dir.
  split; intros H p Hp; apply H; by apply elem_of_listing.
Qed.

(** *** One visit *)

(** A directory that is empty and not protected is removed and counted. *)
Lemma visit_empty fs n logger d :
  nodes fs !! d = Some Dir -> d ∉ denied fs -> FS.empty_dir fs d ->
  visit (fs, n, logger) d
  = Return (FS.with_nodes fs (delete d (nodes fs)), (n + 1)%Z,
            logger ++ [INFO_removed_empty_dir d]).
Proof.
  intros Hd Hden Hempty. apply empty_dir_listing in Hempty.
  unfold visit, FS.iterdir, FS.rmdir, FS.is_dir.
  rewrite (bool_decide_eq_false_2 _ Hden), (bool_decide_eq_true_2 _ Hd), Hempty.
  reflexivity.
Qed.

(** Every visit of an existing directory returns; it removes that
    directory and adds one to the count, or changes neither. *)
Lemma visit_dir fs n logger d :
  nodes fs !! d = Some Dir ->
  exists fs' n' logger',
    visit (fs, n, logger) d = Return (fs', n', logger')
    /\ denied fs' = denied fs
    /\ ((nodes fs' = nodes fs /\ n' = n)
        \/ (nodes fs' = delete d (nodes fs) /\ n' = (n + 1)%Z)).
Proof.
  intros Hd. unfold visit, FS.iterdir, FS.rmdir, FS.is_dir.
  case_bool_decide as Hden; simpl.
  { eexists _, _, _. split; [reflexivity|]. split; [done|]. by left. }
  rewrite (bool_decide_eq_true_2 _ Hd). simpl.
  destruct (List.filter (FS.child d) (FS.listing fs)) eqn:E; simpl.
  - eexists _, _, _. split; [reflexivity|]. split; [done|]. by right.
  - eexists _, _, _. split; [reflexivity|]. split; [done|]. by left.
Qed.

(** *** The sweep *)

Lemma sweep_app l1 l2 st :
  sweep st (l1 ++ l2)
  = match sweep st l1 with
    | Return st1 => sweep st1 l2
    | Raise exc => Raise exc
    end.
Proof.
  revert st. induction l1 as [|d l1 IH]; intros st; cbn [sweep app]; [done|].
  destruct (visit st d); [apply IH | done].
Qed.

(** A sweep over distinct existing directories returns; it only removes
    nodes, and only among the directories it visits; what it adds to the
    count is the number of nodes it removed. *)
Lemma sweep_dirs ds :
  forall fs n logger,
    NoDup ds -> Forall (fun d => nodes fs !! d = Some Dir) ds ->
    exists fs' n' logger',
      sweep (fs, n, logger) ds = Return (fs', n', logger')
      /\ FS.shrinks fs fs'
      /\ (forall p, p ∉ ds -> nodes fs' !! p = nodes fs !! p)
      /\ (n' + Z.of_nat (size (nodes fs')) = n + Z.of_nat (size (nodes fs)))%Z
      /\ (n <= n')%Z.
Proof.
  induction ds as [|d ds IH]; intros fs n logger Hnd Hdirs.
  - exists fs, n, logger. repeat split; auto. lia.
  - apply NoDup_cons in Hnd as [Hd Hnd]. apply Forall_cons in Hdirs as [Hdir Hdirs].
    destruct (visit_dir fs n logger d Hdir)
      as (fs1 & n1 & logger1 & Hv & Hden1 & Hstep).
    assert (Forall (fun d' => nodes fs1 !! d' = Some Dir) ds) as Hdirs1.
    { rewrite Forall_forall in Hdirs |- *. intros d' Hd'.
      destruct Hstep as [[-> _]|[-> _]]; [by apply Hdirs|].
      rewrite lookup_delete_ne; [by apply Hdirs|]. intros ->. done. }
    destruct (IH fs1 n1 logger1 Hnd Hdirs1)
      as (fs' & n' & logger' & Hs & [Hden' Hshr] & Hout & Hcount & Hmono).
    exists fs', n', logger'. cbn [sweep]. rewrite Hv. split; [done|].
    split; [split|split; [|split]].
    + congruence.
    + intros p. destruct (Hshr p) as [?|Hp]; [by left|]. rewrite Hp.
      destruct Hstep as [[-> _]|[-> _]]; [by right|].
      destruct (decide (d = p)) as [->|Hne];
        [left; apply lookup_delete_eq | right; by apply lookup_delete_ne].
    + intros p Hp. apply not_elem_of_cons in Hp as [Hne Hp].
      rewrite (Hout p Hp).
      destruct Hstep as [[-> _]|[-> _]]; [done | by apply lookup_delete_ne].
    + destruct Hstep as [[E ->]|[E ->]]; rewrite E in Hcount; [done|].
      rewrite (map_size_delete_Some d (nodes fs)) in Hcount by by exists Dir.
      assert (size (nodes fs) <> 0) as Hpos.
      { intros Hz. apply map_size_empty_iff in Hz. rewrite Hz in Hdir. done. }
      lia.
    + destruct Hstep as [[_ ->]|[_ ->]]; lia.
Qed.


Lemma shrinks_delete fs d : FS.shrinks fs (FS.with_nodes fs (delete d (nodes fs))).
Proof.
  split; [done|]. intros p. simpl. destruct (decide (d = p)) as [->|Hne];
    [left; apply lookup_delete_eq | right; by apply lookup_delete_ne].
Qed.


(** *** The directories of a sweep *)

Lemma readable_dir_iff fs d :
  FS.readable_dir fs d = true <-> nodes fs !! d = Some Dir /\ d ∉ denied fs.
Proof.
  unfold FS.readable_dir, FS.is_dir.
  by rewrite andb_true_iff, negb_true_iff, bool_decide_eq_true, bool_decide_eq_false.
Qed.



Lemma directories_of_elem fs root d :
  d ∈ directories_of fs root
  <-> nodes fs !! d = Some Dir /\ root `prefix_of` d /\ d <> root
      /\ Forall (fun q => nodes fs !! q = Some Dir /\ q ∉ denied fs)
                (FS.ancestors_from root d).
Proof.
  unfold directories_of, FS.rglob.
  rewrite PyFacts.elem_of_sorted_desc, !elem_of_List_filter, elem_of_listing.
  rewrite andb_true_iff, below_iff, forallb_forall, Forall_forall.
  unfold FS.is_dir. rewrite bool_decide_eq_true.
  assert ((forall q, In q (FS.ancestors_from root d) -> FS.readable_dir fs q = true)
          <-> (forall q, q ∈ FS.ancestors_from root d ->
                         nodes fs !! q = Some Dir /\ q ∉ denied fs)) as ->.
  { split; intros H q Hq; apply readable_dir_iff, H; by apply list_elem_of_In. }
  split; [tauto|]. intros (Hd & ? & ? & ?). split; [|done]. split; [|done]. by exists Dir.
Qed.


Lemma directories_of_NoDup fs root : NoDup (directories_of fs root).
Proof.
  unfold directories_of, FS.rglob. rewrite PyFacts.sorted_desc_perm.
  do 2 apply NoDup_List_filter. apply NoDup_listing.
Qed.

Lemma directories_of_sorted fs root :
  StronglySorted (fun a b => (PathLib.depth b <= PathLib.depth a)%Z)
                 (directories_of fs root).
Proof. apply PyFacts.sorted_desc_sorted. Qed.




End CleanupFacts.

Module CleanupClaims.
Import CleanupEngine CleanupFacts.

(** The sweep never raises: a directory is visited once, so it still
    exists when its turn comes, and [rmdir] is only called on a directory
    just seen empty. *)
Lemma remove_empty_directories_returns fs logger root :
  returns (remove_empty_directories fs logger root).
Proof.
  unfold remove_empty_directories.
  destruct (sweep_dirs (directories_of fs root) fs 0%Z logger)
    as (fs' & n' & logger' & -> & _).
  - apply directories_of_NoDup.
  - apply Forall_forall. intros d Hd. by apply directories_of_elem in Hd as [? _].
  - by eexists.
Qed.




(** The clean-up test itself: three directories are removed, the one
    holding a file stays. *)
Example test_remove_empty_directories :
  match remove_empty_directories Samples.cleanup_fs [] Samples.tmp with
  | Return (removed, fs', _) =>
      removed = 3%Z
      /\ FS.exists_ fs' ["/"; "tmp"; "empty"] = false
      /\ FS.exists_ fs' ["/"; "tmp"; "nested"; "empty"] = false
      /\ FS.exists_ fs' ["/"; "tmp"; "nested"] = false
      /\ FS.exists_ fs' ["/"; "tmp"; "non_empty"] = true
  | Raise _ => False
  end.
Proof. vm_compute. repeat split. Qed.

End CleanupClaims.

(** * Further properties *)

(** ** Strings and paths *)

Module TextFacts.

Lemma lower_char_idem c : Py.lower_char (Py.lower_char c) = Py.lower_char c.
Proof. destruct c as [[] [] [] [] [] [] [] []]; reflexivity. Qed.

Lemma lower_idem s : Py.lower (Py.lower s) = Py.lower s.
Proof. induction s as [|c s IH]; simpl; [done|]. by rewrite lower_char_idem, IH. Qed.

Lemma lower_nonempty s : Py.nonempty (Py.lower s) = Py.nonempty s.
Proof. by destruct s. Qed.

Lemma lower_len s : Py.len (Py.lower s) = Py.len s.
Proof. unfold Py.len. induction s as [|c s IH]; simpl; [done|]. by rewrite IH. Qed.

Lemma upper_char_slash c :
  Ascii.eqb "/"%char (Py.upper_char c) = Ascii.eqb "/"%char c.
Proof. destruct c as [[] [] [] [] [] [] [] []]; reflexivity. Qed.

Lemma startswith_slash s :
  Py.startswith s "/" = match s with
                        | String c _ => Ascii.eqb "/"%char c
                        | EmptyString => false
                        end.
Proof.
  unfold Py.startswith. destruct s as [|c s]; [reflexivity|].
  cbn [String.prefix].
  destruct (Ascii.ascii_dec "/" c) as [<-|Hne]; [by destruct s|].
  symmetry. by apply Ascii.eqb_neq.
Qed.

(** [str.title] leaves a leading slash where it is and adds none. *)
Lemma startswith_title s : Py.startswith (Py.title s) "/" = Py.startswith s "/".
Proof.
  rewrite !startswith_slash. destruct s as [|c s]; [reflexivity|].
  cbn [Py.title Py.title_from]. apply upper_char_slash.
Qed.

Lemma rev_app_append s : forall t u,
  (String.rev_app s t ++ u)%string = String.rev_app s (t ++ u)%string.
Proof. induction s as [|c s IH]; intros t u; simpl; [done|]. by rewrite IH. Qed.

Lemma all_chars_rev_app test s : forall t,
  Shape.all_chars test (String.rev_app s t)
  = Shape.all_chars test s && Shape.all_chars test t.
Proof.
  induction s as [|c s IH]; intros t; simpl; [done|].
  rewrite IH. simpl. by destruct (test c), (Shape.all_chars test s).
Qed.

(** Splitting a string without separator gives the string itself. *)
Lemma split_on_none sep s :
  forall cur, Shape.all_chars (fun c => negb (sep c)) s = true ->
              Py.split_on sep s cur = [(String.rev cur ++ s)%string].
Proof.
  unfold String.rev.
  induction s as [|c s IH]; intros cur Hs; simpl in *.
  - by rewrite rev_app_append.
  - apply andb_true_iff in Hs as [Hc Hs]. apply negb_true_iff in Hc. rewrite Hc.
    rewrite (IH _ Hs). simpl. by rewrite !rev_app_append.
Qed.

(** The pieces of a split hold no separator. *)
Lemma split_on_pieces sep s :
  forall cur, Shape.all_chars (fun c => negb (sep c)) cur = true ->
              Forall (fun piece => Shape.all_chars (fun c => negb (sep c)) piece = true)
                     (Py.split_on sep s cur).
Proof.
  induction s as [|c s IH]; intros cur Hcur; simpl.
  - constructor; [|done]. unfold String.rev. by rewrite all_chars_rev_app, Hcur.
  - destruct (sep c) eqn:Hc.
    + constructor; [|by apply IH].
      unfold String.rev. by rewrite all_chars_rev_app, Hcur.
    + apply IH. simpl. by rewrite Hc.
Qed.

(** [Path(s)] is anchored exactly when [s] starts with a slash. *)
Lemma is_absolute_parse s : PathLib.is_absolute (PathLib.parse s) = Py.startswith s "/".
Proof.
  unfold PathLib.parse. destruct (Py.startswith s "/") eqn:E; [done|].
  pose proof (split_on_pieces (Ascii.eqb "/"%char) s EmptyString eq_refl) as Hp.
  induction Hp as [|piece l Hpiece _ IH]; simpl; [done|].
  destruct (Py.nonempty piece && negb (String.eqb piece ".")); [|done].
  simpl. apply String.eqb_neq. intros ->. discriminate Hpiece.
Qed.

(** A name without slash, other than the empty one and the dot, is one
    part. *)
Lemma parse_name s :
  Shape.no_slash s = true -> s <> "" -> s <> "." -> PathLib.parse s = [s].
Proof.
  intros Hs Hne Hdot. unfold PathLib.parse.
  assert (Py.startswith s "/" = false) as ->.
  { rewrite startswith_slash. destruct s as [|c s]; [done|].
    simpl in Hs. apply andb_true_iff in Hs as [Hc _]. by apply negb_true_iff in Hc. }
  rewrite split_on_none by done. cbn [List.filter].
  change (String.rev "" ++ s)%string with s.
  assert (Py.nonempty s = true) as -> by (by destruct s).
  apply String.eqb_neq in Hdot. rewrite Hdot. done.
Qed.

(** *** [resolve] *)

Lemma collapse_app reached a c :
  PathLib.collapse reached (a ++ c) = PathLib.collapse (PathLib.collapse reached a) c.
Proof.
  revert reached. induction a as [|x a IH]; intros reached; simpl; [done|].
  destruct (String.eqb x ".."); apply IH.
Qed.

(** Parts other than [".."] are kept as they are. *)
Lemma collapse_plain reached c :
  ".." ∉ c -> PathLib.collapse reached c = reached ++ c.
Proof.
  revert reached. induction c as [|x c IH]; intros reached Hc; simpl.
  - by rewrite app_nil_r.
  - apply not_elem_of_cons in Hc as [Hx Hc].
    assert (String.eqb x ".." = false) as -> by (apply String.eqb_neq; congruence).
    rewrite IH by done. by rewrite <- (assoc_L (++)).
Qed.


(** Parts without [".."] joined to a path stay below what the path
    resolves to. *)
Lemma resolve_app cwd p c :
  PathLib.is_absolute c = false -> ".." ∉ c ->
  PathLib.resolve cwd (p ++ c) = PathLib.resolve cwd p ++ c.
Proof.
  intros Ha Hd. unfold PathLib.resolve.
  assert (PathLib.is_absolute (p ++ c) = PathLib.is_absolute p) as ->.
  { destruct p; [exact Ha | done]. }
  destruct (PathLib.is_absolute p).
  - by rewrite collapse_app, collapse_plain.
  - by rewrite (assoc_L (++)), collapse_app, collapse_plain.
Qed.

Lemma name_snoc d s : s <> "/" -> PathLib.name (d ++ [s]) = s.
Proof.
  intros Hs. unfold PathLib.name. rewrite map_app. simpl.
  rewrite last_last. apply String.eqb_neq in Hs. unfold PathLib.anchor. by rewrite Hs.
Qed.

End TextFacts.

(** ** The learning store: what [update] and [suggest_labels] keep *)

Module LearningProps.
Import LearningStore.

Lemma get_absent (d : Py.dict string Z) x : x ∉ Py.keys d -> Py.get d x 0%Z = 0%Z.
Proof. intros Hx. apply PyFacts.lookup_None_keys in Hx. unfold Py.get. by rewrite Hx. Qed.

Lemma get_cons (k : string) (n : Z) (items : Py.dict string Z) x :
  Py.get ((k, n) :: items) x 0%Z = if decide (k = x) then n else Py.get items x 0%Z.
Proof. unfold Py.get. simpl. by destruct (decide (k = x)). Qed.

Lemma merge_counts_keys_iff c items x :
  x ∈ Py.keys (merge_counts c items) <-> x ∈ Py.keys c \/ x ∈ Py.keys items.
Proof.
  revert c. induction items as [|[k n] items IH]; intros c.
  - simpl. split; [by left | intros [?|H]; [done | by apply elem_of_nil in H]].
  - rewrite LearningFacts.merge_counts_cons, IH, PyFacts.elem_of_keys_set. simpl.
    unfold Py.keys at 4. simpl. rewrite elem_of_cons. fold (Py.keys items). tauto.
Qed.

(** Merging adds, label by label, the counts of the merged dictionary. *)
Lemma merge_counts_get c items x :
  NoDup (Py.keys items) ->
  Py.get (merge_counts c items) x 0%Z = (Py.get c x 0 + Py.get items x 0)%Z.
Proof.
  revert c. induction items as [|[k n] items IH]; intros c Hnd.
  - simpl. unfold Py.get at 3. simpl. lia.
  - unfold Py.keys in Hnd. simpl in Hnd. apply NoDup_cons in Hnd as [Hk Hnd].
    rewrite LearningFacts.merge_counts_cons, IH by done. simpl.
    destruct (decide (k = x)) as [->|Hne].
    + rewrite PyFacts.get_set_eq, (get_absent items x), get_cons by done.
      rewrite decide_True by done. lia.
    + rewrite PyFacts.get_set_ne, get_cons by done.
      rewrite decide_False by done. lia.
Qed.

Lemma get_table_unique t k : Shape.table_unique t -> NoDup (Py.keys (Py.get t k [])).
Proof.
  intros Ht.
  apply (PyFacts.Forall_values_get (fun d : Py.dict string Z => NoDup (Py.keys d)));
    [done | constructor].
Qed.

Lemma get_bump_ne d key key' label :
  key <> key' -> Py.get (bump d key label) key' [] = Py.get d key' [].
Proof.
  intros Hne. unfold bump. rewrite PyFacts.get_set_ne by done.
  unfold Py.setdefault. destruct (Py.lookup d key); [done|].
  by rewrite PyFacts.get_set_ne.
Qed.

(** [bump] adds one to a single cell of the table. *)
Lemma bump_counts d key label key' label' :
  Py.get (Py.get (bump d key label) key' []) label' 0%Z
  = (Py.get (Py.get d key' []) label' 0
     + if bool_decide (key' = key /\ label' = label) then 1 else 0)%Z.
Proof.
  destruct (decide (key = key')) as [<-|Hkey].
  - rewrite LearningFacts.get_bump. destruct (decide (label = label')) as [<-|Hl].
    + rewrite PyFacts.get_set_eq, bool_decide_eq_true_2; done.
    + rewrite PyFacts.get_set_ne by done.
      rewrite bool_decide_eq_false_2; [lia|]. intros [_ ?]. done.
  - rewrite get_bump_ne by done.
    rewrite bool_decide_eq_false_2; [lia|]. intros [? _]. done.
Qed.

Lemma bump_unique d key label : Shape.table_unique d -> Shape.table_unique (bump d key label).
Proof.
  intros Hd. unfold bump.
  assert (Shape.table_unique (Py.setdefault d key [])) as Hd1.
  { apply (PyFacts.Forall_values_setdefault
             (fun c : Py.dict string Z => NoDup (Py.keys c))); [done | constructor]. }
  apply (PyFacts.Forall_values_set (fun c : Py.dict string Z => NoDup (Py.keys c)));
    [done|].
  apply PyFacts.NoDup_keys_set. by apply get_table_unique.
Qed.

Lemma update_unique s f : Shape.store_unique s -> Shape.store_unique (update s f).
Proof.
  intros [He Hm]. unfold update. destruct (labels f); [done|].
  split; simpl; by apply bump_unique.
Qed.

(** X1. [update] does nothing for a record without labels; otherwise it
    adds exactly one to the count of the lower-cased first label under the
    record's lower-cased extension and under its MIME type, and leaves
    every other count of the two tables as it was. The other labels of the
    record play no part. *)
Theorem update_counts (s : LearningStore.t) (f : FileObject) :
  match labels f with
  | [] => update s f = s
  | first :: _ =>
      forall key label,
        Py.get (Py.get (extension_labels (update s f)) key []) label 0%Z
        = (Py.get (Py.get (extension_labels s) key []) label 0
           + if bool_decide (key = Py.lower (PathLib.suffix (path f))
                             /\ label = Py.lower first)
             then 1 else 0)%Z
        /\ Py.get (Py.get (mime_labels (update s f)) key []) label 0%Z
           = (Py.get (Py.get (mime_labels s) key []) label 0
              + if bool_decide (key = mime_type f /\ label = Py.lower first)
                then 1 else 0)%Z
  end.
Proof.
  unfold update. destruct (labels f) as [|first rest]; [done|].
  intros key label. simpl. split; apply bump_counts.
Qed.

(** X1, witness: the record [draft.txt] labelled [Draft] adds the label
    [draft] with count 1 under [.txt]. *)
Lemma update_counts_witness :
  Py.get (Py.get (extension_labels (update Samples.crowded_store Samples.draft_file))
                 ".txt" []) "draft" 0%Z = 1%Z.
Proof.
  pose proof (update_counts Samples.crowded_store Samples.draft_file) as H.
  cbn [labels Samples.draft_file] in H.
  destruct (H ".txt" "draft") as [He _]. rewrite He. reflexivity.
Defined.

(** X2. [suggest_labels] returns unless the largest combined count of a
    candidate is outside the range of [float], and then it raises
    [OverflowError]. When it returns, the labels are the first [limit]
    candidates for a limit that is not negative, and all but the last
    [-limit] for a negative one; they come without repetition, each of
    them recorded under the file's extension or under its MIME type, in
    the order of non-increasing combined count; no candidate left out has
    a larger combined count than a label returned; and the boost is at
    most 20. *)
Theorem suggest_labels_shape (s : LearningStore.t) (f : FileObject) (limit : Z) :
  let extension := Py.lower (PathLib.suffix (path f)) in
  let c := candidates_of s extension (mime_type f) in
  let count := fun l => Py.get c l 0%Z in
  let top := count (List.hd "" (Py.sorted_desc count (Py.keys c))) in
  (forall l, l ∈ Py.keys c -> (count l <= top)%Z)
  /\ (returns (suggest_labels s f limit) <-> c = [] \/ (Z.abs top < float_limit)%Z)
  /\ (~ returns (suggest_labels s f limit) ->
      suggest_labels s f limit
      = Raise (OverflowError "int too large to convert to float"))
  /\ forall suggested boost,
       suggest_labels s f limit = Return (suggested, boost) ->
       length suggested
       = (if (0 <=? limit)%Z then Nat.min (Z.to_nat limit) (length (Py.keys c))
          else length (Py.keys c) - Z.to_nat (- limit))
       /\ NoDup suggested
       /\ (forall l, l ∈ suggested ->
                     l ∈ Py.keys (Py.get (extension_labels s) extension [])
                     \/ l ∈ Py.keys (Py.get (mime_labels s) (mime_type f) []))
       /\ StronglySorted (Py.desc count) suggested
       /\ (forall l l', l ∈ suggested -> l' ∈ Py.keys c -> l' ∉ suggested ->
                        (count l' <= count l)%Z)
       /\ (boost <= 20)%Q.
Proof.
  intros extension c count top.
  set (sorted := Py.sorted_desc count (Py.keys c)) in *.
  assert (c <> [] ->
          suggest_labels s f limit
          = match float top with
            | Raise exc => Raise exc
            | Return x => Return (Py.list_slice_to sorted limit, Py.min 20 (x * 2)%Q)
            end) as Hunfold.
  { intros Hc. by rewrite LearningClaims.suggest_labels_unfold. }
  split; [|split; [|split]].
  - intros l Hl. subst top.
    destruct sorted as [|h t] eqn:E.
    + apply (PyFacts.elem_of_sorted_desc count) in Hl. fold sorted in Hl.
      rewrite E in Hl. by apply elem_of_nil in Hl.
    + exact (PyFacts.sorted_desc_head count h t (Py.keys c) l E Hl).
  - destruct (decide (c = [])) as [Hc|Hc].
    + rewrite LearningClaims.suggest_labels_none by done.
      split; [by left | by eexists].
    + rewrite Hunfold by done. split.
      * intros [out Hout]. right.
        destruct (float top) as [x|exc] eqn:Ef; [|done].
        by apply PyFacts.float_Return in Ef as [_ ?].
      * intros [?|Hlt]; [done|]. rewrite PyFacts.float_returns by done. by eexists.
  - intros Hnot. destruct (decide (c = [])) as [Hc|Hc].
    + exfalso. apply Hnot. rewrite LearningClaims.suggest_labels_none by done.
      by eexists.
    + rewrite Hunfold in * by done.
      destruct (Z_lt_le_dec (Z.abs top) float_limit) as [Hlt|Hge].
      * exfalso. apply Hnot. rewrite PyFacts.float_returns by done. by eexists.
      * by rewrite PyFacts.float_raises.
  - intros suggested boost Hret.
    apply LearningClaims.suggest_labels_Return in Hret
      as [(Hc & -> & ->)|(Hc & -> & -> & _)].
    { fold extension c in Hc. rewrite Hc. simpl.
      repeat split; try (intros l Hl; by apply elem_of_nil in Hl);
        [by destruct (0 <=? limit)%Z; simpl; lia | constructor | constructor
        | intros l l' Hl; by apply elem_of_nil in Hl | discriminate]. }
    fold extension c count sorted.
    assert (NoDup sorted) as Hnd.
    { unfold sorted. rewrite PyFacts.sorted_desc_perm.
      apply LearningFacts.candidates_NoDup. }
    pose proof (PyFacts.sorted_desc_sorted count (Py.keys c)) as Hsorted.
    fold sorted in Hsorted.
    assert (length sorted = length (Py.keys c)) as Hlen.
    { unfold sorted. by rewrite PyFacts.sorted_desc_perm. }
    destruct (PyFacts.list_slice_to_prefix sorted limit) as [rest Hrest].
    set (suggested := Py.list_slice_to sorted limit) in *.
    rewrite Hrest in Hnd, Hsorted.
    split; [unfold suggested; by rewrite PyFacts.list_slice_to_length, Hlen|].
    split; [by apply NoDup_app in Hnd as [? _]|].
    split; [|split; [by apply StronglySorted_app_1_l in Hsorted|split]].
    + intros l Hl. assert (l ∈ Py.keys c) as Hin.
      { apply (PyFacts.elem_of_sorted_desc count). fold sorted.
        rewrite Hrest, elem_of_app. by left. }
      unfold c, candidates_of in Hin.
      apply merge_counts_keys_iff in Hin as [Hin|Hin]; [|by right].
      apply merge_counts_keys_iff in Hin as [Hin|Hin]; [by apply elem_of_nil in Hin|].
      by left.
    + intros l l' Hl Hl' Hout.
      assert (l' ∈ rest) as Hdrop.
      { apply (PyFacts.elem_of_sorted_desc count) in Hl'. fold sorted in Hl'.
        rewrite Hrest, elem_of_app in Hl'. by destruct Hl'. }
      apply (StronglySorted_app_1_elem_of (Py.desc count) _ _ l l' Hsorted Hl Hdrop).
    + unfold Py.min. apply Q.le_min_l.
Qed.

(** X2, witness: three labels are known for [.txt]; with the limit 3 all
    three are returned, with the limit -1 the first two. *)
Lemma suggest_labels_shape_witness :
  (exists suggested boost,
     suggest_labels Samples.crowded_store Samples.draft_file 3
     = Return (suggested, boost) /\ length suggested = 3 /\ NoDup suggested)
  /\ exists suggested boost,
       suggest_labels Samples.crowded_store Samples.draft_file (-1)
       = Return (suggested, boost) /\ length suggested = 2.
Proof.
  split.
  - destruct (suggest_labels_shape Samples.crowded_store Samples.draft_file 3)
      as (_ & _ & _ & H).
    destruct (H ["alpha"; "beta"; "gamma"] 10%Q eq_refl) as (Hlen & Hnd & _).
    exists ["alpha"; "beta"; "gamma"], 10%Q. split; [reflexivity|].
    split; [exact Hlen | exact Hnd].
  - destruct (suggest_labels_shape Samples.crowded_store Samples.draft_file (-1))
      as (_ & _ & _ & H).
    destruct (H ["alpha"; "beta"] 10%Q eq_refl) as (Hlen & _).
    exists ["alpha"; "beta"], 10%Q. split; [reflexivity | exact Hlen].
Defined.

(** X3. In a store whose dictionaries have distinct keys, the combined
    count by which [suggest_labels] ranks a label is the sum of its count
    under the extension and its count under the MIME type, a label missing
    from one table counting 0 there. *)
Theorem candidates_additive (s : LearningStore.t) (extension mime label : string) :
  Shape.store_unique s ->
  Py.get (candidates_of s extension mime) label 0%Z
  = (Py.get (Py.get (extension_labels s) extension []) label 0
     + Py.get (Py.get (mime_labels s) mime []) label 0)%Z.
Proof.
  intros [He Hm]. unfold candidates_of.
  rewrite !merge_counts_get by by apply get_table_unique.
  change (Py.get [] label 0%Z) with 0%Z. lia.
Qed.

(** X3, witness: a label known for [.png] with 3 and for [image/png] with 4
    ranks with 7. *)
Lemma candidates_additive_witness :
  Py.get (candidates_of
            (mk [(".png", [("design", 3%Z)])] [("image/png", [("design", 4%Z)])])
            ".png" "image/png") "design" 0%Z = 7%Z.
Proof.
  rewrite (candidates_additive
             (mk [(".png", [("design", 3%Z)])] [("image/png", [("design", 4%Z)])])
             ".png" "image/png" "design").
  - reflexivity.
  - split; repeat constructor; simpl; by apply not_elem_of_nil.
Defined.

End LearningProps.

(** ** The metadata processor: labels, confidence and the error record *)

Module ProcessorProps.
Import MetadataProcessor.

(** The counting loop [frequency[word] = frequency.get(word, 0) + 1]. *)
Lemma counting_keys (words : list string) (f0 : Py.dict string Z) x :
  x ∈ Py.keys (fold_left (fun f word => Py.set f word (Py.get f word 0 + 1)%Z) words f0)
  <-> x ∈ Py.keys f0 \/ x ∈ words.
Proof.
  revert f0. induction words as [|w words IH]; intros f0; simpl.
  - split; [by left | intros [?|H]; [done | by apply elem_of_nil in H]].
  - rewrite IH, PyFacts.elem_of_keys_set, elem_of_cons. tauto.
Qed.

Lemma counting_NoDup (words : list string) (f0 : Py.dict string Z) :
  NoDup (Py.keys f0) ->
  NoDup (Py.keys (fold_left (fun f word => Py.set f word (Py.get f word 0 + 1)%Z)
                            words f0)).
Proof.
  revert f0. induction words as [|w words IH]; intros f0 Hnd; simpl; [done|].
  apply IH. by apply PyFacts.NoDup_keys_set.
Qed.

Lemma counting_get (words : list string) (f0 : Py.dict string Z) x :
  Py.get (fold_left (fun f word => Py.set f word (Py.get f word 0 + 1)%Z) words f0) x 0%Z
  = (Py.get f0 x 0 + Z.of_nat (count_occ string_dec words x))%Z.
Proof.
  revert f0. induction words as [|w words IH]; intros f0; simpl; [lia|].
  rewrite IH. destruct (string_dec w x) as [->|Hne].
  - rewrite PyFacts.get_set_eq. lia.
  - rewrite PyFacts.get_set_ne by done. lia.
Qed.

Lemma desc_ext {A : Type} (key key' : A -> Z) (l : list A) :
  (forall x, key x = key' x) ->
  StronglySorted (Py.desc key) l -> StronglySorted (Py.desc key') l.
Proof.
  intros Hext. induction 1 as [|x l Hs IH Hall]; constructor; [done|].
  eapply Forall_impl; [exact Hall|]. intros y. unfold Py.desc. by rewrite !Hext.
Qed.

(** The size and the confidence of the word-frequency branch. *)
Lemma frequency_labels_confidence (sample_text : string) :
  length (fst (frequency_labels sample_text)) <= 5
  /\ (snd (frequency_labels sample_text)
      == if Py.nonempty_list (fst (frequency_labels sample_text))
         then 50 + 10 * inject_Z (Z.of_nat (length (fst (frequency_labels sample_text))))
         else 0)%Q.
Proof.
  unfold frequency_labels.
  set (sorted := Py.sorted_desc _ _).
  assert (length (take 5 sorted) <= 5) as Hlen by (rewrite length_take; lia).
  destruct (take 5 sorted) as [|l ls] eqn:E; cbn [fst snd Py.nonempty_list];
    [split; [done | reflexivity]|].
  split; [done|]. unfold Py.min.
  assert (inject_Z (Z.of_nat (length (l :: ls))) <= inject_Z 5)%Q as Hq.
  { rewrite <- Zle_Qle. lia. }
  rewrite Q.min_r; [ring|]. change (inject_Z 5) with 5%Q in Hq. lra.
Qed.

(** X4. The word-frequency fallback of [generate_labels] returns at most
    five labels, all different; each is a lower-case word of the text,
    stripped of surrounding punctuation and longer than three characters;
    they come in the order of non-increasing number of occurrences, and no
    word left out occurs more often than a label returned. The confidence
    is 0 without labels and 50 + 10 per label otherwise. *)
Theorem frequency_labels_shape (sample_text : string) :
  let words :=
    List.filter (fun word => (3 <? Py.len word)%nat)
      (List.map (fun word => Py.lower (Py.strip ".,!?:;()[]{}" word))
                (Py.split sample_text)) in
  let occurrences := fun w => Z.of_nat (count_occ string_dec words w) in
  let labels := fst (frequency_labels sample_text) in
  let confidence := snd (frequency_labels sample_text) in
  length labels <= 5
  /\ NoDup labels
  /\ (forall l, l ∈ labels -> l ∈ words /\ 3 < Py.len l /\ Py.lower l = l)
  /\ StronglySorted (Py.desc occurrences) labels
  /\ (forall l w, l ∈ labels -> w ∈ words -> w ∉ labels ->
                  (occurrences w <= occurrences l)%Z)
  /\ (labels = [] <-> words = [])
  /\ (confidence == if Py.nonempty_list labels
                    then 50 + 10 * inject_Z (Z.of_nat (length labels)) else 0)%Q.
Proof.
  intros words occurrences labels confidence.
  set (frequency :=
         fold_left (fun f word => Py.set f word (Py.get f word 0 + 1)%Z) words []).
  set (sorted := Py.sorted_desc (fun w => Py.get frequency w 0%Z) (Py.keys frequency)).
  assert (frequency_labels sample_text
          = match take 5 sorted with
            | [] => (take 5 sorted, 0%Q)
            | _ => (take 5 sorted,
                    Py.min 100 (50 + inject_Z (Z.of_nat (length (take 5 sorted))) * 10)%Q)
            end) as Hunfold by reflexivity.
  assert (labels = take 5 sorted) as Hlabels.
  { unfold labels. rewrite Hunfold. by destruct (take 5 sorted). }
  assert (forall w, Py.get frequency w 0%Z = occurrences w) as Hget.
  { intros w. unfold frequency. rewrite counting_get. reflexivity. }
  assert (forall w, w ∈ sorted <-> w ∈ words) as Hin.
  { intros w. unfold sorted. rewrite PyFacts.elem_of_sorted_desc.
    unfold frequency. rewrite counting_keys. split; [|by right].
    intros [H|H]; [by apply elem_of_nil in H | done]. }
  assert (NoDup sorted) as Hnd.
  { unfold sorted. rewrite PyFacts.sorted_desc_perm. apply counting_NoDup. constructor. }
  assert (StronglySorted (Py.desc occurrences) sorted) as Hsorted.
  { apply (desc_ext (fun w => Py.get frequency w 0%Z)); [done|].
    apply PyFacts.sorted_desc_sorted. }
  assert (length labels <= 5) as Hlen by (rewrite Hlabels, length_take; lia).
  rewrite <- (take_drop 5 sorted), <- Hlabels in Hnd, Hsorted.
  split; [done|].
  split; [by apply NoDup_app in Hnd as [? _]|].
  split.
  { intros l Hl. assert (l ∈ words) as Hw.
    { apply Hin. rewrite <- (take_drop 5 sorted), <- Hlabels, elem_of_app. by left. }
    split; [done|]. unfold words in Hw.
    apply list_elem_of_In, filter_In in Hw as [Hw Hlong].
    apply in_map_iff in Hw as (w0 & <- & _).
    split; [by apply Nat.ltb_lt in Hlong | apply TextFacts.lower_idem]. }
  split; [by apply StronglySorted_app_1_l in Hsorted|].
  split.
  { intros l w Hl Hw Hout.
    assert (w ∈ drop 5 sorted) as Hdrop.
    { apply Hin in Hw. rewrite <- (take_drop 5 sorted), <- Hlabels, elem_of_app in Hw.
      by destruct Hw. }
    apply (StronglySorted_app_1_elem_of (Py.desc occurrences) _ _ l w Hsorted Hl Hdrop). }
  split.
  { split.
    - intros Hnil. destruct words as [|w ws] eqn:Ew; [done|]. exfalso.
      assert (w ∈ sorted) as Hw by (apply Hin; left).
      rewrite Hlabels in Hnil. destruct sorted; [by apply elem_of_nil in Hw | done].
    - intros Hnil. destruct labels as [|l ls] eqn:El; [done|]. exfalso.
      assert (l ∈ words) as Hw.
      { apply Hin. rewrite <- (take_drop 5 sorted), <- Hlabels, elem_of_app.
        left. left. }
      rewrite Hnil in Hw. by apply elem_of_nil in Hw. }
  unfold confidence. rewrite Hunfold, <- Hlabels.
  destruct labels as [|l ls] eqn:El; [reflexivity|].
  cbn [snd Py.nonempty_list]. unfold Py.min.
  assert (inject_Z (Z.of_nat (length (l :: ls))) <= inject_Z 5)%Q as Hq.
  { rewrite <- Zle_Qle. lia. }
  rewrite Q.min_r; [ring|]. change (inject_Z 5) with 5%Q in Hq. lra.
Qed.

(** X4, witness: the text of the integration test. *)
Lemma frequency_labels_shape_witness :
  length (fst (frequency_labels "Project notes about quarterly planning and finance."))
  <= 5
  /\ NoDup (fst (frequency_labels "Project notes about quarterly planning and finance.")).
Proof.
  pose proof (frequency_labels_shape
                "Project notes about quarterly planning and finance.") as H.
  cbv zeta in H. destruct H as (Hlen & Hnd & _). by split.
Defined.

(** Without scikit-learn [generate_labels] cannot raise. *)
Lemma generate_labels_plain env content metadata :
  TfidfVectorizer env = None ->
  exists labels confidence,
    generate_labels env content metadata = Return (labels, confidence)
    /\ length labels <= 5
    /\ (confidence == if Py.nonempty_list labels
                      then (if Py.nonempty_list
                                 (List.filter
                                    (fun item =>
                                       bool_decide (fst item ∈ ESSENTIAL_METADATA_KEYS)
                                       && Py.nonempty (snd item)) metadata)
                            then 90
                            else 50 + 10 * inject_Z (Z.of_nat (length labels)))
                      else 0)%Q.
Proof.
  intros Ht. unfold generate_labels. rewrite Ht.
  destruct (List.filter _ metadata) as [|l ls]; cbn [List.map].
  - destruct (negb (Py.nonempty _)).
    + eexists _, _. split; [reflexivity|]. simpl. split; [lia | reflexivity].
    + set (text := Py.slice_to 2000 _).
      pose proof (frequency_labels_confidence text) as (Hlen & Hc).
      destruct (frequency_labels text) as [labels confidence]. simpl in Hlen, Hc.
      exists labels, confidence. split; [done|]. split; [done|].
      by destruct labels.
  - eexists _, _. split; [reflexivity|].
    split; [rewrite length_take; lia|]. reflexivity.
Qed.

Lemma confidence_range (labels : list string) (from_metadata : bool) (confidence : Q) :
  length labels <= 5 ->
  (confidence == if Py.nonempty_list labels
                 then (if from_metadata then 90
                       else 50 + 10 * inject_Z (Z.of_nat (length labels)))
                 else 0)%Q ->
  (0 <= confidence <= 100)%Q.
Proof.
  intros Hlen Hc.
  assert (inject_Z (Z.of_nat (length labels)) <= inject_Z 5)%Q as Hq.
  { rewrite <- Zle_Qle. lia. }
  assert (inject_Z 0 <= inject_Z (Z.of_nat (length labels)))%Q as Hq0.
  { rewrite <- Zle_Qle. lia. }
  change (inject_Z 5) with 5%Q in Hq. change (inject_Z 0) with 0%Q in Hq0.
  destruct (Py.nonempty_list labels); [destruct from_metadata|]; lra.
Qed.

(** X5. Without scikit-learn [generate_labels] never raises: it returns at
    most five labels and a confidence between 0 and 100, which is 0 exactly
    when there are no labels, 90 when the labels come from a non-empty
    title, author or created entry of the metadata, and 50 + 10 per label
    when they come from the words of the content. *)
Theorem generate_labels_without_sklearn (env : Backends) (content : string)
        (metadata : Py.dict string string) :
  TfidfVectorizer env = None ->
  let essential :=
    List.filter (fun item => bool_decide (fst item ∈ ESSENTIAL_METADATA_KEYS)
                             && Py.nonempty (snd item)) metadata in
  exists labels confidence,
    generate_labels env content metadata = Return (labels, confidence)
    /\ length labels <= 5
    /\ (0 <= confidence <= 100)%Q
    /\ (labels = [] <-> (confidence == 0)%Q)
    /\ (essential <> [] -> labels <> [] /\ (confidence == 90)%Q)
    /\ (essential = [] -> labels <> [] ->
        (confidence == 50 + 10 * inject_Z (Z.of_nat (length labels)))%Q).
Proof.
  intros Ht essential.
  destruct (generate_labels_plain env content metadata Ht)
    as (labels & confidence & Hg & Hlen & Hc).
  fold essential in Hc.
  exists labels, confidence. split; [done|]. split; [done|].
  split; [by eapply confidence_range|].
  assert (inject_Z 0 <= inject_Z (Z.of_nat (length labels)))%Q as Hq0.
  { rewrite <- Zle_Qle. lia. }
  change (inject_Z 0) with 0%Q in Hq0.
  split; [|split].
  - split.
    + by intros ->.
    + intros H0. destruct labels as [|l ls]; [done|]. exfalso.
      cbn [Py.nonempty_list] in Hc. destruct (Py.nonempty_list essential); lra.
  - intros Hne. apply ProcessorClaims.nonempty_list_true in Hne.
    rewrite Hne in Hc.
    assert (labels <> []) as Hl.
    { intros ->. revert Hg. unfold generate_labels. fold essential.
      destruct essential as [|e es]; [done|]. cbn [List.map].
      simpl. discriminate. }
    split; [done|]. by destruct labels.
  - intros -> Hl. destruct labels; [done|]. exact Hc.
Qed.

(** X5, witness: a title in the metadata gives its lower-cased value as the
    label, with confidence 90. *)
Lemma generate_labels_without_sklearn_witness :
  exists labels confidence,
    generate_labels Samples.plain_env "some text" [("title", "Report")]
    = Return (labels, confidence)
    /\ length labels <= 5 /\ (0 <= confidence <= 100)%Q.
Proof.
  destruct (generate_labels_without_sklearn Samples.plain_env "some text"
              [("title", "Report")] eq_refl)
    as (labels & confidence & Hg & Hlen & Hc & _).
  by exists labels, confidence.
Defined.

(** *** The [try] body of [process_file] *)

(** When the body completes, the labels and the confidence of the record
    are those of [generate_labels], passed through the media rules and the
    learning step; the log is only extended. *)
Lemma process_body_returns env store p (st st' : State) (u : unit) :
  process_body env store p st = (st', Return u) ->
  exists res lc f1,
    extract_metadata env p = Return res
    /\ generate_labels env (Py.slice_to 500 (result_content res)) (result_metadata res)
       = Return lc
    /\ mime_type f1 = mime_type (fst st)
    /\ (exists out,
          learning_augment store f1 (media_override (mime_type (fst st)) p lc)
          = Return out
          /\ (labels (fst st'), confidence_score (fst st')) = fst out)
    /\ metadata (fst st') = result_metadata res
    /\ is_consistent (fst st') = validate_filename p (result_metadata res).
Proof.
  unfold process_body. ProcessorClaims.unfold_exc.
  destruct (extract_metadata env p) as [res|e]; simpl; [|done].
  destruct (negb (validate_filename p (result_metadata res))); simpl;
    (destruct (generate_labels env _ _) as [lc|e] eqn:G; simpl; [ | done ];
     destruct (learning_augment store _ _)
       as [[[labels' confidence'] records]|exc] eqn:E; simpl; [ | done ];
     intros [= <-]; simpl;
     exists res, lc,
       (fst (set_extracted (result_metadata res)
               (validate_filename p (result_metadata res)) st));
     simpl; repeat split; try done; by eexists).
Qed.

(** When the body raises, the exception comes from the extraction, from
    the labelling or from the learning step. *)
Lemma process_body_raises env store p (st st' : State) (exc : exn) :
  process_body env store p st = (st', Raise exc) ->
  extract_metadata env p = Raise exc
  \/ exists res,
       extract_metadata env p = Return res
       /\ (generate_labels env (Py.slice_to 500 (result_content res))
                           (result_metadata res)
           = Raise exc
           \/ exists lc f1,
                path f1 = path (fst st) /\ mime_type f1 = mime_type (fst st)
                /\ learning_augment store f1 lc = Raise exc).
Proof.
  unfold process_body. ProcessorClaims.unfold_exc.
  destruct (extract_metadata env p) as [res|e]; simpl.
  2:{ intros [= _ ->]. by left. }
  destruct (negb (validate_filename p (result_metadata res))); simpl;
    (destruct (generate_labels env _ _) as [lc|e] eqn:G; simpl;
     [ destruct (learning_augment store _ _)
         as [[[labels' confidence'] records]|exc'] eqn:E; simpl; [done|];
       intros [= _ ->]; right; exists res; split; [done|]; right;
       eexists _, _; split; [|split; [|exact E]]; done
     | intros [= _ ->]; right; exists res; split; [done | by left] ]).
Qed.

(** The body only appends to the log. *)
Lemma process_body_log env store p (st st' : State) (r : result unit) :
  process_body env store p st = (st', r) -> snd st `prefix_of` snd st'.
Proof.
  unfold process_body. ProcessorClaims.unfold_exc.
  destruct (extract_metadata env p) as [res|e]; simpl.
  2:{ by intros [= <- _]. }
  destruct (negb (validate_filename p (result_metadata res))); simpl;
    (destruct (generate_labels env _ _) as [lc|e]; simpl;
     [ destruct (learning_augment store _ _)
         as [[[labels' confidence'] records]|exc]; simpl;
       intros [= <- _]; simpl
     | intros [= <- _]; simpl ]);
    rewrite <- ?(assoc_L (++)); try apply prefix_app_r; done.
Qed.

(** *** [process_file] *)

Lemma suggest_labels_length s f limit suggested boost :
  (0 <= limit)%Z ->
  LearningStore.suggest_labels s f limit = Return (suggested, boost) ->
  length suggested <= Z.to_nat limit.
Proof.
  intros Hlimit H.
  apply LearningClaims.suggest_labels_Return in H
    as [(_ & -> & _)|(_ & -> & _)]; [simpl; lia|].
  rewrite PyFacts.list_slice_to_nonneg by done. rewrite length_take. lia.
Qed.

Lemma suggest_boost_le s f limit suggested boost :
  LearningStore.suggest_labels s f limit = Return (suggested, boost) ->
  (boost <= 20)%Q.
Proof.
  intros H.
  apply LearningClaims.suggest_labels_Return in H
    as [(_ & _ & ->)|(_ & _ & -> & _)]; [lra|].
  unfold Py.min. apply Q.le_min_l.
Qed.

(** [suggest_labels] raises nothing but the [OverflowError] of [float]. *)
Lemma suggest_labels_Raise s f limit exc :
  LearningStore.suggest_labels s f limit = Raise exc ->
  exc = OverflowError "int too large to convert to float".
Proof.
  unfold LearningStore.suggest_labels.
  destruct (LearningStore.candidates_of s _ _); [done|].
  unfold float. destruct (_ <? _)%Z; [done|]. by intros [= <-].
Qed.

Lemma media_override_bounds mime p (labels : list string) (confidence : Q) :
  length labels <= 5 -> (0 <= confidence <= 100)%Q ->
  length (fst (media_override mime p (labels, confidence))) <= 5
  /\ (0 <= snd (media_override mime p (labels, confidence)) <= 100)%Q.
Proof.
  intros Hl [H0 H100]. unfold media_override.
  assert (0 <= Py.max confidence 85 <= 100)%Q as Hmax.
  { unfold Py.max. split.
    - apply Qle_trans with 85%Q; [lra | apply Q.le_max_r].
    - apply Q.max_lub; lra. }
  destruct (is_image mime p); destruct labels as [|l ls]; cbn -[Py.max];
    repeat (match goal with |- context [if ?b then _ else _] => destruct b end;
            cbn -[Py.max]);
    (split; [simpl in *; lia | try lra; try done]).
Qed.

Lemma learning_augment_bounds store f (labels : list string) (confidence : Q) out :
  from_option store_nonneg True store ->
  length labels <= 5 -> (0 <= confidence <= 100)%Q ->
  learning_augment store f (labels, confidence) = Return out ->
  length (fst (fst out)) <= 5
  /\ (0 <= snd (fst out) <= 100)%Q.
Proof.
  intros Hs Hl [H0 H100] Hout. split; [|split].
  - revert Hout. unfold learning_augment.
    destruct store as [s|]; [|by intros [= <-]].
    destruct (LearningStore.suggest_labels s f 3) as [[suggested boost]|exc] eqn:E;
      [|done].
    apply suggest_labels_length in E; [|lia].
    destruct (Py.nonempty_list suggested); intros [= <-]; [|done]. simpl.
    destruct (overridable labels); simpl in *; lia.
  - apply (ProcessorClaims.learning_augment_floor store f (labels, confidence) 0 out);
      [done | lra | done | done].
  - revert Hout. unfold learning_augment.
    destruct store as [s|]; [|by intros [= <-]].
    destruct (LearningStore.suggest_labels s f 3) as [[suggested boost]|exc];
      [|done].
    destruct (Py.nonempty_list suggested); intros [= <-]; [|done]. simpl.
    unfold Py.min. apply Q.le_min_l.
Qed.

(** X6. Without python-magic [process_file] never raises, whatever the
    other libraries do: it returns a record for the path it was given,
    with a non-empty MIME type and no target path, and only appends to the
    log. Either the record has no error, or it has exactly one, the text
    of the exception caught, and then no labels and confidence 0. *)
Theorem process_file_without_magic (env : Backends) (store : option LearningStore.t)
        (logger : Logger) (p : Path) :
  magic env = None ->
  exists f logger',
    process_file env store logger p = Return (f, logger')
    /\ path f = p
    /\ mime_type f <> ""
    /\ target_path f = None
    /\ logger `prefix_of` logger'
    /\ (errors f = []
        \/ exists exc, errors f = [str_exc exc] /\ labels f = []
                       /\ confidence_score f = 0%Q).
Proof.
  intros Hm. unfold process_file, detect_mime_type. rewrite Hm.
  set (m := match guess_type env (PathLib.name p) with
            | Some mime_type =>
                if Py.nonempty mime_type then mime_type else "application/octet-stream"
            | None => "application/octet-stream"
            end).
  assert (m <> "") as Hne.
  { unfold m. destruct (guess_type env _) as [[|c t]|]; done. }
  assert (match guess_type env (PathLib.name p) with
          | Some mime_type =>
              Return (if Py.nonempty mime_type then mime_type
                      else "application/octet-stream")
          | None => Return "application/octet-stream"
          end = Return m) as ->.
  { unfold m. by destruct (guess_type env _). }
  destruct (process_body env store p _) as [st [u|exc]] eqn:E;
    destruct (ProcessorClaims.process_body_outcome _ _ _ _ _ _ E)
      as (Hp & Hmt & He & Ht & _);
    pose proof (process_body_log _ _ _ _ _ _ E) as Hlog; simpl in *.
  - exists (fst st), (snd st). split; [by destruct st|].
    rewrite Hmt. repeat split; try done. by left.
  - eexists _, _. split; [reflexivity|]. simpl. rewrite Hmt, He.
    repeat split; try done.
    + by apply prefix_app_r.
    + right. exists exc. split; [done|].
      revert E. unfold process_body. ProcessorClaims.unfold_exc.
      destruct (extract_metadata env p) as [res|e]; simpl.
      2:{ by intros [= <- _]. }
      destruct (negb (validate_filename p (result_metadata res))); simpl;
        (destruct (generate_labels env _ _) as [lc|e]; simpl;
         [ destruct (learning_augment store _ _)
             as [[[labels' confidence'] records]|exc']; simpl;
           [done | by intros [= <- _]]
         | by intros [= <- _] ]).
Qed.

(** X6, witness: a text file, with none of the optional libraries. *)
Lemma process_file_without_magic_witness :
  exists f logger',
    process_file Samples.plain_env None [] Samples.notes_path = Return (f, logger')
    /\ path f = Samples.notes_path /\ target_path f = None.
Proof.
  destruct (process_file_without_magic Samples.plain_env None [] Samples.notes_path
              eq_refl)
    as (f & logger' & Hp & Hpath & _ & Ht & _).
  by exists f, logger'.
Defined.

(** X7. Without scikit-learn, and with a learning store whose counts are
    not negative, every record [process_file] returns has a confidence
    between 0 and 100 and at most five labels. *)
Theorem process_file_bounds (env : Backends) (store : option LearningStore.t)
        (logger : Logger) (p : Path) (f : FileObject) (logger' : Logger) :
  TfidfVectorizer env = None ->
  from_option store_nonneg True store ->
  process_file env store logger p = Return (f, logger') ->
  (0 <= confidence_score f <= 100)%Q /\ length (labels f) <= 5.
Proof.
  intros Ht Hs. unfold process_file.
  destruct (detect_mime_type env p) as [m|e]; [|done].
  destruct (process_body env store p _) as [st [u|exc]] eqn:E.
  - intros [= ->].
    destruct (process_body_returns _ _ _ _ _ _ E)
      as (res & [labels0 confidence0] & f1 & _ & Hg & _ & (out & Hout & Hlc) & _).
    destruct (generate_labels_plain env (Py.slice_to 500 (result_content res))
                (result_metadata res) Ht) as (labels1 & confidence1 & Hg' & Hlen & Hc).
    rewrite Hg in Hg'. injection Hg' as -> ->.
    pose proof (confidence_range _ _ _ Hlen Hc) as Hrange.
    cbn [fst mime_type new_FileObject] in Hlc, Hout.
    destruct (media_override_bounds m p labels1 confidence1 Hlen Hrange) as [Hl1 Hc1].
    destruct (media_override m p (labels1, confidence1)) as [labels2 confidence2].
    destruct (learning_augment_bounds store f1 labels2 confidence2 out Hs Hl1 Hc1 Hout)
      as [Hl2 Hc2].
    rewrite <- Hlc in Hl2, Hc2. by split.
  - intros [= <- _]. simpl.
    assert (labels (fst st) = [] /\ confidence_score (fst st) = 0%Q) as [-> ->].
    { revert E. unfold process_body. ProcessorClaims.unfold_exc.
      destruct (extract_metadata env p) as [res|e]; simpl.
      2:{ by intros [= <- _]. }
      destruct (negb (validate_filename p (result_metadata res))); simpl;
        (destruct (generate_labels env _ _) as [lc|e]; simpl;
         [ destruct (learning_augment store _ _)
             as [[[labels' confidence'] records]|exc']; simpl;
           [done | by intros [= <- _]]
         | by intros [= <- _] ]). }
    simpl. split; [lra | lia].
Qed.

Lemma sample_scan_processed :
  match process_file Samples.tika_title_env (Some Samples.invoice_store) []
                     Samples.scan_png with
  | Return (f, _) => labels f = ["scan"]
  | Raise _ => False
  end.
Proof. vm_compute. reflexivity. Qed.

(** X7, witness: an image with a title found by tika, and a store that
    knows invoices. *)
Lemma process_file_bounds_witness :
  exists f logger',
    process_file Samples.tika_title_env (Some Samples.invoice_store) []
                 Samples.scan_png = Return (f, logger')
    /\ (0 <= confidence_score f <= 100)%Q /\ length (labels f) <= 5.
Proof.
  pose proof sample_scan_processed as H.
  destruct (process_file Samples.tika_title_env (Some Samples.invoice_store) []
                         Samples.scan_png) as [[f logger']|] eqn:E; [|destruct H].
  exists f, logger'. split; [reflexivity|].
  apply (process_file_bounds Samples.tika_title_env (Some Samples.invoice_store)
           [] Samples.scan_png f logger' eq_refl); [|exact E].
  split; repeat constructor; simpl; lia.
Defined.

(** X8. With none of the optional libraries (no python-magic, no tika, no
    scikit-learn) and a file whose reading fails, if at all, with an
    [OSError], [process_file] returns a record with empty metadata and
    marked consistent, and logs no filename mismatch. The record has no
    error when there is no learning store or [suggest_labels] returns;
    when [suggest_labels] raises, on a count that [float] refuses, the
    error is the text of the [OverflowError], and the record is left
    without labels and with confidence 0. *)
Theorem process_file_without_libraries (env : Backends)
        (store : option LearningStore.t) (logger : Logger) (p : Path) :
  magic env = None -> parser env = None -> TfidfVectorizer env = None ->
  (forall e, read_text env p = Raise e -> is_OSError e = true) ->
  exists f logger',
    process_file env store logger p = Return (f, logger')
    /\ metadata f = [] /\ is_consistent f = true
    /\ (forall title, INFO_filename_mismatch p title ∈ logger' ->
                      INFO_filename_mismatch p title ∈ logger)
    /\ match store with
       | None => errors f = []
       | Some s =>
           match LearningStore.suggest_labels s (new_FileObject p (mime_type f)) 3 with
           | Return _ => errors f = []
           | Raise _ =>
               errors f = ["int too large to convert to float"]
               /\ labels f = [] /\ confidence_score f = 0%Q
           end
       end.
Proof.
  intros Hm Hp Ht Hread.
  assert (exists content, extract_metadata env p = Return (mkMetadataResult [] content))
    as [content Hx].
  { unfold extract_metadata, extract. rewrite Hp.
    destruct (read_text env p) as [c|e] eqn:R; [by eexists|].
    rewrite (Hread e eq_refl). by eexists. }
  unfold process_file, detect_mime_type. rewrite Hm.
  set (r := match guess_type env (PathLib.name p) with
            | Some mime_type =>
                Return (if Py.nonempty mime_type then mime_type
                        else "application/octet-stream")
            | None => Return "application/octet-stream"
            end).
  assert (exists m, r = Return m) as [m ->].
  { unfold r. destruct (guess_type env _); by eexists. }
  destruct (generate_labels_plain env (Py.slice_to 500 content) [] Ht)
    as (labels0 & confidence0 & Hg & _).
  unfold process_body. ProcessorClaims.unfold_exc. rewrite Hx.
  cbn [result_metadata result_content]. rewrite Hg.
  change (validate_filename p []) with true. cbn [negb].
  change (fst (set_extracted [] true (new_FileObject p m, logger)))
    with (new_FileObject p m).
  destruct (media_override _ _ _) as [labels1 confidence1].
  unfold learning_augment. destruct store as [s|].
  - destruct (LearningStore.suggest_labels s (new_FileObject p m) 3)
      as [[suggested boost]|exc] eqn:E.
    + destruct (Py.nonempty_list suggested);
        (eexists _, _; split; [reflexivity|]; simpl; rewrite E;
         repeat split;
         intros title Hin; apply elem_of_app in Hin as [Hin|Hin]; [done|]).
      * apply list_elem_of_singleton in Hin. discriminate.
      * by apply elem_of_nil in Hin.
    + eexists _, _. split; [reflexivity|]. simpl. rewrite E.
      apply suggest_labels_Raise in E as ->.
      repeat split.
      intros title Hin. apply elem_of_app in Hin as [Hin|Hin]; [done|].
      apply list_elem_of_singleton in Hin. discriminate.
  - eexists _, _. split; [reflexivity|]. simpl. repeat split.
    intros title Hin. apply elem_of_app in Hin as [Hin|Hin]; [done|].
    by apply elem_of_nil in Hin.
Qed.

Lemma sample_overflow_processed :
  match process_file Samples.plain_env (Some Samples.huge_store) []
                     Samples.notes_path with
  | Return (f, _) => mime_type f = "text/plain"
  | Raise _ => False
  end.
Proof. vm_compute. reflexivity. Qed.

(** X8, witness: a text file and a store with the count 2^1024 under
    [.txt]; the record carries the error of [float]. *)
Lemma process_file_without_libraries_witness :
  exists f logger',
    process_file Samples.plain_env (Some Samples.huge_store) [] Samples.notes_path
    = Return (f, logger')
    /\ errors f = ["int too large to convert to float"]
    /\ metadata f = [] /\ is_consistent f = true.
Proof.
  pose proof sample_overflow_processed as Hok.
  destruct (process_file_without_libraries Samples.plain_env
              (Some Samples.huge_store) [] Samples.notes_path eq_refl eq_refl eq_refl)
    as (f & logger' & Hp & Hmd & Hc & _ & He).
  - intros e. simpl. discriminate.
  - rewrite Hp in Hok. rewrite Hok in He.
    exists f, logger'. split; [exact Hp|].
    split; [exact (proj1 He) | split; [exact Hmd | exact Hc]].
Defined.

(** *** [DefaultStrategy.extract] *)

(** The dictionary comprehension of [extract], as a loop over the items. *)
Lemma comprehension_inv (items : list (string * string)) (d0 : Py.dict string string) :
  let d := fold_left
             (fun d item =>
                if Py.nonempty (snd item) then Py.set d (Py.lower (fst item)) (snd item)
                else d) items d0 in
  (NoDup (Py.keys d0) -> NoDup (Py.keys d))
  /\ (forall k v, Py.lookup d k = Some v ->
                  Py.lookup d0 k = Some v
                  \/ exists k0, (k0, v) ∈ items /\ Py.lower k0 = k /\ v <> "")
  /\ (forall k, k ∈ Py.keys d0 -> k ∈ Py.keys d)
  /\ (forall k0 v0, (k0, v0) ∈ items -> v0 <> "" -> Py.lower k0 ∈ Py.keys d).
Proof.
  revert d0. induction items as [|[k1 v1] items IH]; intros d0; cbn zeta.
  { simpl. repeat split; try done; [by left|]. intros k0 v0 H. by apply elem_of_nil in H. }
  cbn [fold_left fst snd].
  set (d1 := if Py.nonempty v1 then Py.set d0 (Py.lower k1) v1 else d0).
  destruct (IH d1) as (Hnd & Hl & Hk & Hi).
  assert (forall k, k ∈ Py.keys d0 -> k ∈ Py.keys d1) as Hk01.
  { intros k Hin. unfold d1. destruct (Py.nonempty v1); [|done].
    apply PyFacts.elem_of_keys_set. by right. }
  split; [|split; [|split]].
  - intros H0. apply Hnd. unfold d1. destruct (Py.nonempty v1); [|done].
    by apply PyFacts.NoDup_keys_set.
  - intros k v Hv. destruct (Hl k v Hv) as [H1|(k0 & Hin & Hlow & Hne)].
    + unfold d1 in H1. destruct (Py.nonempty v1) eqn:N; [|by left].
      destruct (decide (Py.lower k1 = k)) as [<-|Hneq].
      * rewrite PyFacts.lookup_set_eq in H1. injection H1 as <-.
        right. exists k1. split; [left|]. split; [done|]. by destruct v1.
      * rewrite PyFacts.lookup_set_ne in H1 by done. by left.
    + right. exists k0. split; [by right | done].
  - intros k Hin. by apply Hk, Hk01.
  - intros k0 v0 Hin Hne. apply elem_of_cons in Hin as [[= -> ->]|Hin].
    + apply Hk. unfold d1. destruct v1; [done|]. simpl.
      apply PyFacts.elem_of_keys_set. by left.
    + by apply (Hi k0 v0).
Qed.

(** X9. With tika installed and a parse that returns, [extract] returns:
    the keys of the metadata are lower-case and all different, every value
    is a non-empty value of the parsed metadata stored under the
    lower-cased key it had there, every parsed entry with a non-empty value
    has its lower-cased key in the result, and the content is the parsed
    content or the empty string. *)
Theorem extract_with_tika (env : Backends) (p : Path)
        (from_file : Path -> result ParsedDocument) (parsed : ParsedDocument) :
  parser env = Some from_file -> from_file p = Return parsed ->
  let items := default [] (parsed_metadata parsed) in
  exists r,
    extract env p = Return r
    /\ result_content r = default "" (parsed_content parsed)
    /\ NoDup (Py.keys (result_metadata r))
    /\ (forall k v, Py.lookup (result_metadata r) k = Some v ->
                    Py.lower k = k /\ v <> ""
                    /\ exists k0, (k0, v) ∈ items /\ Py.lower k0 = k)
    /\ (forall k0 v0, (k0, v0) ∈ items -> v0 <> "" ->
                      Py.lower k0 ∈ Py.keys (result_metadata r)).
Proof.
  intros Hp Hf items. unfold extract. rewrite Hp, Hf. fold items.
  eexists. split; [reflexivity|]. cbn [result_content result_metadata].
  destruct (comprehension_inv items []) as (Hnd & Hl & _ & Hi).
  split; [done|]. split; [apply Hnd; constructor|]. split; [|exact Hi].
  intros k v Hv. destruct (Hl k v Hv) as [H|(k0 & Hin & Hlow & Hne)]; [done|].
  split; [by rewrite <- Hlow, TextFacts.lower_idem|]. split; [done|]. by exists k0.
Qed.

(** X9, witness: tika reports [Title = Scan]; the key is stored as
    [title]. *)
Lemma extract_with_tika_witness :
  exists r,
    extract Samples.tika_title_env Samples.scan_png = Return r
    /\ result_content r = ""
    /\ NoDup (Py.keys (result_metadata r)).
Proof.
  destruct (extract_with_tika Samples.tika_title_env Samples.scan_png
              (fun _ => Return (mkParsed (Some [("Title", "Scan")]) None))
              (mkParsed (Some [("Title", "Scan")]) None) eq_refl eq_refl)
    as (r & Hr & Hc & Hnd & _).
  by exists r.
Defined.

End ProcessorProps.

(** ** The organization engine: where files go and what is left alone *)

Module OrganizationProps.
Import OrganizationEngine.

Lemma determine_category_cases f :
  determine_category f ∈ [["Media"; "Photos"]; ["Media"; "Videos"]; ["Media"; "Audio"];
                          ["Documents"; "PDFs"]; ["Code"; "Scripts"];
                          ["Documents"; "Text"]]
  \/ determine_category f
     = PathLib.parse "Documents"
       // PathLib.parse (Py.title (match labels f with
                                   | first :: _ => first
                                   | [] => "uncategorized"
                                   end)).
Proof.
  unfold determine_category.
  repeat (match goal with |- context [if ?b then _ else _] => destruct b end;
          [left; vm_compute; set_solver|]).
  by right.
Qed.

(** X10. Where the destination directory [root / category] lies. The
    category is anchored exactly when it is the title-cased first label and
    this label starts with a slash; the destination directory is then the
    label's own path and the root plays no part. Otherwise the category
    starts with [Media], [Documents] or [Code] and is appended to the root,
    and when it has no [".."] part the destination directory resolves to a
    path below what the root resolves to. Only the first label can bring a
    [".."] part, which may take the destination outside the root. *)
Theorem determine_category_anchor (cwd root : Path) (f : FileObject) :
  let label := match labels f with first :: _ => first | [] => "uncategorized" end in
  let category := determine_category f in
  (PathLib.is_absolute category = true
   <-> category = PathLib.parse (Py.title label) /\ Py.startswith label "/" = true)
  /\ (PathLib.is_absolute category = true -> root // category = category)
  /\ (PathLib.is_absolute category = false ->
      root // category = root ++ category
      /\ (exists top rest,
            category = top :: rest /\ top ∈ ["Media"; "Documents"; "Code"])
      /\ (".." ∉ category ->
          PathLib.resolve cwd (root // category)
          = PathLib.resolve cwd root ++ category))
  /\ (".." ∈ category -> ".." ∈ PathLib.parse (Py.title label))
  /\ (Py.startswith label "/" = false -> PathLib.is_absolute category = false).
Proof.
  intros label category.
  pose proof (determine_category_cases f) as Hcases.
  fold label in Hcases. unfold category. clear category.
  change (PathLib.parse "Documents") with ["Documents"] in Hcases.
  assert (PathLib.is_absolute (determine_category f) = true ->
          determine_category f = PathLib.parse (Py.title label)
          /\ Py.startswith label "/" = true)
    as Habs.
  { destruct Hcases as [Hfix|Hlast].
    - intros Ha. exfalso. revert Ha.
      repeat (apply elem_of_cons in Hfix as [E|Hfix]; [by rewrite E|]).
      by apply elem_of_nil in Hfix.
    - rewrite Hlast. unfold PathLib.joinpath.
      destruct (PathLib.is_absolute (PathLib.parse (Py.title label))) eqn:E.
      + intros _. split; [done|].
        by rewrite TextFacts.is_absolute_parse, TextFacts.startswith_title in E.
      + done. }
  split; [|split; [|split; [|split]]].
  - split; [exact Habs|]. intros [-> Hs].
    by rewrite TextFacts.is_absolute_parse, TextFacts.startswith_title.
  - intros Ha. unfold PathLib.joinpath. by rewrite Ha.
  - intros Ha.
    assert (root // determine_category f = root ++ determine_category f) as Hjoin
      by (unfold PathLib.joinpath; by rewrite Ha).
    split; [done|]. split.
    + destruct Hcases as [Hfix|Hlast].
      * repeat (apply elem_of_cons in Hfix as [E|Hfix];
                [rewrite E; eexists _, _;
                 split; [reflexivity | rewrite !elem_of_cons; auto]|]).
        by apply elem_of_nil in Hfix.
      * revert Ha. rewrite Hlast. unfold PathLib.joinpath.
        destruct (PathLib.is_absolute (PathLib.parse (Py.title label))) eqn:E.
        -- intros Ha. congruence.
        -- intros _. eexists _, _.
           split; [reflexivity | rewrite !elem_of_cons; auto].
    + intros Hdots. rewrite Hjoin. by apply TextFacts.resolve_app.
  - destruct Hcases as [Hfix|Hlast].
    + intros Hin. exfalso. revert Hin.
      repeat (apply elem_of_cons in Hfix as [E|Hfix];
              [rewrite E, !elem_of_cons;
               intros [?|[?|H]]; try discriminate; by apply elem_of_nil in H|]).
      by apply elem_of_nil in Hfix.
    + rewrite Hlast. unfold PathLib.joinpath.
      destruct (PathLib.is_absolute (PathLib.parse (Py.title label))); [done|].
      simpl. rewrite elem_of_cons. intros [?|?]; [discriminate | done].
  - intros Hs. destruct (PathLib.is_absolute (determine_category f)) eqn:E; [|done].
    destruct (Habs eq_refl) as [_ Hs']. congruence.
Qed.

(** X10, witness: the destination of a text file resolves to a directory
    below the root. *)
Lemma determine_category_anchor_witness :
  PathLib.resolve ["/"] (Samples.srv // determine_category Samples.notes_record)
  = PathLib.resolve ["/"] Samples.srv ++ determine_category Samples.notes_record.
Proof.
  pose proof (determine_category_anchor ["/"] Samples.srv Samples.notes_record) as H.
  cbv zeta in H. destruct H as (_ & _ & H & _).
  destruct (H eq_refl) as (_ & _ & Hres). apply Hres.
  change (determine_category Samples.notes_record) with ["Documents"; "Text"].
  rewrite !elem_of_cons. intros [?|[?|E]]; try discriminate. by apply elem_of_nil in E.
Defined.

(** A label that starts with a slash takes the file out of the root, and
    so does a label that climbs with [".."]. *)
Example determine_category_escapes :
  let f := fun label =>
             {| path := ["/"; "srv"; "in"; "notes"];
                mime_type := "application/octet-stream"; metadata := [];
                labels := [label]; confidence_score := 80;
                is_consistent := true; target_path := None; errors := [] |} in
  Samples.srv // determine_category (f "/etc/cron") = ["/"; "Etc"; "Cron"]
  /\ PathLib.resolve ["/"] (Samples.srv // determine_category (f "../../x"))
     = ["/"; "X"].
Proof. split; reflexivity. Qed.

(** X11. When [organize_files] returns, the records come back in the order
    given, one for one, each as it was except for [target_path], which is
    unchanged or set to a destination: the [path] of a moved record still
    names the place the file was taken from. *)
Theorem organize_files_records (self : Engine) (fs : FileSystem) (logger : Logger)
        (root : Path) (files : list FileObject)
        (summary : Summary) (fs' : FileSystem) (logger' : Logger)
        (files' : list FileObject) :
  organize_files self fs logger root files = Return (summary, fs', logger', files') ->
  Forall2
    (fun f f' =>
       path f' = path f /\ mime_type f' = mime_type f /\ metadata f' = metadata f
       /\ labels f' = labels f /\ confidence_score f' = confidence_score f
       /\ is_consistent f' = is_consistent f /\ errors f' = errors f
       /\ (target_path f' = target_path f \/ is_Some (target_path f')))
    files files'.
Proof.
  unfold organize_files.
  destruct (FS.mkdir fs _) as [fs1|e]; [|done].
  destruct (organize_loop self root _ _ [] files)
    as [[[[fs2 summary2] logger2] files2]|e] eqn:E; [|done].
  intros [= <- <- <- <-].
  apply OrganizationFacts.organize_loop_inv in E as (_ & _ & out & -> & Hout).
  simpl. eapply Forall2_impl; [exact Hout|].
  intros f f' [->|[d ->]]; simpl; repeat split; try done; [by left | right; by eexists].
Qed.

(** X11, witness: the record of the sample tree, whose move is refused. *)
Lemma organize_files_records_witness :
  exists summary fs' logger' files',
    organize_files Samples.engine Samples.locked_fs [] Samples.srv [Samples.notes_record]
    = Return (summary, fs', logger', files')
    /\ List.map path files' = [Samples.notes_path].
Proof.
  pose proof OrganizationClaims.sample_batch_logs_failure as H.
  destruct (organize_files Samples.engine Samples.locked_fs [] Samples.srv
                           [Samples.notes_record])
    as [[[[summary fs'] logger'] files']|] eqn:E; [|destruct H].
  exists summary, fs', logger', files'. split; [reflexivity|].
  pose proof (organize_files_records _ _ _ _ _ _ _ _ _ E) as Hall.
  apply Forall2_cons_inv_l in Hall as (f' & rest & (Hp & _) & Hrest & ->).
  apply Forall2_nil_inv_l in Hrest as ->. simpl. by rewrite Hp.
Defined.

(** *** What the moves leave alone *)

(** One iteration on a record whose file is there. *)
Lemma organize_one_frame self root staging_root fs summary logger f st' f' :
  nodes fs !! path f = Some File ->
  organize_one self root staging_root (fs, summary, logger) f = Return (st', f') ->
  let destination :=
    (if must_stage self f then staging_root else root // determine_category f)
    // PathLib.parse (PathLib.name (path f)) in
  denied (fst (fst st')) = denied fs
  /\ (forall q, nodes fs !! q = Some Dir -> nodes (fst (fst st')) !! q = Some Dir)
  /\ (forall q, nodes fs !! q = Some File -> q <> path f ->
                nodes (fst (fst st')) !! q = Some File)
  /\ (forall q, nodes (fst (fst st')) !! q = Some File ->
                nodes fs !! q = Some File
                \/ q = destination \/ q = destination ++ [PathLib.name (path f)]).
Proof.
  intros Hfile H destination.
  apply OrganizationFacts.organize_one_inv in H as (fs1 & Hmk & _ & Hcase).
  destruct (OrganizationFacts.route_spec self root staging_root summary logger f)
    as [Hroute _].
  rewrite Hroute in Hmk, Hcase. fold destination in Hcase. simpl in Hcase.
  apply OrganizationFacts.mkdir_from_frame in Hmk as (Hd & Hkeep & Hnew).
  pose proof (OrganizationFacts.shutil_move_file_nodes fs1 (path f) destination
                (Hkeep _ _ Hfile)) as (Hd' & Hret & Hraise).
  set (real_dst := if FS.is_dir fs1 destination then _ else _) in Hret, Hraise.
  assert (real_dst = destination \/ real_dst = destination ++ [PathLib.name (path f)])
    as Hreal.
  { subst real_dst. destruct (FS.is_dir fs1 destination); [by right | by left]. }
  assert (forall fs2,
            denied fs2 = denied fs1 ->
            nodes fs1 !! real_dst <> Some Dir ->
            (forall q, q <> real_dst -> q <> path f -> nodes fs2 !! q = nodes fs1 !! q) ->
            nodes fs2 !! real_dst = Some File ->
            (nodes fs2 !! path f = None \/ nodes fs2 !! path f = Some File) ->
            denied fs2 = denied fs
            /\ (forall q, nodes fs !! q = Some Dir -> nodes fs2 !! q = Some Dir)
            /\ (forall q, nodes fs !! q = Some File -> q <> path f ->
                          nodes fs2 !! q = Some File)
            /\ (forall q, nodes fs2 !! q = Some File ->
                          nodes fs !! q = Some File
                          \/ q = destination
                          \/ q = destination ++ [PathLib.name (path f)])) as Hwritten.
  { intros fs2 Hden Hnodir Hsame Hdst Hsrc. split; [congruence|]. split; [|split].
    - intros q Hq. apply Hkeep in Hq. rewrite Hsame; [done | congruence |].
      apply Hkeep in Hfile. congruence.
    - intros q Hq Hneq. destruct (decide (q = real_dst)) as [->|Hneq']; [done|].
      rewrite Hsame by done. by apply Hkeep.
    - intros q Hq. destruct (decide (q = real_dst)) as [->|Hneq']; [by right|].
      left. apply Hnew. destruct (decide (q = path f)) as [->|Hneq''].
      + by apply Hkeep.
      + by rewrite <- Hsame. }
  destruct Hcase as [(_ & -> & ->)|[(Hne & Hmv & ->)|(_ & [exc Hmv] & ->)]].
  - repeat split; [done | by auto | by auto |]. intros q Hq. left. by apply Hnew.
  - rewrite Hmv in Hd', Hret. simpl in Hd', Hret.
    destruct (Hret eq_refl) as [Hnodes Hnodir].
    apply Hwritten; [done | done | | |].
    + intros q Hq1 Hq2. by rewrite Hnodes, lookup_insert_ne, lookup_delete_ne.
    + rewrite Hnodes. apply lookup_insert_eq.
    + rewrite Hnodes. destruct (decide (real_dst = path f)) as [->|Hneq].
      * right. apply lookup_insert_eq.
      * left. rewrite lookup_insert_ne by done. apply lookup_delete_eq.
  - rewrite Hmv in Hd', Hraise. simpl in Hd', Hraise.
    destruct (Hraise (ex_intro _ exc eq_refl)) as [Hnodes|[Hnodes Hnodir]].
    + split; [congruence|]. rewrite Hnodes. split; [by auto|]. split; [by auto|].
      intros q Hq. left. by apply Hnew.
    + apply Hwritten; [done | done | | |].
      * intros q Hq1 Hq2. by rewrite Hnodes, lookup_insert_ne.
      * rewrite Hnodes. apply lookup_insert_eq.
      * right. rewrite Hnodes. destruct (decide (real_dst = path f)) as [->|Hneq].
        -- apply lookup_insert_eq.
        -- rewrite lookup_insert_ne by done. by apply Hkeep.
Qed.

Lemma organize_loop_frame self root staging_root files :
  forall fs summary logger visited st' files',
    NoDup (List.map path files) ->
    (forall f, f ∈ files -> nodes fs !! path f = Some File) ->
    organize_loop self root staging_root (fs, summary, logger) visited files
    = Return (st', files') ->
    let destination := fun f =>
      (if must_stage self f then staging_root else root // determine_category f)
      // PathLib.parse (PathLib.name (path f)) in
    denied (fst (fst st')) = denied fs
    /\ (forall q, nodes fs !! q = Some Dir -> nodes (fst (fst st')) !! q = Some Dir)
    /\ (forall q, nodes fs !! q = Some File -> q ∉ List.map path files ->
                  nodes (fst (fst st')) !! q = Some File)
    /\ (forall q, nodes (fst (fst st')) !! q = Some File ->
                  nodes fs !! q = Some File
                  \/ exists f, f ∈ files
                               /\ (q = destination f
                                   \/ q = destination f ++ [PathLib.name (path f)])).
Proof.
  induction files as [|f files IH];
    intros fs summary logger visited st' files' Hnd Hall.
  - intros [= <- <-]. simpl. repeat split; try done. intros q Hq. by left.
  - cbn [organize_loop].
    destruct (organize_one self root staging_root (fs, summary, logger) f)
      as [[[[fs1 summary1] logger1] f1]|e] eqn:E; [|done].
    intros H.
    apply organize_one_frame in E as (Hd1 & Hdir1 & Hfile1 & Hnew1);
      [|apply Hall; left].
    simpl in Hd1, Hdir1, Hfile1, Hnew1.
    cbn [List.map] in Hnd. apply NoDup_cons in Hnd as [Hnotin Hnd].
    apply IH in H as (Hd & Hdir & Hfile & Hnew); [|done|].
    2:{ intros g Hg. apply Hfile1; [apply Hall; by right|].
        intros Heq. apply Hnotin. rewrite <- Heq. apply list_elem_of_fmap.
        by exists g. }
    split; [congruence|]. split; [by auto|]. split.
    + intros q Hq Hout'. cbn [List.map] in Hout'.
      apply not_elem_of_cons in Hout' as [? ?].
      apply Hfile; [by apply Hfile1 | done].
    + intros q Hq. destruct (Hnew q Hq) as [Hq1|(g & Hg & Hqg)].
      * destruct (Hnew1 q Hq1) as [?|Hqd]; [by left|].
        right. exists f. split; [left | exact Hqd].
      * right. exists g. split; [by right | exact Hqg].
Qed.

(** X12. When the records name distinct paths that are regular files,
    [organize_files] leaves the access rights as they are and every
    directory in place; at every path that held a regular file and is not
    the path of a record there is still a regular file; and a regular file
    found afterwards was there before or sits at (or, when that is a
    directory, in) the destination of a record, whether or not the move
    of that record returned: a move that raises can leave its copy. The
    file system of the model keeps no contents, so that a file at the
    destination of a record may be the one that was moved onto it. *)
Theorem organize_files_frame (self : Engine) (fs : FileSystem) (logger : Logger)
        (root : Path) (files : list FileObject)
        (summary : Summary) (fs' : FileSystem) (logger' : Logger)
        (files' : list FileObject) :
  NoDup (List.map path files) ->
  (forall f, f ∈ files -> nodes fs !! path f = Some File) ->
  organize_files self fs logger root files = Return (summary, fs', logger', files') ->
  let destination := fun f =>
    (if must_stage self f then root // PathLib.parse (staging_dir_name self)
     else root // determine_category f)
    // PathLib.parse (PathLib.name (path f)) in
  denied fs' = denied fs
  /\ (forall q, nodes fs !! q = Some Dir -> nodes fs' !! q = Some Dir)
  /\ (forall q, nodes fs !! q = Some File -> q ∉ List.map path files ->
                nodes fs' !! q = Some File)
  /\ (forall q, nodes fs' !! q = Some File ->
                nodes fs !! q = Some File
                \/ exists f, f ∈ files
                             /\ (q = destination f
                                 \/ q = destination f ++ [PathLib.name (path f)])).
Proof.
  intros Hnd Hall. unfold organize_files.
  destruct (FS.mkdir fs _) as [fs1|e] eqn:Hmk; [|done].
  destruct (organize_loop self root _ _ [] files)
    as [[[[fs2 summary2] logger2] files2]|e] eqn:E; [|done].
  intros [= <- <- <- <-]. cbv zeta.
  apply OrganizationFacts.mkdir_from_frame in Hmk as (Hd1 & Hkeep & Hnew1).
  apply organize_loop_frame in E as (Hd & Hdir & Hfile & Hnew); [|done|].
  2:{ intros f Hf. by apply Hkeep, Hall. }
  simpl in *. split; [congruence|]. split; [by auto|]. split; [by auto|].
  intros q Hq. destruct (Hnew q Hq) as [?|?]; [left; by apply Hnew1 | by right].
Qed.

Lemma sample_batch_leaves_copy :
  match organize_files Samples.engine Samples.locked_fs [] Samples.srv
          [Samples.notes_record] with
  | Return (_, fs', _, files') =>
      nodes fs' !! ["/"; "srv"; "Documents"; "Text"; "notes.txt"] = Some File
      /\ nodes fs' !! Samples.notes_path = Some File
      /\ List.map target_path files' = [None]
  | Raise _ => False
  end.
Proof. vm_compute. repeat split. Qed.

(** X12, witness: on the locked tree the move raises and leaves its copy
    at [/srv/Documents/Text/notes.txt], the destination of the record;
    the access rights and the directory [/srv/in] are as before. *)
Lemma organize_files_frame_witness :
  exists summary fs' logger' files',
    organize_files Samples.engine Samples.locked_fs [] Samples.srv [Samples.notes_record]
    = Return (summary, fs', logger', files')
    /\ List.map target_path files' = [None]
    /\ nodes fs' !! ["/"; "srv"; "Documents"; "Text"; "notes.txt"] = Some File
    /\ denied fs' = denied Samples.locked_fs
    /\ nodes fs' !! ["/"; "srv"; "in"] = Some Dir.
Proof.
  pose proof sample_batch_leaves_copy as H.
  destruct (organize_files Samples.engine Samples.locked_fs [] Samples.srv
                           [Samples.notes_record])
    as [[[[summary fs'] logger'] files']|] eqn:E; [|destruct H].
  destruct H as (Hcopy & _ & Hnone).
  exists summary, fs', logger', files'. split; [reflexivity|].
  split; [exact Hnone|]. split; [exact Hcopy|].
  destruct (organize_files_frame Samples.engine Samples.locked_fs [] Samples.srv
              [Samples.notes_record] summary fs' logger' files') as (Hd & Hdir & _).
  - repeat constructor. apply not_elem_of_nil.
  - intros f Hf. apply list_elem_of_singleton in Hf as ->. reflexivity.
  - exact E.
  - split; [exact Hd|]. apply Hdir. reflexivity.
Defined.

End OrganizationProps.

(** ** The clean-up engine: what a pass removes and what it keeps *)

Module CleanupProps.
Import CleanupEngine CleanupFacts.

(** The three ways a visit of an existing directory ends: the directory
    is protected and the refusal is logged; it has an entry and nothing
    happens; or it is empty and removed. *)
Lemma visit_outcome fs n logger d :
  nodes fs !! d = Some Dir ->
  (d ∈ denied fs /\ exists logger', visit (fs, n, logger) d = Return (fs, n, logger'))
  \/ ((d ∉ denied fs) /\ (exists x, is_Some (nodes fs !! (d ++ [x])))
      /\ visit (fs, n, logger) d = Return (fs, n, logger))
  \/ ((d ∉ denied fs) /\ FS.empty_dir fs d
      /\ visit (fs, n, logger) d
         = Return (FS.with_nodes fs (delete d (nodes fs)), (n + 1)%Z,
                   logger ++ [INFO_removed_empty_dir d])).
Proof.
  intros Hd. destruct (decide (d ∈ denied fs)) as [Hden|Hden].
  { left. split; [done|]. unfold visit, FS.iterdir.
    rewrite (bool_decide_eq_true_2 _ Hden). simpl. by eexists. }
  right. destruct (List.filter (FS.child d) (FS.listing fs)) as [|c cs] eqn:E.
  - right. split; [done|]. apply empty_dir_listing in E. split; [done|].
    by apply visit_empty.
  - left. split; [done|]. split.
    + assert (c ∈ List.filter (FS.child d) (FS.listing fs)) as Hc by (rewrite E; left).
      apply elem_of_List_filter in Hc as [Hc Hchild].
      apply child_inv in Hchild as [x ->]. exists x. by apply elem_of_listing.
    + unfold visit, FS.iterdir, FS.rmdir, FS.is_dir.
      rewrite (bool_decide_eq_false_2 _ Hden), (bool_decide_eq_true_2 _ Hd), E.
      reflexivity.
Qed.

Lemma empty_dir_entry fs d x : FS.empty_dir fs d -> nodes fs !! (d ++ [x]) = None.
Proof.
  intros He. destruct (nodes fs !! (d ++ [x])) as [k|] eqn:E; [|done].
  assert (FS.child d (d ++ [x]) = false) as Hc by (apply He; by exists k).
  by rewrite child_snoc in Hc.
Qed.

Lemma snoc_ne {A : Type} (d : list A) (x : A) : d ++ [x] <> d.
Proof.
  intros E. apply (f_equal length) in E. rewrite length_app in E. simpl in E. lia.
Qed.

(** What a sweep removes: directories of the list that are not protected
    and that have no entry left at the end. *)
Lemma sweep_removed ds :
  forall fs n logger fs' n' logger',
    NoDup ds -> Forall (fun d => nodes fs !! d = Some Dir) ds ->
    sweep (fs, n, logger) ds = Return (fs', n', logger') ->
    forall p,
      nodes fs' !! p = nodes fs !! p
      \/ (nodes fs' !! p = None /\ p ∈ ds /\ (p ∉ denied fs)
          /\ forall x, nodes fs' !! (p ++ [x]) = None).
Proof.
  induction ds as [|d ds IH]; intros fs n logger fs' n' logger' Hnd Hdirs.
  { intros [= <- _ _] p. by left. }
  apply NoDup_cons in Hnd as [Hd Hnd]. apply Forall_cons in Hdirs as [Hdir Hdirs].
  cbn [sweep].
  destruct (visit_outcome fs n logger d Hdir)
    as [(_ & logger1 & ->)|[(_ & _ & ->)|(Hden & Hempty & ->)]].
  - intros H p. destruct (IH _ _ _ _ _ _ Hnd Hdirs H p) as [?|(? & ? & ? & ?)];
      [by left | right; repeat split; try done; by right].
  - intros H p. destruct (IH _ _ _ _ _ _ Hnd Hdirs H p) as [?|(? & ? & ? & ?)];
      [by left | right; repeat split; try done; by right].
  - intros H.
    assert (Forall (fun d' => nodes (FS.with_nodes fs (delete d (nodes fs))) !! d'
                              = Some Dir) ds) as Hdirs1.
    { rewrite Forall_forall in Hdirs |- *. intros d' Hd'. simpl.
      rewrite lookup_delete_ne; [by apply Hdirs|]. intros ->. done. }
    pose proof (IH _ _ _ _ _ _ Hnd Hdirs1 H) as Hrest. simpl in Hrest.
    intros p. destruct (decide (p = d)) as [->|Hne].
    + right.
      assert (nodes fs' !! d = None) as Hgone.
      { destruct (Hrest d) as [E|[E _]]; [|done]. by rewrite E, lookup_delete_eq. }
      split; [done|]. split; [left|]. split; [done|].
      intros x. destruct (Hrest (d ++ [x])) as [E|[E _]]; [|done].
      rewrite E, lookup_delete_ne by (symmetry; apply snoc_ne).
      by apply empty_dir_entry.
    + destruct (Hrest p) as [E|(? & ? & ? & ?)].
      * left. by rewrite E, lookup_delete_ne.
      * right. repeat split; try done. by right.
Qed.

(** X13. In a tree of regular files and directories, a clean-up pass that
    returns has changed nothing but the set of nodes: a node is as before,
    or it was a directory strictly below the root, not protected, which
    is gone and of which no entry is left. So no regular file is removed,
    the root stays, and nothing is left without its directory. The count
    returned is the number of nodes removed. *)
Theorem remove_empty_directories_safe (fs : FileSystem) (logger : Logger)
        (root : Path) (removed : Z) (fs' : FileSystem) (logger' : Logger) :
  remove_empty_directories fs logger root = Return (removed, fs', logger') ->
  denied fs' = denied fs
  /\ (0 <= removed)%Z
  /\ (removed + Z.of_nat (size (nodes fs')) = Z.of_nat (size (nodes fs)))%Z
  /\ (forall p,
        nodes fs' !! p = nodes fs !! p
        \/ (nodes fs' !! p = None /\ nodes fs !! p = Some Dir
            /\ root `prefix_of` p /\ p <> root /\ (p ∉ denied fs)
            /\ forall x, nodes fs' !! (p ++ [x]) = None))
  /\ (forall p, nodes fs !! p = Some File -> nodes fs' !! p = Some File)
  /\ nodes fs' !! root = nodes fs !! root.
Proof.
  unfold remove_empty_directories.
  assert (Forall (fun d => nodes fs !! d = Some Dir) (directories_of fs root)) as Hdirs.
  { apply Forall_forall. intros d Hd. by apply directories_of_elem in Hd as [? _]. }
  destruct (sweep_dirs (directories_of fs root) fs 0%Z logger
              (directories_of_NoDup fs root) Hdirs)
    as (fs1 & n1 & logger1 & Hs & [Hden _] & _ & Hcount & Hmono).
  pose proof (sweep_removed _ _ _ _ _ _ _ (directories_of_NoDup fs root) Hdirs Hs)
    as Hrem.
  rewrite Hs. intros [= -> -> ->]. split; [done|].
  split; [done|]. split; [lia|].
  assert (forall p,
            nodes fs' !! p = nodes fs !! p
            \/ (nodes fs' !! p = None /\ nodes fs !! p = Some Dir
                /\ root `prefix_of` p /\ p <> root /\ (p ∉ denied fs)
                /\ forall x, nodes fs' !! (p ++ [x]) = None)) as Hall.
  { intros p. destruct (Hrem p) as [?|(Hnone & Hin & Hnd & Hch)]; [by left|].
    right. apply directories_of_elem in Hin as (? & ? & ? & _). done. }
  split; [exact Hall|]. split.
  - intros p Hp. destruct (Hall p) as [E|(_ & E & _)]; congruence.
  - destruct (Hall root) as [E|(_ & _ & _ & E & _)]; done.
Qed.

Lemma sample_passes_return :
  match remove_empty_directories Samples.cleanup_fs [] Samples.tmp with
  | Return (_, fs', _) =>
      match remove_empty_directories fs' [] Samples.tmp with
      | Return _ => True
      | Raise _ => False
      end
  | Raise _ => False
  end.
Proof. vm_compute. exact I. Qed.

(** X13, witness: the tree of the clean-up test keeps its file. *)
Lemma remove_empty_directories_safe_witness :
  exists removed fs' logger',
    remove_empty_directories Samples.cleanup_fs [] Samples.tmp
    = Return (removed, fs', logger')
    /\ nodes fs' !! ["/"; "tmp"; "non_empty"; "file.txt"] = Some File
    /\ (0 <= removed)%Z.
Proof.
  pose proof sample_passes_return as Hok.
  destruct (remove_empty_directories Samples.cleanup_fs [] Samples.tmp)
    as [[[removed fs'] logger']|] eqn:E; [|destruct Hok].
  destruct (remove_empty_directories_safe Samples.cleanup_fs [] Samples.tmp
              removed fs' logger' E)
    as (_ & Hpos & _ & _ & Hfiles & _).
  exists removed, fs', logger'. split; [reflexivity|]. split; [|exact Hpos].
  apply Hfiles. reflexivity.
Defined.

(** *** A second pass *)

(** After a sweep by descending depth, every directory of the list that is
    still there and not protected has an entry. *)
Lemma sweep_settled l2 :
  forall l1 fs1 n1 logger1 fs' n' logger',
    StronglySorted (fun a b => (PathLib.depth b <= PathLib.depth a)%Z) (l1 ++ l2) ->
    NoDup (l1 ++ l2) ->
    Forall (fun d => nodes fs1 !! d = Some Dir) l2 ->
    (forall d, d ∈ l1 -> nodes fs1 !! d = Some Dir -> d ∉ denied fs1 ->
               exists x, is_Some (nodes fs1 !! (d ++ [x])) /\ d ++ [x] ∉ l2) ->
    sweep (fs1, n1, logger1) l2 = Return (fs', n', logger') ->
    forall d, d ∈ l1 ++ l2 -> nodes fs' !! d = Some Dir -> d ∉ denied fs' ->
              exists x, is_Some (nodes fs' !! (d ++ [x])).
Proof.
  induction l2 as [|d0 l2 IH]; intros l1 fs1 n1 logger1 fs' n' logger' Hsort Hnd Hdirs HJ.
  { intros [= <- _ _] d Hd Hdir Hden. rewrite app_nil_r in Hd.
    destruct (HJ d Hd Hdir Hden) as (x & Hx & _). by exists x. }
  apply Forall_cons in Hdirs as [Hdir0 Hdirs].
  assert (d0 ∉ l2) as Hd0.
  { apply NoDup_app in Hnd as (_ & _ & Hnd2). by apply NoDup_cons in Hnd2 as [? _]. }
  assert (forall x, d0 ++ [x] ∉ l2) as Hdeeper.
  { intros x Hin. apply StronglySorted_app_1_r in Hsort.
    apply StronglySorted_inv in Hsort as [_ Hall].
    rewrite Forall_forall in Hall. specialize (Hall _ Hin).
    unfold PathLib.depth in Hall. rewrite length_app in Hall. simpl in Hall. lia. }
  cbn [sweep]. rewrite (cons_middle d0 l1 l2), (assoc_L (++)) in Hsort, Hnd |- *.
  destruct (visit_outcome fs1 n1 logger1 d0 Hdir0)
    as [(Hden0 & logger2 & ->)|[(_ & (x0 & Hx0) & ->)|(Hden0 & Hempty & ->)]].
  - apply (IH (l1 ++ [d0])); try done.
    intros d Hd Hdir Hden. apply elem_of_app in Hd as [Hd|Hd].
    + destruct (HJ d Hd Hdir Hden) as (x & Hx & Hout). exists x. split; [done|].
      by apply not_elem_of_cons in Hout as [_ ?].
    + apply list_elem_of_singleton in Hd as ->. done.
  - apply (IH (l1 ++ [d0])); try done.
    intros d Hd Hdir Hden. apply elem_of_app in Hd as [Hd|Hd].
    + destruct (HJ d Hd Hdir Hden) as (x & Hx & Hout). exists x. split; [done|].
      by apply not_elem_of_cons in Hout as [_ ?].
    + apply list_elem_of_singleton in Hd as ->. by exists x0.
  - apply (IH (l1 ++ [d0])); try done.
    + rewrite Forall_forall in Hdirs |- *. intros d' Hd'. simpl.
      rewrite lookup_delete_ne; [by apply Hdirs|]. intros ->. done.
    + simpl. intros d Hd Hdir Hden. apply elem_of_app in Hd as [Hd|Hd].
      * assert (d <> d0) as Hne by (intros ->; by rewrite lookup_delete_eq in Hdir).
        rewrite lookup_delete_ne in Hdir by done.
        destruct (HJ d Hd Hdir Hden) as (x & Hx & Hout).
        apply not_elem_of_cons in Hout as [Hne0 Hout].
        exists x. split; [|done]. by rewrite lookup_delete_ne.
      * apply list_elem_of_singleton in Hd as ->. by rewrite lookup_delete_eq in Hdir.
Qed.

(** A sweep over directories that are protected or not empty changes
    neither the file system nor the count. *)
Lemma sweep_kept ds :
  forall fs n logger,
    Forall (fun d => nodes fs !! d = Some Dir
                     /\ (d ∈ denied fs \/ exists x, is_Some (nodes fs !! (d ++ [x])))) ds ->
    exists logger', sweep (fs, n, logger) ds = Return (fs, n, logger').
Proof.
  induction ds as [|d ds IH]; intros fs n logger Hall; [by eexists|].
  apply Forall_cons in Hall as [[Hdir Hkeep] Hall]. cbn [sweep].
  destruct (visit_outcome fs n logger d Hdir)
    as [(_ & logger1 & ->)|[(_ & _ & ->)|(Hden & Hempty & _)]]; [by apply IH..|].
  exfalso. destruct Hkeep as [?|[x [k Hx]]]; [done|].
  by rewrite (empty_dir_entry fs d x Hempty) in Hx.
Qed.

(** X14. In a tree of regular files and directories, a second clean-up
    pass that returns, run on what a first pass that returned has left,
    removes nothing: its count is 0 and the file system is the same,
    whatever the access rights. One pass removes every directory that it
    can ever remove. *)
Theorem remove_empty_directories_twice (fs : FileSystem) (logger : Logger)
        (root : Path) (removed : Z) (fs' : FileSystem) (logger' : Logger)
        (logger1 : Logger) (removed2 : Z) (fs'' : FileSystem) (logger'' : Logger) :
  remove_empty_directories fs logger root = Return (removed, fs', logger') ->
  remove_empty_directories fs' logger1 root = Return (removed2, fs'', logger'') ->
  removed2 = 0%Z /\ fs'' = fs'.
Proof.
  unfold remove_empty_directories.
  assert (Forall (fun d => nodes fs !! d = Some Dir) (directories_of fs root)) as Hdirs.
  { apply Forall_forall. intros d Hd. by apply directories_of_elem in Hd as [? _]. }
  destruct (sweep_dirs (directories_of fs root) fs 0%Z logger
              (directories_of_NoDup fs root) Hdirs)
    as (fs1 & n1 & logger0 & Hs & [Hden Hshr] & _).
  rewrite Hs. intros [= -> -> ->].
  pose proof (sweep_settled (directories_of fs root) [] fs 0%Z logger fs' removed logger'
                (directories_of_sorted fs root) (directories_of_NoDup fs root) Hdirs)
    as Hsettled.
  destruct (sweep_kept (directories_of fs' root) fs' 0%Z logger1) as [logger2 ->];
    [|by intros [= <- <- _]].
  apply Forall_forall. intros d Hd.
  pose proof Hd as Hd'. apply directories_of_elem in Hd' as (Hdir & Hpre & Hne & Hanc).
  split; [done|].
  destruct (decide (d ∈ denied fs')) as [?|Hnd]; [by left|]. right.
  apply Hsettled; try done.
  - intros d1 Hd1. by apply elem_of_nil in Hd1.
  - simpl. apply directories_of_elem. split; [|split; [done|split; [done|]]].
    + rewrite <- Hdir. symmetry. destruct (Hshr d) as [E|E]; [congruence | done].
    + eapply Forall_impl; [exact Hanc|]. intros q [Hq Hqd]. split; [|by rewrite <- Hden].
      destruct (Hshr q) as [E|E]; congruence.
Qed.

(** X14, witness: the tree of the clean-up test, swept twice. *)
Lemma remove_empty_directories_twice_witness :
  exists removed fs' logger' logger'',
    remove_empty_directories Samples.cleanup_fs [] Samples.tmp
    = Return (removed, fs', logger')
    /\ remove_empty_directories fs' [] Samples.tmp = Return (0%Z, fs', logger'').
Proof.
  pose proof sample_passes_return as Hok.
  destruct (remove_empty_directories Samples.cleanup_fs [] Samples.tmp)
    as [[[removed fs'] logger']|] eqn:E; [|destruct Hok].
  destruct (remove_empty_directories fs' [] Samples.tmp)
    as [[[removed2 fs''] logger'']|] eqn:E2; [|destruct Hok].
  destruct (remove_empty_directories_twice Samples.cleanup_fs [] Samples.tmp
              removed fs' logger' [] removed2 fs'' logger'' E E2) as [H0 Hfs].
  exists removed, fs', logger', logger''.
  split; [reflexivity|]. rewrite <- H0. rewrite <- Hfs at 2. exact E2.
Defined.

End CleanupProps.

(** ** The scanner: which files a scan returns *)

Module ScannerProps.
Import FileScanner CleanupFacts.

(** [p.parents] are the proper prefixes of [p], without the empty path
    when [p] is anchored. *)
Lemma elem_of_parents (p e : Path) :
  e ∈ parents p
  <-> e `prefix_of` p /\ e <> p /\ (PathLib.is_absolute p = true -> e <> []).
Proof.
  unfold parents. rewrite list_elem_of_In, <- in_rev, <- list_elem_of_In.
  change (List.map ?f ?l) with (f <$> l). rewrite list_elem_of_fmap.
  set (lowest := if PathLib.is_absolute p then 1 else 0).
  split.
  - intros (n & -> & Hn). apply elem_of_seq in Hn.
    split; [apply prefix_take|]. split.
    + intros E. apply (f_equal length) in E. rewrite length_take in E. lia.
    + intros Ha E. subst lowest. rewrite Ha in Hn.
      apply (f_equal length) in E. rewrite length_take in E. simpl in E. lia.
  - intros (Hpre & Hne & Hanchor). exists (length e). split.
    + destruct Hpre as [r ->]. by rewrite take_app_length.
    + apply elem_of_seq.
      assert (length e < length p).
      { pose proof (prefix_length _ _ Hpre).
        destruct (decide (length p <= length e)) as [Hle|]; [|lia].
        by pose proof (prefix_length_eq _ _ Hpre Hle). }
      assert (lowest <= length e); [|lia].
      subst lowest. destruct (PathLib.is_absolute p); [|lia].
      destruct e; [by specialize (Hanchor eq_refl) | simpl; lia].
Qed.

Lemma elem_of_rglob fs root p :
  p ∈ FS.rglob fs root
  <-> is_Some (nodes fs !! p) /\ root `prefix_of` p /\ p <> root
      /\ Forall (fun q => nodes fs !! q = Some Dir /\ q ∉ denied fs)
                (FS.ancestors_from root p).
Proof.
  unfold FS.rglob.
  rewrite elem_of_List_filter, elem_of_listing, andb_true_iff, below_iff,
    forallb_forall, Forall_forall.
  assert ((forall q, In q (FS.ancestors_from root p) -> FS.readable_dir fs q = true)
          <-> (forall q, q ∈ FS.ancestors_from root p ->
                         nodes fs !! q = Some Dir /\ q ∉ denied fs)) as ->.
  { split; intros H q Hq; apply readable_dir_iff, H; by apply list_elem_of_In. }
  tauto.
Qed.

Lemma NoDup_scan fs root exclude_dirs : NoDup (scan fs root exclude_dirs).
Proof. unfold scan, FS.rglob. do 2 apply NoDup_List_filter. apply NoDup_listing. Qed.

(** The test on [path.parents]: no ancestor of the path resolves to what
    an excluded directory resolves to. *)
Lemma excluded_parents fs (exclude_dirs : list Path) (p : Path) :
  existsb (fun parent => bool_decide (resolve fs parent
                                      ∈ List.map (resolve fs) exclude_dirs))
          (parents p) = false
  <-> forall a e, a `prefix_of` p -> a <> p ->
                  (PathLib.is_absolute p = true -> a <> []) ->
                  e ∈ exclude_dirs ->
                  PathLib.resolve (cwd fs) a <> PathLib.resolve (cwd fs) e.
Proof.
  rewrite <- not_true_iff_false, existsb_exists. unfold resolve. split.
  - intros Hno a e Hpre Hne Hanchor He Heq. apply Hno. exists a. split.
    + by apply list_elem_of_In, elem_of_parents.
    + apply bool_decide_eq_true. rewrite Heq.
      change (List.map ?f ?l) with (f <$> l). apply list_elem_of_fmap. by exists e.
  - intros Hall (a & Ha & Hin). apply list_elem_of_In, elem_of_parents in Ha.
    apply bool_decide_eq_true in Hin.
    change (List.map ?f ?l) with (f <$> l) in Hin.
    apply list_elem_of_fmap in Hin as (e & Heq & He).
    destruct Ha as (Hpre & Hne & Hanchor). by apply (Hall a e).
Qed.


(** What holds of a scanned path. *)
Lemma scan_facts fs root exclude_dirs p :
  p ∈ scan fs root exclude_dirs ->
  nodes fs !! p = Some File
  /\ root `prefix_of` p
  /\ (forall a e, a `prefix_of` p -> a <> p ->
                  (PathLib.is_absolute p = true -> a <> []) ->
                  e ∈ exclude_dirs ->
                  PathLib.resolve (cwd fs) a <> PathLib.resolve (cwd fs) e)
  /\ ~ (Py.startswith (PathLib.name p) "cleanup_report_" = true
        /\ PathLib.suffix p = ".log")
  /\ PathLib.name p <> ".file_organizer_learning.json".
Proof.
  unfold scan.
  rewrite elem_of_List_filter, elem_of_rglob, !andb_true_iff, !negb_true_iff.
  intros (([k Hk] & Hpre & _ & _) & ((Hnd & Hex) & Hrep) & Hls).
  split.
  { unfold FS.is_dir in Hnd. apply bool_decide_eq_false in Hnd. by destruct k. }
  split; [done|]. split; [by apply excluded_parents|]. split.
  - unfold is_report in Hrep. intros [H1 H2]. apply String.eqb_eq in H2.
    by rewrite H1, H2 in Hrep.
  - unfold is_learning_state in Hls. by apply String.eqb_neq.
Qed.



(** *** The files the pipeline writes *)

Lemma length_append (a b : string) :
  String.length (a +:+ b) = String.length a + String.length b.
Proof. induction a as [|c a IH]; simpl; [done | by rewrite IH]. Qed.

Lemma slice_from_append (a b : string) : Py.slice_from (String.length a) (a +:+ b) = b.
Proof. induction a as [|c a IH]; simpl; [by destruct b | done]. Qed.

Lemma rfind_from_log (a : string) (i : nat) :
  Py.rfind_from "."%char (a +:+ ".log") i = Some (i + String.length a).
Proof.
  revert i. induction a as [|c a IH]; intros i; simpl.
  - f_equal. lia.
  - rewrite IH. f_equal. lia.
Qed.

Lemma suffix_log (d : Path) (a : string) :
  a <> "" -> PathLib.suffix (d ++ [a +:+ ".log"]) = ".log".
Proof.
  intros Ha. unfold PathLib.suffix. rewrite TextFacts.name_snoc.
  2:{ intros E. apply (f_equal String.length) in E. rewrite length_append in E.
      simpl in E. lia. }
  unfold Py.rfind. rewrite rfind_from_log. simpl. unfold Py.len.
  rewrite length_append. simpl.
  assert (0 < String.length a)%nat by (destruct a; [done | simpl; lia]).
  assert ((0 <? String.length a)%nat = true) as -> by (apply Nat.ltb_lt; lia).
  assert ((String.length a <? String.length a + 4 - 1)%nat = true) as ->
    by (apply Nat.ltb_lt; lia).
  simpl. apply slice_from_append.
Qed.

Lemma prefix_append (a b : string) : Py.startswith (a +:+ b) a = true.
Proof.
  unfold Py.startswith. induction a as [|c a IH]; simpl; [by destruct b|].
  by destruct (ascii_dec c c).
Qed.

Lemma all_chars_append test (a b : string) :
  Shape.all_chars test (a +:+ b) = Shape.all_chars test a && Shape.all_chars test b.
Proof. induction a as [|c a IH]; simpl; [done|]. by rewrite IH, andb_assoc. Qed.

(** The path of the report, in the directory [log_dir]. *)
Lemma report_path (log_dir : Path) (timestamp : string) :
  Shape.no_slash timestamp = true ->
  log_dir // PathLib.parse (LoggerSetup.report_name timestamp)
  = log_dir ++ [LoggerSetup.report_name timestamp].
Proof.
  intros Hts. rewrite TextFacts.parse_name.
  - unfold PathLib.joinpath. by simpl.
  - unfold LoggerSetup.report_name, Shape.no_slash.
    rewrite !all_chars_append. fold (Shape.no_slash timestamp). by rewrite Hts.
  - done.
  - done.
Qed.

(** X16. The files the pipeline writes are never scanned: the report that
    [setup_logger] creates, whatever the directory and the time stamp
    (a time stamp has no slash), and the learning state at its default
    place below any root. *)
Theorem scan_skips_pipeline_files (timestamp : string)
        (fs0 : FileSystem) (log_dir : Path) (fs1 : FileSystem) (log_file : Path) :
  Shape.no_slash timestamp = true ->
  LoggerSetup.setup_logger fs0 log_dir timestamp = Return (fs1, log_file) ->
  forall fs root exclude_dirs,
    (log_file ∉ scan fs root exclude_dirs)
    /\ forall r : Path,
        r // PathLib.parse Pipeline.LEARNING_STATE_FILENAME ∉ scan fs root exclude_dirs.
Proof.
  intros Hts Hsetup fs root exclude_dirs. split.
  - assert (log_file = log_dir ++ [LoggerSetup.report_name timestamp]) as ->.
    { revert Hsetup. unfold LoggerSetup.setup_logger.
      destruct (FS.mkdir fs0 log_dir) as [fs2|]; [|done].
      destruct (LoggerSetup.open_for_writing fs2 _) as [fs3|]; [|done].
      intros [= _ <-]. by apply report_path. }
    intros Hin. apply scan_facts in Hin as (_ & _ & _ & Hrep & _).
    apply Hrep. split.
    + rewrite TextFacts.name_snoc; [apply prefix_append | done].
    + change (LoggerSetup.report_name timestamp)
        with (("cleanup_report_" +:+ timestamp) +:+ ".log").
      by apply suffix_log.
  - intros r Hin. apply scan_facts in Hin as (_ & _ & _ & _ & Hname).
    apply Hname.
    change (PathLib.parse Pipeline.LEARNING_STATE_FILENAME)
      with [".file_organizer_learning.json"].
    unfold PathLib.joinpath. simpl. by rewrite TextFacts.name_snoc.
Qed.

Lemma sample_logger_setup :
  match LoggerSetup.setup_logger PipelineSamples.tree PipelineSamples.tmp_path
          "20240101_000000" with
  | Return (_, log_file) => log_file = ["/"; "t"; "cleanup_report_20240101_000000.log"]
  | Raise _ => False
  end.
Proof. vm_compute. reflexivity. Qed.

(** X16, witness: the report of the integration test's tree. *)
Lemma scan_skips_pipeline_files_witness :
  exists fs1 log_file,
    LoggerSetup.setup_logger PipelineSamples.tree PipelineSamples.tmp_path
      "20240101_000000" = Return (fs1, log_file)
    /\ log_file ∉ scan fs1 PipelineSamples.tmp_path [].
Proof.
  pose proof sample_logger_setup as H.
  destruct (LoggerSetup.setup_logger PipelineSamples.tree PipelineSamples.tmp_path
              "20240101_000000") as [[fs1 log_file]|] eqn:E; [|destruct H].
  exists fs1, log_file. split; [reflexivity|].
  apply (scan_skips_pipeline_files "20240101_000000" PipelineSamples.tree
           PipelineSamples.tmp_path fs1 log_file eq_refl E fs1
           PipelineSamples.tmp_path []).
Defined.

End ScannerProps.

(** ** The commands and the pipeline *)

Module PipelineProps.
Import Pipeline.

(** *** Saving the learning store *)

(** X17. What [save] writes, [load] reads back: when [save] returns, the
    state file is a regular file, and loading the snapshot written gives
    the two tables of the store that was saved. *)
Theorem save_then_load (store : LearningStore.t) (fs : FileSystem) (p : Path)
        (fs' : FileSystem) (snapshot : json) :
  OrganizeCommand.save store fs p = Return (fs', snapshot) ->
  nodes fs' !! p = Some File
  /\ exists l, LearningStore.load (Decoded snapshot) = Return l
               /\ LearningStore.typed l = Some store.
Proof.
  unfold OrganizeCommand.save.
  destruct (FS.mkdir fs (PathLib.parent p)) as [fs1|]; [|done].
  destruct (FS.is_dir fs1 p); [done|]. destruct (_ || _); [done|].
  intros [= <- <-]. split; [apply lookup_insert_eq|].
  apply LearningClaims.load_saved.
Qed.

Lemma sample_save :
  match OrganizeCommand.save Samples.design_store Samples.inbox_fs
          ["/"; "srv"; ".file_organizer_learning.json"] with
  | Return _ => True
  | Raise _ => False
  end.
Proof. vm_compute. exact I. Qed.

(** X17, witness: the store of the learning test, saved in the sample
    tree. *)
Lemma save_then_load_witness :
  exists fs' snapshot l,
    OrganizeCommand.save Samples.design_store Samples.inbox_fs
      ["/"; "srv"; ".file_organizer_learning.json"] = Return (fs', snapshot)
    /\ LearningStore.load (Decoded snapshot) = Return l
    /\ LearningStore.typed l = Some Samples.design_store.
Proof.
  pose proof sample_save as H.
  destruct (OrganizeCommand.save Samples.design_store Samples.inbox_fs
              ["/"; "srv"; ".file_organizer_learning.json"])
    as [[fs' snapshot]|] eqn:E; [|destruct H].
  destruct (save_then_load _ _ _ _ _ E) as (_ & l & Hl & Ht).
  by exists fs', snapshot, l.
Defined.

(** *** [ScanCommand] *)




(** *** [ProcessCommand] *)

Lemma process_file_log env store logger p f logger' :
  MetadataProcessor.process_file env store logger p = Return (f, logger') ->
  logger `prefix_of` logger'.
Proof.
  unfold MetadataProcessor.process_file.
  destruct (MetadataProcessor.detect_mime_type env p) as [m|e]; [|done].
  destruct (MetadataProcessor.process_body env store p _) as [st [u|exc]] eqn:E;
    apply ProcessorProps.process_body_log in E; simpl in E.
  - by intros [= ->].
  - intros [= _ <-]. by apply prefix_app_r.
Qed.

Lemma process_loop_spec env store files :
  forall logger done,
    (returns (process_loop env store logger done files)
     <-> Forall (fun p => returns (MetadataProcessor.detect_mime_type env p)) files)
    /\ forall objs logger',
        process_loop env store logger done files = Return (objs, logger') ->
        logger `prefix_of` logger'
        /\ exists out, objs = done ++ out /\ List.map path out = files
                       /\ Forall (fun f => target_path f = None) out.
Proof.
  induction files as [|p files IH]; intros logger done.
  - split.
    + split; [constructor | intros _; by eexists].
    + intros objs logger' [= <- <-]. split; [done|]. exists [].
      by rewrite app_nil_r.
  - cbn [process_loop].
    pose proof (ProcessorClaims.process_file_returns_iff env (Some store) logger p)
      as Hret.
    destruct (MetadataProcessor.process_file env (Some store) logger p)
      as [[f logger1]|e] eqn:E.
    + destruct (IH logger1 (done ++ [f])) as [Hiff Hout].
      split.
      * rewrite Hiff, Forall_cons. split; [|tauto]. intros H. split; [|done].
        apply Hret. by eexists.
      * intros objs logger' H. apply Hout in H as (Hlog & out & -> & Hmap & Hnone).
        split; [etrans; [by eapply process_file_log | done]|].
        exists (f :: out). rewrite <- (assoc_L (++)). split; [done|].
        destruct (ProcessorClaims.process_file_errors _ _ _ _ _ _ E) as [Hp _].
        pose proof (ProcessorClaims.process_file_target_path _ _ _ _ _ _ E).
        split; [simpl; by rewrite Hp, Hmap | by constructor].
    + split; [|done]. split.
      * intros [x Hx]. done.
      * intros H. apply Forall_cons in H as [H _]. apply Hret in H as [x Hx]. done.
Qed.

(** X19. [ProcessCommand] returns exactly when MIME detection returns for
    every file: one file that python-magic cannot open stops the whole
    command. When it returns there is one record per path, in the order
    of the paths, none with a target path; the log is the old one, the
    records of the processor and the final count. *)
Theorem process_command_records (env : Backends) (context : CommandContext)
        (log : list command_record) (files : list Path) :
  (returns (Pipeline.process env context log files)
   <-> Forall (fun p => returns (MetadataProcessor.detect_mime_type env p)) files)
  /\ forall file_objects log',
      Pipeline.process env context log files = Return (file_objects, log') ->
      List.map path file_objects = files
      /\ Forall (fun f => target_path f = None) file_objects
      /\ exists records,
          log' = log ++ engine_log records ++ [INFO_processing_completed (length files)].
Proof.
  unfold Pipeline.process.
  destruct (process_loop_spec env (ctx_learning_store context) files [] [])
    as [Hiff Hout].
  destruct (process_loop env (ctx_learning_store context) [] [] files)
    as [[objs records]|e] eqn:E.
  - split.
    + rewrite <- Hiff. split; intros _; by eexists.
    + intros file_objects log' [= <- <-].
      destruct (Hout _ _ eq_refl) as (_ & out & -> & Hmap & Hnone). simpl.
      split; [done|]. split; [done|]. exists records.
      by rewrite <- Hmap, length_map.
  - split; [|done]. rewrite <- Hiff. split; intros [x Hx]; done.
Qed.

(** X19, witness: the text file of the integration test, without
    python-magic. *)
Lemma process_command_records_witness :
  returns (Pipeline.process PipelineSamples.env PipelineSamples.context []
             [PipelineSamples.notes_txt]).
Proof.
  apply (process_command_records PipelineSamples.env PipelineSamples.context []
           [PipelineSamples.notes_txt]).
  repeat constructor. by eexists.
Defined.

(** *** [run_pipeline] *)

(** X20. When [run_pipeline] returns, every scanned file has been
    processed and counted: the records of the outcome are those of the
    scanned paths, in order; moved + staged is the number of scanned
    files; staged counts the records with an error or a confidence below
    the threshold; and the snapshot saved is that of the store after the
    learning loop. *)
Theorem run_pipeline_accounts (env : Backends) (timestamp : string)
        (state : state_file) (fs : FileSystem) (root : Path)
        (confidence_threshold : Q) (staging_dir_name : string)
        (log_dir learning_state_path : Path) (run : Run) :
  run_pipeline env timestamp state fs root confidence_threshold staging_dir_name
               log_dir learning_state_path = Return (Some run) ->
  let out := run_outcome run in
  let summary := OrganizeCommand.out_summary out in
  List.map path (OrganizeCommand.out_files out) = run_scanned run
  /\ (moved summary + staged summary)%Z = Z.of_nat (length (run_scanned run))
  /\ staged summary
     = Z.of_nat (length (List.filter
                           (fun f => Py.nonempty_list (errors f)
                                     || Py.lt (confidence_score f) confidence_threshold)
                           (OrganizeCommand.out_files out)))
  /\ OrganizeCommand.out_saved out
     = OrganizeCommand.payload (OrganizeCommand.out_learning_store out)
  /\ NoDup (run_scanned run).
Proof.
  unfold run_pipeline.
  destruct (LoggerSetup.setup_logger fs log_dir timestamp) as [[fs1 log_file]|];
    [|done].
  destruct (LearningStore.load state) as [loaded|]; [|done].
  destruct (LearningStore.typed loaded) as [learning_store|]; [|done].
  set (context := {| ctx_root := root |}).
  destruct (cleanup context fs1 _) as [[fs2 log2]|]; [|done].
  destruct (Pipeline.scan context fs2 log2) as [files log3] eqn:Hscan.
  destruct (Pipeline.process env context log3 files) as [[file_objects log4]|] eqn:Hproc;
    [|done].
  destruct (organize context fs2 log4 file_objects) as [[out log5]|] eqn:Horg; [|done].
  intros [= <-]. cbn [run_outcome run_scanned].
  destruct (process_command_records env context log3 files) as [_ Hrec].
  destruct (Hrec _ _ Hproc) as (Hmap & _ & _).
  revert Horg. unfold organize, OrganizeCommand.execute.
  destruct (OrganizationEngine.organize_files _ fs2 [] (ctx_root context) file_objects)
    as [[[[summary fs3] logger3] files3]|] eqn:Hof; [|done].
  destruct (OrganizeCommand.save _ fs3 _) as [[fs4 snapshot]|] eqn:Hsave; [|done].
  intros [= <- _]. cbn [OrganizeCommand.out_files OrganizeCommand.out_summary
                         OrganizeCommand.out_saved OrganizeCommand.out_learning_store].
  revert Hof. unfold OrganizationEngine.organize_files.
  destruct (FS.mkdir fs2 _) as [fs2'|]; [|done].
  destruct (OrganizationEngine.organize_loop _ _ _ _ [] file_objects)
    as [[[[fs5 summary5] logger5] files5]|] eqn:Hloop; [|done].
  intros [= <- <- <- <-].
  apply OrganizationFacts.organize_loop_inv in Hloop as (Hs & Hm & outl & -> & Hre).
  simpl in Hs, Hm. simpl app.
  assert (List.map path outl = List.map path file_objects) as Hpaths.
  { clear -Hre. induction Hre as [|f f' l l' Hf _ IH]; simpl; [done|].
    rewrite IH. f_equal. by destruct Hf as [->|[d ->]]. }
  assert (List.filter (OrganizationEngine.must_stage
                         {| confidence_threshold := ctx_confidence_threshold context;
                            staging_dir_name := ctx_staging_dir_name context |}) outl
          = List.filter (fun f => Py.nonempty_list (errors f)
                                  || Py.lt (confidence_score f) confidence_threshold)
                        outl) as Hfilter by reflexivity.
  assert (length (List.filter
                    (OrganizationEngine.must_stage
                       {| confidence_threshold := ctx_confidence_threshold context;
                          staging_dir_name := ctx_staging_dir_name context |}) outl)
          = length (List.filter
                      (OrganizationEngine.must_stage
                         {| confidence_threshold := ctx_confidence_threshold context;
                            staging_dir_name := ctx_staging_dir_name context |})
                      file_objects)) as Hstaged.
  { clear -Hre. induction Hre as [|f f' l l' Hf _ IH]; [done|].
    cbn [List.filter].
    rewrite (OrganizationFacts.must_stage_retargeted _ f f' Hf).
    destruct (OrganizationEngine.must_stage _ f); cbn [length]; by rewrite IH. }
  split; [congruence|]. split; [|split; [|split]].
  - rewrite Hs, Hm, <- Hmap, length_map. clear.
    induction file_objects as [|f l IH]; simpl; [done|].
    destruct (OrganizationEngine.must_stage _ f); simpl; lia.
  - rewrite Hs, <- Hfilter, Hstaged. apply Z.add_0_l.
  - revert Hsave. unfold OrganizeCommand.save.
    destruct (FS.mkdir _ _) as [fs6|]; [|done].
    destruct (FS.is_dir fs6 _); [done|]. destruct (_ || _); [done|].
    by intros [= _ <-].
  - assert (files = fst (Pipeline.scan context fs2 log2)) as -> by by rewrite Hscan.
    unfold Pipeline.scan. simpl. apply ScannerProps.NoDup_scan.
Qed.

Lemma sample_run :
  match PipelineSamples.run "20240101_000000" with
  | Return (Some run) =>
      OrganizeCommand.out_summary (run_outcome run) = {| moved := 2; staged := 1 |}
      /\ FS.is_file (OrganizeCommand.out_fs (run_outcome run))
           ["/"; "t"; "_UNKNOWN_NEEDS_REVIEW"; "mystery.bin"] = true
      /\ FS.is_file (OrganizeCommand.out_fs (run_outcome run))
           ["/"; "t"; "Media"; "Photos"; "photo.jpg"] = true
      /\ FS.is_file (OrganizeCommand.out_fs (run_outcome run))
           ["/"; "t"; "Documents"; "Text"; "notes.txt"] = true
      /\ FS.exists_ (OrganizeCommand.out_fs (run_outcome run))
           ["/"; "t"; "empty_dir"] = false
  | _ => False
  end.
Proof. vm_compute. repeat split. Qed.

(** X20, witness: the run of the integration test, three files scanned,
    two moved and one staged. *)
Lemma run_pipeline_accounts_witness :
  exists run,
    PipelineSamples.run "20240101_000000" = Return (Some run)
    /\ (moved (OrganizeCommand.out_summary (run_outcome run))
        + staged (OrganizeCommand.out_summary (run_outcome run)))%Z
       = Z.of_nat (length (run_scanned run)).
Proof.
  pose proof sample_run as H.
  destruct (PipelineSamples.run "20240101_000000") as [[run|]|] eqn:E;
    [|destruct H..].
  exists run. split; [reflexivity|].
  unfold PipelineSamples.run in E.
  by destruct (run_pipeline_accounts _ _ _ _ _ _ _ _ _ _ E) as (_ & Hcount & _).
Defined.

End PipelineProps.

(** ** Files that meet, files in place, and the store that learns *)

Module RerunProps.
Import OrganizationEngine.

(** [mkdir(parents=True, exist_ok=True)] on a chain of directories that
    all exist returns the file system as it is. *)
Lemma mkdir_from_existing rest :
  forall fs visited,
    (forall n, 0 < n <= length rest ->
               nodes fs !! (visited ++ take n rest) = Some Dir) ->
    FS.mkdir_from fs visited rest = Return fs.
Proof.
  induction rest as [|x rest IH]; intros fs visited Hall; simpl; [done|].
  assert (nodes fs !! (visited ++ [x]) = Some Dir) as ->.
  { apply (Hall 1). simpl. lia. }
  apply IH. intros n Hn. rewrite <- (assoc_L (++)). simpl.
  apply (Hall (S n)). simpl. lia.
Qed.

(** X21. A record whose file already sits in its destination directory
    is left in place: in a tree where every file lies in directories, the
    iteration creates nothing, moves nothing and returns the record and
    the file system unchanged; it logs the skip and still counts the
    record. *)
Theorem organize_one_in_place (self : Engine) (root staging_root : Path)
        (fs : FileSystem) (summary : Summary) (logger : Logger) (f : FileObject)
        (name : string) :
  let destination_dir := fst (fst (route self root staging_root summary logger f)) in
  Shape.anchored_files fs ->
  nodes fs !! path f = Some File ->
  path f = destination_dir ++ [name] ->
  name <> "/" -> PathLib.parse name = [name] ->
  exists summary' logger',
    organize_one self root staging_root (fs, summary, logger) f
    = Return (fs, summary', logger' ++ [INFO_skip_move (path f)], f)
    /\ (moved summary' + staged summary' = moved summary + staged summary + 1)%Z.
Proof.
  intros destination_dir Hanchored Hfile Hpath Hname Hparse.
  unfold organize_one.
  destruct (route self root staging_root summary logger f)
    as [[dir summary1] logger1] eqn:Hroute.
  assert (moved summary1 + staged summary1 = moved summary + staged summary + 1)%Z
    as Hcount.
  { revert Hroute. unfold route. destruct (must_stage self f);
      intros [= _ <- _]; simpl; lia. }
  subst destination_dir. cbn [fst] in Hpath.
  assert (FS.mkdir fs dir = Return fs) as ->.
  { apply mkdir_from_existing. intros n Hn. simpl.
    assert (take n dir = take n (path f)) as ->.
    { rewrite Hpath, take_app_le; [done | lia]. }
    apply Hanchored; [done|]. rewrite Hpath, length_app. simpl. lia. }
  assert (dir // PathLib.parse (PathLib.name (path f)) = path f) as Hdest.
  { rewrite Hpath at 1. rewrite TextFacts.name_snoc, Hparse by done.
    unfold PathLib.joinpath. simpl.
    apply String.eqb_neq in Hname. unfold PathLib.anchor. by rewrite Hname. }
  rewrite Hdest, bool_decide_eq_true_2 by done.
  by exists summary1, logger1.
Qed.

Lemma organized_tree_anchored : Shape.anchored_files OrganizedSamples.organized_fs.
Proof.
  intros q Hq n Hn. apply elem_of_list_to_map_2 in Hq.
  repeat (apply elem_of_cons in Hq as [Hq|Hq];
          [first [ discriminate Hq
                 | injection Hq as ->;
                   cbv [length Samples.notes_path OrganizedSamples.placed_path] in Hn;
                   do 5 (destruct n as [|n];
                         [first [lia | vm_compute; reflexivity]|]);
                   lia ] |]).
  by apply elem_of_nil in Hq.
Qed.

(** X21, witness: [/srv/Documents/Text/notes.txt], a text file with
    confidence 100, is where it belongs. *)
Lemma organize_one_in_place_witness :
  exists summary' logger',
    organize_one Samples.engine Samples.srv
      (Samples.srv // PathLib.parse (staging_dir_name Samples.engine))
      (OrganizedSamples.organized_fs, mkSummary 0 0, []) OrganizedSamples.placed_record
    = Return (OrganizedSamples.organized_fs, summary',
              logger' ++ [INFO_skip_move OrganizedSamples.placed_path],
              OrganizedSamples.placed_record).
Proof.
  destruct (organize_one_in_place Samples.engine Samples.srv
              (Samples.srv // PathLib.parse (staging_dir_name Samples.engine))
              OrganizedSamples.organized_fs (mkSummary 0 0) []
              OrganizedSamples.placed_record "notes.txt"
              organized_tree_anchored eq_refl eq_refl)
    as (summary' & logger' & H & _).
  - discriminate.
  - reflexivity.
  - by exists summary', logger'.
Defined.




(** X23. The learning loop of [OrganizeCommand] keeps the store well
    formed: if its counts are not negative and its dictionaries have
    distinct keys before, the same holds of the store that is saved. *)
Theorem learned_store_well_formed (context : CommandContext)
        (files : list FileObject) :
  store_nonneg (ctx_learning_store context) ->
  Shape.store_unique (ctx_learning_store context) ->
  store_nonneg (OrganizeCommand.learned context files)
  /\ Shape.store_unique (OrganizeCommand.learned context files).
Proof.
  unfold OrganizeCommand.learned.
  generalize (ctx_learning_store context). induction files as [|f files IH];
    intros store Hn Hu; simpl; [done|].
  apply IH; unfold OrganizeCommand.learn;
    destruct (Py.nonempty_list (errors f)); try done;
    destruct (Py.lt _ _); try done.
  - by apply LearningFacts.update_nonneg.
  - by apply LearningProps.update_unique.
Qed.

(** X23, witness: the empty store and the record of the sample tree. *)
Lemma learned_store_well_formed_witness :
  store_nonneg (OrganizeCommand.learned Samples.context [Samples.notes_record])
  /\ Shape.store_unique (OrganizeCommand.learned Samples.context [Samples.notes_record]).
Proof.
  apply (learned_store_well_formed Samples.context [Samples.notes_record]).
  - split; constructor.
  - split; constructor.
Defined.

End RerunProps.
